(** * go-btfs: chain bootstrap, cheque commands and WebUI constants

    A shallow embedding of
    - [chain/chain.go]            ([InitChain], [initVaultFactory],
                                   [GetTxHash], [GetTxNextBlock]),
    - [core/commands/cheque]      ([ListSendChequesCmd],
                                   [ChequeReceiveHistoryPeerCmd],
                                   [ChequeSendHistoryStatsCmd]),
    - [core/corehttp/webui.go]    ([WebUIPath], [WebUIPaths], the redirect
                                   options),
    followed by the properties established about them.

    Go values are embedded as follows.  A [string] is a sequence of bytes
    (Rocq [string], one [ascii] per byte); a [[]byte] is a [list Z] whose
    members range over [0, 256); [*big.Int], [int64] and [int] are [Z]
    (no claim below depends on wrap-around); a [(T, error)] return is a
    [result T].  Calls on collaborators that live outside these files
    (chain backend, state store, signer, swap service, logger, command
    emitter, ...) are the nodes of a program tree [Prog]; an environment
    answers them when the tree is run. *)

From Stdlib Require Import ZArith Lia Bool Ascii String.
From stdpp Require Import gmap strings list fin_maps.

Local Open Scope string_scope.
Local Open Scope Z_scope.
Local Open Scope list_scope.

(** ** Bytes and strings *)

Module GoString.

(** [len(s)], [s[n:]] and [strings.HasPrefix] / [strings.TrimPrefix]. *)
Definition len (s : string) : Z := Z.of_nat (String.length s).

Fixpoint drop (n : nat) (s : string) : string :=
  match n, s with
  | O, _ => s
  | S n', String _ s' => drop n' s'
  | S _, EmptyString => EmptyString
  end.

Fixpoint HasPrefix (s prefix : string) : bool :=
  match prefix, s with
  | EmptyString, _ => true
  | String p prefix', String c s' =>
      if Ascii.eqb c p then HasPrefix s' prefix' else false
  | String _ _, EmptyString => false
  end.

Definition TrimPrefix (s prefix : string) : string :=
  if HasPrefix s prefix then drop (String.length prefix) s else s.

Definition code (c : ascii) : Z := Z.of_N (N_of_ascii c).

Definition is_empty (s : string) : bool :=
  match s with EmptyString => true | _ => false end.

End GoString.

(** ** Errors *)

(** Go [error] values that occur in the modelled files.  [ErrNotFound] is
    the sentinel [storage.ErrNotFound]; [fmt_Errorf_w] is an [fmt.Errorf]
    whose format ends in the wrapping verb [%w]; [Foreign] stands for any
    other error value a collaborator may hand back. *)
Inductive error : Type :=
| ErrNotFound
| errors_New (msg : string)
| fmt_Errorf_d (format : string) (n : Z)
| fmt_Errorf_w (format : string) (e : error)
| hex_InvalidByteError (c : ascii)
| hex_ErrLength
| Foreign (tag : nat).

Global Instance error_eq_dec : EqDecision error.
Proof. solve_decision. Defined.

(** [errors.Is(err, target)]: [err] or something it wraps is [target]. *)
Fixpoint errors_Is (err target : error) : bool :=
  if decide (err = target) then true
  else match err with
       | fmt_Errorf_w _ e => errors_Is e target
       | _ => false
       end.

Inductive result (A : Type) : Type :=
| Ok (a : A)
| Err (e : error).
Arguments Ok {A} a.
Arguments Err {A} e.

(** ** encoding/hex *)

Module hex.

(** [reverseHexTable]: the value of a hexadecimal digit, [0xff] for any
    other byte. *)
Definition reverseHexTable (c : ascii) : Z :=
  let n := GoString.code c in
  if (48 <=? n) && (n <=? 57) then n - 48
  else if (97 <=? n) && (n <=? 102) then n - 97 + 10
  else if (65 <=? n) && (n <=? 70) then n - 65 + 10
  else 255.

(** [Decode]: two digits per byte; stops at the first byte that is not a
    digit, and reports [ErrLength] for a trailing single digit.  The
    bytes decoded so far are returned next to the error. *)
Fixpoint Decode (src : string) : list Z * option error :=
  match src with
  | EmptyString => ([], None)
  | String p EmptyString =>
      if 15 <? reverseHexTable p
      then ([], Some (hex_InvalidByteError p))
      else ([], Some hex_ErrLength)
  | String p (String q rest) =>
      let a := reverseHexTable p in
      let b := reverseHexTable q in
      if 15 <? a then ([], Some (hex_InvalidByteError p))
      else if 15 <? b then ([], Some (hex_InvalidByteError q))
      else let '(bs, e) := Decode rest in
           (Z.lor (Z.shiftl a 4) b :: bs, e)
  end.

Definition DecodeString (s : string) : list Z * option error := Decode s.

(** [EncodeToString]: lower-case digits, high nibble first. *)
Definition hextable (n : Z) : ascii :=
  ascii_of_N (Z.to_N (if n <? 10 then 48 + n else 97 + (n - 10))).

Fixpoint EncodeToString (src : list Z) : string :=
  match src with
  | [] => EmptyString
  | v :: rest =>
      String (hextable (Z.shiftr v 4))
             (String (hextable (Z.land v 15)) (EncodeToString rest))
  end.

End hex.

(** ** go-ethereum/common *)

Module common.

Definition AddressLength : nat := 20.
Definition HashLength : nat := 32.

(** [Address] is [[20]byte], [Hash] is [[32]byte]. *)
Definition Address : Type := list Z.
Definition Hash : Type := list Z.

(** [SetBytes]: keep the rightmost [n] bytes, pad with zeros on the left. *)
Definition setBytes (n : nat) (b : list Z) : list Z :=
  let b' := skipn (length b - n) b in
  repeat 0 (n - length b') ++ b'.

Definition BytesToHash (b : list Z) : Hash := setBytes HashLength b.
Definition BytesToAddress (b : list Z) : Address := setBytes AddressLength b.
Definition Hash_Bytes (h : Hash) : list Z := h.

Definition has0xPrefix (str : string) : bool :=
  match str with
  | String c0 (String c1 _) =>
      (GoString.code c0 =? 48)
      && ((GoString.code c1 =? 120) || (GoString.code c1 =? 88))
  | _ => false
  end.

Definition isHexCharacter (c : ascii) : bool :=
  let n := GoString.code c in
  ((48 <=? n) && (n <=? 57))
  || ((97 <=? n) && (n <=? 102))
  || ((65 <=? n) && (n <=? 70)).

Fixpoint all_hex (str : string) : bool :=
  match str with
  | EmptyString => true
  | String c rest => if isHexCharacter c then all_hex rest else false
  end.

Definition isHex (str : string) : bool :=
  if negb (GoString.len str mod 2 =? 0) then false else all_hex str.

Definition IsHexAddress (s : string) : bool :=
  let s := if has0xPrefix s then GoString.drop 2 s else s in
  (GoString.len s =? 2 * Z.of_nat AddressLength) && isHex s.

Definition FromHex (s : string) : list Z :=
  let s := if has0xPrefix s then GoString.drop 2 s else s in
  let s := if GoString.len s mod 2 =? 1 then String "0"%char s else s in
  fst (hex.DecodeString s).

Definition HexToAddress (s : string) : Address := BytesToAddress (FromHex s).

End common.

(** ** Data model *)

(** Interface values held by the bootstrap code.  Only their identity
    matters here; what they do is asked of the environment. *)
Inductive Backend : Type := backend_ref (id : nat).
Inductive StateStorer : Type := store_ref (id : nat).
Inductive Signer : Type := signer_ref (id : nat).
Inductive Monitor : Type := monitor_ref (id : nat).
Inductive Service : Type := service_ref (id : nat).
Inductive Factory : Type := factory_ref (id : nat).

(** [config.ChainConfig], with the fields chain.go reads. *)
Module ChainConfig.
Record t : Type := mk {
  Endpoint : string;
  CurrentFactory : common.Address;
  PriceOracleAddress : common.Address
}.
End ChainConfig.

Module ChainInfo.
Record t : Type := mk {
  Chainconfig : ChainConfig.t;
  Backend_ : Backend;
  OverlayAddress : common.Address;
  Signer_ : Signer;
  ChainID : Z;
  PeerID : string;
  TransactionMonitor : Monitor;
  TransactionService : Service
}.
End ChainInfo.

Module Receipt.
Record t : Type := mk { BlockNumber : Z }.
End Receipt.

(** [types.Block]; [Hash] stands for the method [block.Hash()]. *)
Module Block.
Record t : Type := mk { Number : Z; Hash : common.Hash }.
End Block.

(** [vault.SignedCheque]: the embedded [Cheque] and its signature. *)
Module SignedCheque.
Record t : Type := mk {
  Vault : common.Address;
  Beneficiary : common.Address;
  CumulativePayout : Z;
  Signature : list Z
}.
End SignedCheque.

Module ChequeRecord.
Record t : Type := mk {
  PeerID : string;
  Vault : common.Address;
  Beneficiary : common.Address;
  Amount : Z;
  ReceiveTime : Z
}.
End ChequeRecord.

(** One day of [ChequeStore.SentStatsHistory]. *)
Module DailySentStats.
Record t : Type := mk { Amount : Z; Count : Z; Date : Z }.
End DailySentStats.

(** The command result types of package [cheque]. *)
Module cheque.
Record t : Type := mk {
  PeerID : string;
  Beneficiary : string;
  Vault : string;
  Payout : Z
}.
End cheque.

Module ListChequeRet.
Record t : Type := mk { Cheques : list cheque.t; Len : Z }.
End ListChequeRet.

Module chequeRecordRet.
Record t : Type := mk {
  PeerId : string;
  Vault : common.Address;
  Beneficiary : common.Address;
  Amount : Z;
  Time : Z
}.
End chequeRecordRet.

Module ChequeRecords.
Record t : Type := mk { Records : list chequeRecordRet.t; Len : Z }.
End ChequeRecords.

Module chequeSentHistoryStats.
Record t : Type := mk {
  TotalIssued : Z;
  TotalIssuedCount : Z;
  Date : Z
}.
End chequeSentHistoryStats.

(** Equality of all of these is decidable. *)
Global Instance Backend_eq_dec : EqDecision Backend.
Proof. solve_decision. Defined.
Global Instance StateStorer_eq_dec : EqDecision StateStorer.
Proof. solve_decision. Defined.
Global Instance Signer_eq_dec : EqDecision Signer.
Proof. solve_decision. Defined.
Global Instance Monitor_eq_dec : EqDecision Monitor.
Proof. solve_decision. Defined.
Global Instance Service_eq_dec : EqDecision Service.
Proof. solve_decision. Defined.
Global Instance SignedCheque_eq_dec : EqDecision SignedCheque.t.
Proof. solve_decision. Defined.
Global Instance cheque_eq_dec : EqDecision cheque.t.
Proof. solve_decision. Defined.
Global Instance ListChequeRet_eq_dec : EqDecision ListChequeRet.t.
Proof. solve_decision. Defined.
Global Instance chequeRecordRet_eq_dec : EqDecision chequeRecordRet.t.
Proof. solve_decision. Defined.
Global Instance ChequeRecords_eq_dec : EqDecision ChequeRecords.t.
Proof. solve_decision. Defined.
Global Instance chequeSentHistoryStats_eq_dec :
  EqDecision chequeSentHistoryStats.t.
Proof. solve_decision. Defined.

(** Package-level constants of [chain]. [time.Duration] counts nanoseconds. *)
Definition time_Second : Z := 1000000000.
Definition time_Minute : Z := 60 * time_Second.

Definition MaxDelay : Z := 1 * time_Minute.
Definition CancellationDepth : Z := 6.

(** ** Calls on collaborators *)

Inductive LogArg : Type :=
| AInt (n : Z)
| ABytes (b : list Z)
| AStr (s : string).

Inductive Emitted : Type :=
| Emit_ListChequeRet (v : ListChequeRet.t)
| Emit_ChequeRecords (v : ChequeRecords.t)
| Emit_SentStats (v : list chequeSentHistoryStats.t).

(** Every call the modelled code makes on code outside these files.
    [Q_runtime_mapiter m] is the Go runtime walking the map [m] for a
    [range] statement. *)
Inductive Call : Type :=
| Q_config_GetChainConfig (chainID : Z)
| Q_ethclient_Dial (endpoint : string)
| Q_Signer_EthereumAddress (signer : Signer)
| Q_transaction_NewMonitor (backend : Backend) (sender : common.Address)
    (pollingInterval : Z) (cancellationDepth : Z)
| Q_transaction_NewService (backend : Backend) (signer : Signer)
    (stateStore : StateStorer) (chainID : Z) (monitor : Monitor)
| Q_vault_NewFactory (backend : Backend) (transactionService : Service)
    (address : common.Address)
| Q_StateStorer_Get (stateStore : StateStorer) (key : string)
| Q_Backend_TransactionReceipt (backend : Backend) (txHash : common.Hash)
| Q_transaction_WaitBlock (backend : Backend) (duration : Z) (block : Z)
| Q_SwapService_LastSendCheques
| Q_SwapService_ReceivedChequeRecordsByPeer (peer : string)
| Q_ChequeStore_SentStatsHistory (days : Z)
| Q_runtime_mapiter (m : gmap string SignedCheque.t)
| Q_log_Infof (format : string) (args : list LogArg)
| Q_fmt_Println (args : list string)
| Q_cmds_EmitOnce (v : Emitted).

Global Instance LogArg_eq_dec : EqDecision LogArg.
Proof. solve_decision. Defined.
Global Instance Emitted_eq_dec : EqDecision Emitted.
Proof. solve_decision. Defined.
Global Instance Call_eq_dec : EqDecision Call.
Proof. solve_decision. Defined.

(** What each call hands back.  [config.GetChainConfig] returns a pointer
    (here an [option], [None] for nil) and the [found] flag. *)
Definition Resp (c : Call) : Type :=
  match c with
  | Q_config_GetChainConfig _ => (option ChainConfig.t * bool)%type
  | Q_ethclient_Dial _ => result Backend
  | Q_Signer_EthereumAddress _ => result common.Address
  | Q_transaction_NewMonitor _ _ _ _ => Monitor
  | Q_transaction_NewService _ _ _ _ _ => result Service
  | Q_vault_NewFactory _ _ _ => Factory
  | Q_StateStorer_Get _ _ => result common.Hash
  | Q_Backend_TransactionReceipt _ _ => result Receipt.t
  | Q_transaction_WaitBlock _ _ _ => result Block.t
  | Q_SwapService_LastSendCheques => result (gmap string SignedCheque.t)
  | Q_SwapService_ReceivedChequeRecordsByPeer _ => result (list ChequeRecord.t)
  | Q_ChequeStore_SentStatsHistory _ => result (list DailySentStats.t)
  | Q_runtime_mapiter _ => list (string * SignedCheque.t)
  | Q_log_Infof _ _ => unit
  | Q_fmt_Println _ => unit
  | Q_cmds_EmitOnce _ => option error
  end.

(** Calls that query the chain backend. *)
Definition is_backend_query (c : Call) : bool :=
  match c with
  | Q_Backend_TransactionReceipt _ _ | Q_transaction_WaitBlock _ _ _ => true
  | _ => false
  end.

(** ** Programs *)

(** The package-level variable [ChainObject]; [None] is its zero value. *)
Record Globals : Type := mkGlobals { ChainObject : option ChainInfo.t }.

(** A program either returns, panics, assigns to the package-level
    variables, or calls a collaborator and continues with the answer. *)
Inductive Prog (A : Type) : Type :=
| Ret (a : A)
| Panic (msg : string)
| Assign (upd : Globals -> Globals) (k : Prog A)
| Vis (c : Call) (k : Resp c -> Prog A).
Arguments Ret {A} a.
Arguments Panic {A} msg.
Arguments Assign {A} upd k.
Arguments Vis {A} c k.

Fixpoint bind {A B : Type} (p : Prog A) (f : A -> Prog B) : Prog B :=
  match p with
  | Ret a => f a
  | Panic msg => Panic msg
  | Assign upd k => Assign upd (bind k f)
  | Vis c k => Vis c (fun r => bind (k r) f)
  end.

Global Instance Prog_ret : MRet Prog := @Ret.
Global Instance Prog_bind : MBind Prog := fun A B f p => bind p f.

(** The collaborators' operations, each asking the environment. *)
Definition config_GetChainConfig (chainID : Z)
  : Prog (option ChainConfig.t * bool) :=
  Vis (Q_config_GetChainConfig chainID) Ret.
Definition ethclient_Dial (endpoint : string) : Prog (result Backend) :=
  Vis (Q_ethclient_Dial endpoint) Ret.
Definition Signer_EthereumAddress (signer : Signer)
  : Prog (result common.Address) :=
  Vis (Q_Signer_EthereumAddress signer) Ret.
Definition transaction_NewMonitor (backend : Backend)
    (sender : common.Address) (pollingInterval cancellationDepth : Z)
  : Prog Monitor :=
  Vis (Q_transaction_NewMonitor backend sender pollingInterval
         cancellationDepth) Ret.
Definition transaction_NewService (backend : Backend) (signer : Signer)
    (stateStore : StateStorer) (chainID : Z) (monitor : Monitor)
  : Prog (result Service) :=
  Vis (Q_transaction_NewService backend signer stateStore chainID monitor)
      Ret.
Definition vault_NewFactory (backend : Backend)
    (transactionService : Service) (address : common.Address)
  : Prog Factory :=
  Vis (Q_vault_NewFactory backend transactionService address) Ret.
Definition StateStorer_Get (stateStore : StateStorer) (key : string)
  : Prog (result common.Hash) :=
  Vis (Q_StateStorer_Get stateStore key) Ret.
Definition Backend_TransactionReceipt (backend : Backend)
    (txHash : common.Hash) : Prog (result Receipt.t) :=
  Vis (Q_Backend_TransactionReceipt backend txHash) Ret.
Definition transaction_WaitBlock (backend : Backend) (duration block : Z)
  : Prog (result Block.t) :=
  Vis (Q_transaction_WaitBlock backend duration block) Ret.
Definition SwapService_LastSendCheques
  : Prog (result (gmap string SignedCheque.t)) :=
  Vis Q_SwapService_LastSendCheques Ret.
Definition SwapService_ReceivedChequeRecordsByPeer (peer : string)
  : Prog (result (list ChequeRecord.t)) :=
  Vis (Q_SwapService_ReceivedChequeRecordsByPeer peer) Ret.
Definition ChequeStore_SentStatsHistory (days : Z)
  : Prog (result (list DailySentStats.t)) :=
  Vis (Q_ChequeStore_SentStatsHistory days) Ret.
Definition runtime_mapiter (m : gmap string SignedCheque.t)
  : Prog (list (string * SignedCheque.t)) :=
  Vis (Q_runtime_mapiter m) Ret.
Definition Infof (format : string) (args : list LogArg) : Prog unit :=
  Vis (Q_log_Infof format args) Ret.
Definition fmt_Println (args : list string) : Prog unit :=
  Vis (Q_fmt_Println args) Ret.
Definition cmds_EmitOnce (v : Emitted) : Prog (option error) :=
  Vis (Q_cmds_EmitOnce v) Ret.

(** Dereferencing a pointer: a nil pointer panics. *)
Definition deref {A : Type} (p : option A) : Prog A :=
  match p with
  | Some a => Ret a
  | None => Panic "invalid memory address or nil pointer dereference"
  end.

(** ** Running a program against an environment *)

Inductive outcome (A : Type) : Type :=
| Returned (a : A)
| Panicked (msg : string).
Arguments Returned {A} a.
Arguments Panicked {A} msg.

(** An environment with state [S] answers each call and moves on. *)
Definition handler (S : Type) : Type := forall c : Call, S -> Resp c * S.

(** One exchange with the environment: the call and its answer. *)
Definition Exchange : Type := { c : Call & Resp c }.
Definition exchange (c : Call) (r : Resp c) : Exchange := existT c r.

Record World (S : Type) : Type := mkWorld {
  globals : Globals;
  env : S
}.
Arguments mkWorld {S} globals env.
Arguments globals {S} w.
Arguments env {S} w.

(** What an execution leaves behind: its outcome, the world it ends in
    and the exchanges it made, oldest first. *)
Record Execution (S A : Type) : Type := mkExecution {
  out : outcome A;
  final : World S;
  trace : list Exchange
}.
Arguments mkExecution {S A} out final trace.
Arguments out {S A} e.
Arguments final {S A} e.
Arguments trace {S A} e.

Fixpoint run {S A : Type} (h : handler S) (p : Prog A) (w : World S)
  : Execution S A :=
  match p with
  | Ret a => mkExecution (Returned a) w []
  | Panic msg => mkExecution (Panicked msg) w []
  | Assign upd k => run h k (mkWorld (upd (globals w)) (env w))
  | Vis c k =>
      let a := h c (env w) in
      let e := run h (k (fst a)) (mkWorld (globals w) (snd a)) in
      mkExecution (out e) (final e) (exchange c (fst a) :: trace e)
  end.

(** The calls of a trace, and the values handed to [cmds.EmitOnce]. *)
Definition asked (tr : list Exchange) : list Call := map (@projT1 _ _) tr.

Definition emitted_of (c : Call) : option Emitted :=
  match c with Q_cmds_EmitOnce v => Some v | _ => None end.

Definition emitted (tr : list Exchange) : list Emitted :=
  omap emitted_of (asked tr).

(** ** chain/chain.go *)

(** [InitChain].  The [context.Context] argument is not used by the body.
    The second [if err != nil] of the source sits right after the first
    one has returned on a non-nil [err], so it is never entered; the
    published value is returned (the source returns [&ChainObject]). *)
Definition InitChain (stateStore : StateStorer) (signer : Signer)
    (pollingInterval : Z) (chainID : Z) (peerid : string)
  : Prog (result ChainInfo.t) :=
  looked ← (config_GetChainConfig chainID);
  let chainconfig := fst looked in
  cfg ← deref chainconfig;
  dialed ← (ethclient_Dial (ChainConfig.Endpoint cfg));
  match dialed with
  | Err err => Ret (Err (fmt_Errorf_w "dial eth client: %w" err))
  | Ok backend =>
      addr ← (Signer_EthereumAddress signer);
      match addr with
      | Err err => Ret (Err (fmt_Errorf_w "eth address: %w" err))
      | Ok overlayEthAddress =>
          transactionMonitor ←
            (transaction_NewMonitor backend overlayEthAddress
                    pollingInterval CancellationDepth);
          svc ← (transaction_NewService backend signer stateStore
                        chainID transactionMonitor);
          match svc with
          | Err err =>
              Ret (Err (fmt_Errorf_w "new transaction service: %w" err))
          | Ok transactionService =>
              let obj :=
                ChainInfo.mk cfg backend overlayEthAddress signer chainID
                             peerid transactionMonitor transactionService in
              Assign (fun _ => mkGlobals (Some obj)) (Ret (Ok obj))
          end
      end
  end.

(** [initVaultFactory].  [chainCfg.CurrentFactory] is read before [found]
    is looked at. *)
Definition initVaultFactory (backend : Backend) (chainID : Z)
    (transactionService : Service) (factoryAddress : string)
  : Prog (result Factory) :=
  looked ← (config_GetChainConfig chainID);
  let chainCfg := fst looked in
  let found := snd looked in
  cfg ← deref chainCfg;
  let foundFactory := ChainConfig.CurrentFactory cfg in
  let resolve : Prog (result common.Address) :=
    (if GoString.is_empty factoryAddress then
       if negb found then
         Ret (Err (fmt_Errorf_d
           "no known factory address for this network (chain id: %d)"
           chainID))
       else
         let currentFactory := foundFactory in
         _ ← (Infof
                     "using default factory address for chain id %d: %x"
                     [AInt chainID; ABytes currentFactory]);
         Ret (Ok currentFactory)
     else if negb (common.IsHexAddress factoryAddress) then
       Ret (Err (errors_New "malformed factory address"))
     else
       let currentFactory := common.HexToAddress factoryAddress in
       _ ← (Infof "using custom factory address: %x"
                   [ABytes currentFactory]);
       Ret (Ok currentFactory)) in
  chosen ← resolve;
  match chosen with
  | Err err => Ret (Err err)
  | Ok currentFactory =>
      f ← (vault_NewFactory backend transactionService currentFactory);
      Ret (Ok f)
  end.

Section VaultKey.

(** [vault.VaultDeploymentKey], a constant of package [vault]. *)
Variable VaultDeploymentKey : string.

Definition GetTxHash (stateStore : StateStorer) : Prog (result (list Z)) :=
  let key := VaultDeploymentKey in
  got ← (StateStorer_Get stateStore key);
  match got with
  | Err err =>
      if errors_Is err ErrNotFound then
        Ret (Err (errors_New
          "vault deployment transaction hash not found, please specify the transaction hash manually"))
      else Ret (Err err)
  | Ok txHash =>
      _ ← (Infof "using the vault transaction hash %x"
                  [ABytes txHash]);
      Ret (Ok (common.Hash_Bytes txHash))
  end.

End VaultKey.

(** [GetTxNextBlock].  [monitor] is accepted and not used, as in the
    source. *)
Definition GetTxNextBlock (backend : Backend) (monitor : Monitor)
    (duration : Z) (trx : list Z) (blockHash : string)
  : Prog (result (list Z)) :=
  if negb (GoString.is_empty blockHash) then
    let blockHashTrimmed := GoString.TrimPrefix blockHash "0x" in
    if negb (GoString.len blockHashTrimmed =? 64) then
      Ret (Err (errors_New "invalid length"))
    else
      let decoded := hex.DecodeString blockHashTrimmed in
      match snd decoded with
      | Some err => Ret (Err err)
      | None =>
          _ ← (Infof "using the provided block hash %x"
                      [ABytes (fst decoded)]);
          Ret (Ok (fst decoded))
      end
  else
    receipt ← (Backend_TransactionReceipt backend
                      (common.BytesToHash trx));
    match receipt with
    | Err err => Ret (Err err)
    | Ok tx =>
        waited ← (transaction_WaitBlock backend duration
                         (Receipt.BlockNumber tx + 1));
        match waited with
        | Err err => Ret (Err err)
        | Ok block =>
            let hash := Block.Hash block in
            let hashBytes := common.Hash_Bytes hash in
            _ ← (Infof
                        "using the next block hash from the blockchain %x"
                        [ABytes hashBytes]);
            Ret (Ok hashBytes)
        end
    end.

(** ** core/commands/cheque *)

Section ChequeCommands.

(** [common.Address.String()], the checksummed hexadecimal text of an
    address (go-ethereum). *)
Variable Address_String : common.Address -> string.

(** The body of the [range cheques] loop of [ListSendChequesCmd]. *)
Definition send_list_step (Cheques : list cheque.t)
    (kv : string * SignedCheque.t) : list cheque.t :=
  let k := fst kv in
  let v := snd kv in
  let record :=
    cheque.mk k
              (Address_String (SignedCheque.Beneficiary v))
              (Address_String (SignedCheque.Vault v))
              (SignedCheque.CumulativePayout v) in
  Cheques ++ [record].

(** [ListSendChequesCmd.Run].  [cheques] is a Go map; the order in which
    [range] visits it is whatever the runtime yields. *)
Definition ListSendChequesCmd_Run : Prog (option error) :=
  got ← SwapService_LastSendCheques;
  match got with
  | Err err => Ret (Some err)
  | Ok cheques =>
      visited ← runtime_mapiter cheques;
      let Cheques := fold_left send_list_step visited [] in
      let listRet :=
        ListChequeRet.mk Cheques (Z.of_nat (length Cheques)) in
      cmds_EmitOnce (Emit_ListChequeRet listRet)
  end.

End ChequeCommands.

(** [big.Int.Uint64()]: the low 64 bits of the magnitude. *)
Definition big_Uint64 (x : Z) : Z := Z.abs x mod 2 ^ 64.

(** One data line of the text encoder of [ListSendChequesCmd]:
    peer, vault, beneficiary, amount. *)
Definition send_list_row (c : cheque.t) : string * string * string * Z :=
  (cheque.PeerID c, cheque.Vault c, cheque.Beneficiary c,
   big_Uint64 (cheque.Payout c)).

(** The loop [for iter := 0; iter < out.Len; iter++] of the text encoder:
    the data lines it prints, in order; indexing past the slice panics. *)
Fixpoint send_list_lines (Cheques : list cheque.t) (iters : list nat)
  : outcome (list (string * string * string * Z)) :=
  match iters with
  | [] => Returned []
  | iter :: rest =>
      match Cheques !! iter with
      | None => Panicked "index out of range"
      | Some c =>
          match send_list_lines Cheques rest with
          | Returned ls => Returned (send_list_row c :: ls)
          | Panicked msg => Panicked msg
          end
      end
  end.

Definition ListSendChequesCmd_Text (o : ListChequeRet.t)
  : outcome (list (string * string * string * Z)) :=
  send_list_lines (ListChequeRet.Cheques o)
                  (seq 0 (Z.to_nat (ListChequeRet.Len o))).

(** The body of the [range records] loop of [ChequeReceiveHistoryPeerCmd]. *)
Definition receive_history_step (peer_id : string)
    (recordsRet : list chequeRecordRet.t) (v : ChequeRecord.t)
  : list chequeRecordRet.t :=
  recordsRet ++ [chequeRecordRet.mk peer_id
                   (ChequeRecord.Vault v)
                   (ChequeRecord.Beneficiary v)
                   (ChequeRecord.Amount v)
                   (ChequeRecord.ReceiveTime v)].

(** [ChequeReceiveHistoryPeerCmd.Run]; [Arguments] is [req.Arguments]. *)
Definition ChequeReceiveHistoryPeerCmd_Run (Arguments : list string)
  : Prog (option error) :=
  match Arguments with
  | [] => Panic "index out of range"
  | peer_id :: _ =>
      _ ← fmt_Println ["ChequeReceiveHistoryPeerCmd peer_id = "; peer_id];
      got ← SwapService_ReceivedChequeRecordsByPeer peer_id;
      match got with
      | Err err => Ret (Some err)
      | Ok records =>
          let recordsRet :=
            fold_left (receive_history_step peer_id) records [] in
          let listRet :=
            ChequeRecords.mk recordsRet (Z.of_nat (length recordsRet)) in
          cmds_EmitOnce (Emit_ChequeRecords listRet)
      end
  end.

(** The body of the [range stats] loop of [ChequeSendHistoryStatsCmd]. *)
Definition send_stats_step (ret : list chequeSentHistoryStats.t)
    (stat : DailySentStats.t) : list chequeSentHistoryStats.t :=
  ret ++ [chequeSentHistoryStats.mk (DailySentStats.Amount stat)
            (DailySentStats.Count stat) (DailySentStats.Date stat)].

Definition sentStatsDuration : Z := 30.

(** [ChequeSendHistoryStatsCmd.Run]. *)
Definition ChequeSendHistoryStatsCmd_Run : Prog (option error) :=
  got ← ChequeStore_SentStatsHistory sentStatsDuration;
  match got with
  | Err err => Ret (Some err)
  | Ok stats =>
      let ret := fold_left send_stats_step stats [] in
      cmds_EmitOnce (Emit_SentStats ret)
  end.

(** ** core/corehttp/webui.go *)

(** What [RedirectOption(path, redirect)] is called with: the name the
    option is mounted under and the target it redirects to. *)
Module ServeOption.
Record t : Type := mk { path : string; redirect : string }.
End ServeOption.

Definition RedirectOption (path redirect : string) : ServeOption.t :=
  ServeOption.mk path redirect.

Definition WebUIPath : string :=
  "/btfs/QmPSaMbVPTrcPg8CxW8GRrKYY9YZyxEQek9eKg5is13S9H".

Definition WebUIPaths : list string :=
  [ WebUIPath;
    "/btfs/QmRZYABH4LisEQPQmpzHAAxacDZbsKtnysjzEuZBaug6bG";
    "/btfs/QmRwxtQfzpfaLKYfg3qhxsFfpRm3J3qLXJxDofsLV8ydXq" ].

Definition HostUIOption : ServeOption.t := RedirectOption "hostui" WebUIPath.
Definition WebUIOption : ServeOption.t := RedirectOption "webui" WebUIPath.
Definition DashboardOption : ServeOption.t :=
  RedirectOption "dashboard" WebUIPath.

(** ** Sample environments *)

(** A scripted environment: every collaborator answers from a table and
    keeps no state of its own. *)
Module Script.

Record t : Type := mk {
  chain_config : Z -> option ChainConfig.t * bool;
  dial : string -> result Backend;
  ethereum_address : Signer -> result common.Address;
  new_monitor : Monitor;
  new_service : result Service;
  new_factory : Factory;
  store_get : string -> result common.Hash;
  receipt : common.Hash -> result Receipt.t;
  wait_block : Z -> result Block.t;
  last_send_cheques : result (gmap string SignedCheque.t);
  mapiter : gmap string SignedCheque.t -> list (string * SignedCheque.t);
  received_records : string -> result (list ChequeRecord.t);
  sent_stats : Z -> result (list DailySentStats.t);
  emit_once : option error
}.

Definition answer (s : t) (c : Call) : Resp c :=
  match c as c0 return Resp c0 with
  | Q_config_GetChainConfig chainID => chain_config s chainID
  | Q_ethclient_Dial endpoint => dial s endpoint
  | Q_Signer_EthereumAddress signer => ethereum_address s signer
  | Q_transaction_NewMonitor _ _ _ _ => new_monitor s
  | Q_transaction_NewService _ _ _ _ _ => new_service s
  | Q_vault_NewFactory _ _ _ => new_factory s
  | Q_StateStorer_Get _ key => store_get s key
  | Q_Backend_TransactionReceipt _ txHash => receipt s txHash
  | Q_transaction_WaitBlock _ _ block => wait_block s block
  | Q_SwapService_LastSendCheques => last_send_cheques s
  | Q_SwapService_ReceivedChequeRecordsByPeer peer =>
      received_records s peer
  | Q_ChequeStore_SentStatsHistory days => sent_stats s days
  | Q_runtime_mapiter m => mapiter s m
  | Q_log_Infof _ _ => tt
  | Q_fmt_Println _ => tt
  | Q_cmds_EmitOnce _ => emit_once s
  end.

Definition serve : handler t := fun c s => (answer s c, s).

Definition addrA : common.Address := repeat 17 20.
Definition addrB : common.Address := repeat 34 20.
Definition hashH : common.Hash := repeat 171 32.

Definition config199 : ChainConfig.t :=
  ChainConfig.mk "https://rpc.example:8545" addrA addrB.

Definition chequeA : SignedCheque.t := SignedCheque.mk addrA addrB 100 [].
Definition chequeB : SignedCheque.t := SignedCheque.mk addrB addrA 250 [].

Definition two_cheques : gmap string SignedCheque.t :=
  <[ "peerB" := chequeB ]> (<[ "peerA" := chequeA ]> ∅).

Definition two_records : list ChequeRecord.t :=
  [ ChequeRecord.mk "peerA" addrA addrB 5 1700000000;
    ChequeRecord.mk "peerA" addrA addrB 7 1700086400 ].

Definition two_days : list DailySentStats.t :=
  [ DailySentStats.mk 12 2 1700000000;
    DailySentStats.mk 30 1 1700172800 ].

(** A reachable node of chain 199 with everything in place. *)
Definition healthy : t :=
  mk (fun id => if id =? 199 then (Some config199, true)
                else (Some (ChainConfig.mk "" [] []), false))
     (fun _ => Ok (backend_ref 0))
     (fun _ => Ok addrA)
     (monitor_ref 0)
     (Ok (service_ref 0))
     (factory_ref 0)
     (fun _ => Ok hashH)
     (fun _ => Ok (Receipt.mk 41))
     (fun n => Ok (Block.mk n hashH))
     (Ok two_cheques)
     map_to_list
     (fun _ => Ok two_records)
     (fun _ => Ok two_days)
     None.

(** The same node, with the runtime walking maps the other way round. *)
Definition healthy_reversed : t :=
  mk (chain_config healthy) (dial healthy) (ethereum_address healthy)
     (new_monitor healthy) (new_service healthy) (new_factory healthy)
     (store_get healthy) (receipt healthy) (wait_block healthy)
     (last_send_cheques healthy)
     (fun m => reverse (map_to_list m))
     (received_records healthy) (sent_stats healthy) (emit_once healthy).

(** A node whose chain endpoint cannot be dialled. *)
Definition unreachable : t :=
  mk (chain_config healthy) (fun _ => Err (Foreign 1))
     (ethereum_address healthy)
     (new_monitor healthy) (new_service healthy) (new_factory healthy)
     (store_get healthy) (receipt healthy) (wait_block healthy)
     (last_send_cheques healthy) (mapiter healthy)
     (received_records healthy) (sent_stats healthy) (emit_once healthy).

(** A node whose state store has no deployment hash, or fails to read. *)
Definition with_store (g : string -> result common.Hash) : t :=
  mk (chain_config healthy) (dial healthy) (ethereum_address healthy)
     (new_monitor healthy) (new_service healthy) (new_factory healthy)
     g (receipt healthy) (wait_block healthy)
     (last_send_cheques healthy) (mapiter healthy)
     (received_records healthy) (sent_stats healthy) (emit_once healthy).

Definition start (s : t) : World t := mkWorld (mkGlobals None) s.

(** Identity of the address text, for running the send-list command. *)
Definition show_address (a : common.Address) : string :=
  String "0"%char (String "x"%char (hex.EncodeToString a)).

Definition hash64 : string :=
  "00112233445566778899aAbBcCdDeEfF00112233445566778899aabbccddeeff".

End Script.

(** ** Vocabulary of the specification *)

Module HexSpec.

(** Position of a character in a string of digits. *)
Fixpoint index_of (c : ascii) (digits : string) : option Z :=
  match digits with
  | EmptyString => None
  | String d rest =>
      if Ascii.eqb c d then Some 0
      else match index_of c rest with
           | Some i => Some (i + 1)
           | None => None
           end
  end.

(** The value of a hexadecimal digit, in either case. *)
Definition digit_value (c : ascii) : option Z :=
  match index_of c "0123456789abcdef" with
  | Some v => Some v
  | None => index_of c "0123456789ABCDEF"
  end.

(** [encodes s bs]: the text [s] is a hexadecimal encoding of the bytes
    [bs], two digits per byte, most significant digit first. *)
Inductive encodes : string -> list Z -> Prop :=
| encodes_nil : encodes EmptyString []
| encodes_cons (p q : ascii) (rest : string) (hi lo : Z) (bs : list Z) :
    digit_value p = Some hi ->
    digit_value q = Some lo ->
    encodes rest bs ->
    encodes (String p (String q rest)) (16 * hi + lo :: bs).

(** A valid hexadecimal encoding of exactly 32 bytes. *)
Definition encodes_hash (s : string) (bs : list Z) : Prop :=
  encodes s bs /\ length bs = 32%nat.

(** Every character is a hexadecimal digit. *)
Fixpoint all_digits (s : string) : Prop :=
  match s with
  | EmptyString => True
  | String c rest => digit_value c <> None /\ all_digits rest
  end.

End HexSpec.

(** The Go runtime visits every entry of a map exactly once during a
    [range], in an order of its own choosing: each answer to
    [runtime_mapiter] in the trace is a permutation of the map's entries. *)
Definition lawful_range (tr : list Exchange) : Prop :=
  forall m visited,
    In (exchange (Q_runtime_mapiter m) visited) tr ->
    visited ≡ₚ map_to_list m.

(** The entry the send-list command shows for one peer's last cheque. *)
Definition send_list_entry (Address_String : common.Address -> string)
    (kv : string * SignedCheque.t) : cheque.t :=
  cheque.mk (fst kv)
            (Address_String (SignedCheque.Beneficiary (snd kv)))
            (Address_String (SignedCheque.Vault (snd kv)))
            (SignedCheque.CumulativePayout (snd kv)).

(** The entry the receive-history command shows for one record. *)
Definition receive_history_entry (peer : string) (v : ChequeRecord.t)
  : chequeRecordRet.t :=
  chequeRecordRet.mk peer (ChequeRecord.Vault v) (ChequeRecord.Beneficiary v)
                     (ChequeRecord.Amount v) (ChequeRecord.ReceiveTime v).

(** The entry the sent-stats command shows for one day. *)
Definition send_stats_entry (stat : DailySentStats.t)
  : chequeSentHistoryStats.t :=
  chequeSentHistoryStats.mk (DailySentStats.Amount stat)
                            (DailySentStats.Count stat)
                            (DailySentStats.Date stat).

(** "The confirmation depth can be tuned": some deployment (environment
    and arguments of [InitChain]) gets a monitor of another depth. *)
Definition depth_tunable : Prop :=
  exists (S : Type) (h : handler S) (w : World S) stateStore signer
         pollingInterval chainID peerid backend sender interval depth,
    In (Q_transaction_NewMonitor backend sender interval depth)
       (asked (trace (run h (InitChain stateStore signer pollingInterval
                               chainID peerid) w)))
    /\ depth <> 6.

(** "Two executions of send-list over the same mapping display the same
    sequence": whatever lawful order the runtime picks, the emitted
    entries agree. *)
Definition send_list_stable (Address_String : common.Address -> string)
  : Prop :=
  forall (S1 S2 : Type) (h1 : handler S1) (h2 : handler S2)
         (w1 : World S1) (w2 : World S2) (m : gmap string SignedCheque.t),
    In (exchange Q_SwapService_LastSendCheques (Ok m))
       (trace (run h1 (ListSendChequesCmd_Run Address_String) w1)) ->
    In (exchange Q_SwapService_LastSendCheques (Ok m))
       (trace (run h2 (ListSendChequesCmd_Run Address_String) w2)) ->
    lawful_range (trace (run h1 (ListSendChequesCmd_Run Address_String) w1)) ->
    lawful_range (trace (run h2 (ListSendChequesCmd_Run Address_String) w2)) ->
    emitted (trace (run h1 (ListSendChequesCmd_Run Address_String) w1))
    = emitted (trace (run h2 (ListSendChequesCmd_Run Address_String) w2)).

(** ** Further vocabulary *)

(** The first character of a text that is not a hexadecimal digit. *)
Fixpoint first_non_digit (s : string) : option ascii :=
  match s with
  | EmptyString => None
  | String c rest =>
      match HexSpec.digit_value c with
      | None => Some c
      | Some _ => first_non_digit rest
      end
  end.

(** Further sample inputs and environments. *)
Module Sample.

(** 64 characters, the last but one of which is not a digit. *)
Definition bad64 : string :=
  "00112233445566778899aAbBcCdDeEfF00112233445566778899aabbccddeegf".

Definition bytes32 : list Z :=
  [0; 17; 34; 51; 68; 85; 102; 119; 136; 153; 170; 187; 204; 221; 238; 255;
   0; 17; 34; 51; 68; 85; 102; 119; 136; 153; 170; 187; 204; 221; 238; 255].

(** A node whose backend cannot find the reference transaction. *)
Definition no_receipt : Script.t :=
  Script.mk (Script.chain_config Script.healthy) (Script.dial Script.healthy)
    (Script.ethereum_address Script.healthy)
    (Script.new_monitor Script.healthy) (Script.new_service Script.healthy)
    (Script.new_factory Script.healthy) (Script.store_get Script.healthy)
    (fun _ => Err (Foreign 2)) (Script.wait_block Script.healthy)
    (Script.last_send_cheques Script.healthy) (Script.mapiter Script.healthy)
    (Script.received_records Script.healthy)
    (Script.sent_stats Script.healthy) (Script.emit_once Script.healthy).

(** A node whose configuration lookup hands back a nil pointer. *)
Definition nil_config : Script.t :=
  Script.mk (fun _ => (None, false)) (Script.dial Script.healthy)
    (Script.ethereum_address Script.healthy)
    (Script.new_monitor Script.healthy) (Script.new_service Script.healthy)
    (Script.new_factory Script.healthy) (Script.store_get Script.healthy)
    (Script.receipt Script.healthy) (Script.wait_block Script.healthy)
    (Script.last_send_cheques Script.healthy) (Script.mapiter Script.healthy)
    (Script.received_records Script.healthy)
    (Script.sent_stats Script.healthy) (Script.emit_once Script.healthy).

(** A node whose signer cannot tell its address. *)
Definition no_signer : Script.t :=
  Script.mk (Script.chain_config Script.healthy) (Script.dial Script.healthy)
    (fun _ => Err (Foreign 3))
    (Script.new_monitor Script.healthy) (Script.new_service Script.healthy)
    (Script.new_factory Script.healthy) (Script.store_get Script.healthy)
    (Script.receipt Script.healthy) (Script.wait_block Script.healthy)
    (Script.last_send_cheques Script.healthy) (Script.mapiter Script.healthy)
    (Script.received_records Script.healthy)
    (Script.sent_stats Script.healthy) (Script.emit_once Script.healthy).

(** A factory address given by hand. *)
Definition address40 : string :=
  "0x00112233445566778899aAbBcCdDeEfF00112233".

(** A store whose error wraps [ErrNotFound]. *)
Definition missing_hash : Script.t :=
  Script.with_store
    (fun _ => Err (fmt_Errorf_w "state store: %w" ErrNotFound)).

(** A node whose swap service cannot list cheques. *)
Definition no_cheques : Script.t :=
  Script.mk (Script.chain_config Script.healthy) (Script.dial Script.healthy)
    (Script.ethereum_address Script.healthy)
    (Script.new_monitor Script.healthy) (Script.new_service Script.healthy)
    (Script.new_factory Script.healthy) (Script.store_get Script.healthy)
    (Script.receipt Script.healthy) (Script.wait_block Script.healthy)
    (Err (Foreign 4)) (Script.mapiter Script.healthy)
    (fun _ => Err (Foreign 5))
    (Script.sent_stats Script.healthy) (Script.emit_once Script.healthy).

End Sample.

(** ** Settlement wiring: the rest of chain/chain.go *)

(** Further interface values, known by their identity only. *)
Inductive ChequeSigner : Type := chequesigner_ref (id : nat).
Inductive ChequeStore : Type := chequestore_ref (id : nat).
Inductive CashoutService : Type := cashout_ref (id : nat).
Inductive Accounting : Type := accounting_ref (id : nat).
Inductive VaultService : Type := vaultservice_ref (id : nat).
Inductive PriceOracle : Type := priceoracle_ref (id : nat).
Inductive SwapProtocol : Type := swapprotocol_ref (id : nat).
Inductive Addressbook : Type := addressbook_ref (id : nat).
Inductive SwapService : Type := swapservice_ref (id : nat).

(** A [context.Context]: the caller's, or one on which
    [sctx.SetGasPrice] has put a gas price. *)
Inductive Context : Type :=
| ctx_ref (id : nat)
| sctx_SetGasPrice (ctx : Context) (gasPrice : Z).

Global Instance ChequeSigner_eq_dec : EqDecision ChequeSigner.
Proof. solve_decision. Defined.
Global Instance ChequeStore_eq_dec : EqDecision ChequeStore.
Proof. solve_decision. Defined.
Global Instance CashoutService_eq_dec : EqDecision CashoutService.
Proof. solve_decision. Defined.
Global Instance Accounting_eq_dec : EqDecision Accounting.
Proof. solve_decision. Defined.
Global Instance VaultService_eq_dec : EqDecision VaultService.
Proof. solve_decision. Defined.
Global Instance PriceOracle_eq_dec : EqDecision PriceOracle.
Proof. solve_decision. Defined.
Global Instance SwapProtocol_eq_dec : EqDecision SwapProtocol.
Proof. solve_decision. Defined.
Global Instance Addressbook_eq_dec : EqDecision Addressbook.
Proof. solve_decision. Defined.
Global Instance SwapService_eq_dec : EqDecision SwapService.
Proof. solve_decision. Defined.
Global Instance Factory_eq_dec : EqDecision Factory.
Proof. solve_decision. Defined.
Global Instance Context_eq_dec : EqDecision Context.
Proof. solve_decision. Defined.

Module SettleInfo.
Record t : Type := mk {
  Factory_ : Factory;
  VaultService_ : VaultService;
  ChequeStore_ : ChequeStore;
  CashoutService_ : CashoutService;
  SwapService_ : SwapService;
  OracleService : PriceOracle
}.
End SettleInfo.

(** Errors of the settlement wiring: an [error] as before, an
    [fmt.Errorf] with one [%s] verb, or an [fmt.Errorf] whose [%w] wraps
    one of these. *)
Inductive Error : Type :=
| Plain (e : error)
| Errorf_s (format : string) (s : string)
| Errorf_w (format : string) (cause : Error).

Inductive Result (A : Type) : Type :=
| Success (a : A)
| Failure (e : Error).
Arguments Success {A} a.
Arguments Failure {A} e.

(** The format of the gas-price error; it holds two double quotes. *)
Definition double_quote : string := String (ascii_of_nat 34) EmptyString.

Definition gas_price_format : string :=
  String.append "deploy gas price "
    (String.append double_quote
       (String.append "%s"
          (String.append double_quote " cannot be parsed"))).

(** [new(big.Int).SetString(s, 10)]: an optional sign, then one decimal
    digit or more, and nothing else. *)
Fixpoint decimal_digits (s : string) (acc : Z) : option Z :=
  match s with
  | EmptyString => Some acc
  | String c rest =>
      let n := GoString.code c in
      if (48 <=? n) && (n <=? 57)
      then decimal_digits rest (10 * acc + (n - 48))
      else None
  end.

Definition big_SetString (s : string) : option Z :=
  match s with
  | EmptyString => None
  | String c rest =>
      if GoString.code c =? 43 then
        if GoString.is_empty rest then None else decimal_digits rest 0
      else if GoString.code c =? 45 then
        if GoString.is_empty rest then None
        else option_map Z.opp (decimal_digits rest 0)
      else decimal_digits s 0
  end.

(** The calls of the settlement wiring: those of the chain bootstrap, and
    the constructors and setters of the settlement packages. *)
Inductive SettleCall : Type :=
| Q_chain (c : Call)
| Q_vault_NewChequeStore (stateStore : StateStorer) (factory : Factory)
    (chainID : Z) (beneficiary : common.Address)
    (transactionService : Service)
| Q_vault_NewCashoutService (stateStore : StateStorer) (backend : Backend)
    (transactionService : Service) (chequeStore : ChequeStore)
| Q_accounting_NewAccounting (stateStore : StateStorer)
| Q_vault_NewChequeSigner (signer : Signer) (chainID : Z)
| Q_vault_Init (ctx : Context) (vaultFactory : Factory)
    (stateStore : StateStorer) (transactionService : Service)
    (backend : Backend) (chainID : Z) (peerId : string)
    (overlayEthAddress : common.Address) (chequeSigner : ChequeSigner)
    (chequeStore : ChequeStore)
| Q_priceoracle_New (priceOracleAddress : common.Address)
    (transactionService : Service)
| Q_swapprotocol_New (overlayEthAddress : common.Address)
    (priceOracle : PriceOracle)
| Q_swap_NewAddressbook (stateStore : StateStorer)
| Q_swap_New (swapProtocol : SwapProtocol) (stateStore : StateStorer)
    (vaultService : VaultService) (chequeStore : ChequeStore)
    (addressbook : Addressbook) (chainID : Z)
    (cashoutService : CashoutService) (accounting : Accounting)
| Q_SwapProtocol_SetSwap (swapProtocol : SwapProtocol)
    (swapService : SwapService)
| Q_Accounting_SetPayFunc (accounting : Accounting)
    (swapService : SwapService).

Global Instance SettleCall_eq_dec : EqDecision SettleCall.
Proof. solve_decision. Defined.

Definition SettleResp (c : SettleCall) : Type :=
  match c with
  | Q_chain c' => Resp c'
  | Q_vault_NewChequeStore _ _ _ _ _ => ChequeStore
  | Q_vault_NewCashoutService _ _ _ _ => CashoutService
  | Q_accounting_NewAccounting _ => result Accounting
  | Q_vault_NewChequeSigner _ _ => ChequeSigner
  | Q_vault_Init _ _ _ _ _ _ _ _ _ _ => result VaultService
  | Q_priceoracle_New _ _ => PriceOracle
  | Q_swapprotocol_New _ _ => SwapProtocol
  | Q_swap_NewAddressbook _ => Addressbook
  | Q_swap_New _ _ _ _ _ _ _ _ => SwapService
  | Q_SwapProtocol_SetSwap _ _ => unit
  | Q_Accounting_SetPayFunc _ _ => unit
  end.

(** The package-level variables the wiring writes: [chain.SettleObject],
    [swapprotocol.SwapProtocol], and those of the bootstrap. *)
Record SettleGlobals : Type := mkSettleGlobals {
  chain_globals : Globals;
  SettleObject : option SettleInfo.t;
  SwapProtocol_global : option SwapProtocol
}.

Inductive SettleProg (A : Type) : Type :=
| SRet (a : A)
| SPanic (msg : string)
| SAssign (upd : SettleGlobals -> SettleGlobals) (k : SettleProg A)
| SVis (c : SettleCall) (k : SettleResp c -> SettleProg A).
Arguments SRet {A} a.
Arguments SPanic {A} msg.
Arguments SAssign {A} upd k.
Arguments SVis {A} c k.

Fixpoint sbind {A B : Type} (p : SettleProg A) (f : A -> SettleProg B)
  : SettleProg B :=
  match p with
  | SRet a => f a
  | SPanic msg => SPanic msg
  | SAssign upd k => SAssign upd (sbind k f)
  | SVis c k => SVis c (fun r => sbind (k r) f)
  end.

Global Instance SettleProg_ret : MRet SettleProg := @SRet.
Global Instance SettleProg_bind : MBind SettleProg :=
  fun A B f p => sbind p f.

(** A program of the bootstrap layer, run inside the wiring. *)
Fixpoint lift {A : Type} (p : Prog A) : SettleProg A :=
  match p with
  | Ret a => SRet a
  | Panic msg => SPanic msg
  | Assign upd k =>
      SAssign (fun g => mkSettleGlobals (upd (chain_globals g))
                          (SettleObject g) (SwapProtocol_global g))
              (lift k)
  | Vis c k => SVis (Q_chain c) (fun r => lift (k r))
  end.

Definition sderef {A : Type} (p : option A) : SettleProg A :=
  match p with
  | Some a => SRet a
  | None => SPanic "invalid memory address or nil pointer dereference"
  end.

Definition vault_NewChequeStore (stateStore : StateStorer)
    (factory : Factory) (chainID : Z) (beneficiary : common.Address)
    (transactionService : Service) : SettleProg ChequeStore :=
  SVis (Q_vault_NewChequeStore stateStore factory chainID beneficiary
          transactionService) SRet.
Definition vault_NewCashoutService (stateStore : StateStorer)
    (backend : Backend) (transactionService : Service)
    (chequeStore : ChequeStore) : SettleProg CashoutService :=
  SVis (Q_vault_NewCashoutService stateStore backend transactionService
          chequeStore) SRet.
Definition accounting_NewAccounting (stateStore : StateStorer)
  : SettleProg (result Accounting) :=
  SVis (Q_accounting_NewAccounting stateStore) SRet.
Definition vault_NewChequeSigner (signer : Signer) (chainID : Z)
  : SettleProg ChequeSigner :=
  SVis (Q_vault_NewChequeSigner signer chainID) SRet.
Definition vault_Init (ctx : Context) (vaultFactory : Factory)
    (stateStore : StateStorer) (transactionService : Service)
    (backend : Backend) (chainID : Z) (peerId : string)
    (overlayEthAddress : common.Address) (chequeSigner : ChequeSigner)
    (chequeStore : ChequeStore) : SettleProg (result VaultService) :=
  SVis (Q_vault_Init ctx vaultFactory stateStore transactionService backend
          chainID peerId overlayEthAddress chequeSigner chequeStore) SRet.
Definition priceoracle_New (priceOracleAddress : common.Address)
    (transactionService : Service) : SettleProg PriceOracle :=
  SVis (Q_priceoracle_New priceOracleAddress transactionService) SRet.
Definition swapprotocol_New (overlayEthAddress : common.Address)
    (priceOracle : PriceOracle) : SettleProg SwapProtocol :=
  SVis (Q_swapprotocol_New overlayEthAddress priceOracle) SRet.
Definition swap_NewAddressbook (stateStore : StateStorer)
  : SettleProg Addressbook :=
  SVis (Q_swap_NewAddressbook stateStore) SRet.
Definition swap_New (swapProtocol : SwapProtocol) (stateStore : StateStorer)
    (vaultService : VaultService) (chequeStore : ChequeStore)
    (addressbook : Addressbook) (chainID : Z)
    (cashoutService : CashoutService) (accounting : Accounting)
  : SettleProg SwapService :=
  SVis (Q_swap_New swapProtocol stateStore vaultService chequeStore
          addressbook chainID cashoutService accounting) SRet.
Definition SwapProtocol_SetSwap (swapProtocol : SwapProtocol)
    (swapService : SwapService) : SettleProg unit :=
  SVis (Q_SwapProtocol_SetSwap swapProtocol swapService) SRet.
Definition Accounting_SetPayFunc (accounting : Accounting)
    (swapService : SwapService) : SettleProg unit :=
  SVis (Q_Accounting_SetPayFunc accounting swapService) SRet.

(** [initChequeStoreCashout].  [vault.RecoverCheque], the last argument
    of [vault.NewChequeStore], is a function of package [vault] and the
    same at every call. *)
Definition initChequeStoreCashout (stateStore : StateStorer)
    (swapBackend : Backend) (vaultFactory : Factory) (chainID : Z)
    (overlayEthAddress : common.Address) (transactionService : Service)
  : SettleProg (ChequeStore * CashoutService) :=
  chequeStore ← vault_NewChequeStore stateStore vaultFactory chainID
                  overlayEthAddress transactionService;
  cashout ← vault_NewCashoutService stateStore swapBackend
              transactionService chequeStore;
  SRet (chequeStore, cashout).

(** [initVaultService]. *)
Definition initVaultService (ctx : Context) (stateStore : StateStorer)
    (signer : Signer) (chainID : Z) (peerId : string) (backend : Backend)
    (overlayEthAddress : common.Address) (transactionService : Service)
    (vaultFactory : Factory) (deployGasPrice : string)
    (chequeStore : ChequeStore) : SettleProg (Result VaultService) :=
  chequeSigner ← vault_NewChequeSigner signer chainID;
  let priced : Result Context :=
    if negb (GoString.is_empty deployGasPrice) then
      match big_SetString deployGasPrice with
      | None => Failure (Errorf_s gas_price_format deployGasPrice)
      | Some gasPrice => Success (sctx_SetGasPrice ctx gasPrice)
      end
    else Success ctx in
  match priced with
  | Failure err => SRet (Failure err)
  | Success ctx =>
      inited ← vault_Init ctx vaultFactory stateStore transactionService
                 backend chainID peerId overlayEthAddress chequeSigner
                 chequeStore;
      match inited with
      | Err err => SRet (Failure (Errorf_w "vault init: %w" (Plain err)))
      | Ok vaultService => SRet (Success vaultService)
      end
  end.

(** [initSwap].  With no address given, [chainCfg.PriceOracleAddress] is
    read before [found] is looked at. *)
Definition initSwap (stateStore : StateStorer)
    (overlayEthAddress : common.Address) (vaultService : VaultService)
    (chequeStore : ChequeStore) (cashoutService : CashoutService)
    (accounting : Accounting) (priceOracleAddress : string) (chainID : Z)
    (transactionService : Service)
  : SettleProg (result (SwapService * PriceOracle)) :=
  let resolve : SettleProg (result common.Address) :=
    (if GoString.is_empty priceOracleAddress then
       looked ← lift (config_GetChainConfig chainID);
       let chainCfg := fst looked in
       let found := snd looked in
       cfg ← sderef chainCfg;
       let currentPriceOracleAddress := ChainConfig.PriceOracleAddress cfg in
       if negb found then
         SRet (Err (errors_New
                      "no known price oracle address for this network"))
       else SRet (Ok currentPriceOracleAddress)
     else SRet (Ok (common.HexToAddress priceOracleAddress))) in
  resolved ← resolve;
  match resolved with
  | Err err => SRet (Err err)
  | Ok currentPriceOracleAddress =>
      priceOracle ← priceoracle_New currentPriceOracleAddress
                      transactionService;
      swapProtocol ← swapprotocol_New overlayEthAddress priceOracle;
      swapAddressBook ← swap_NewAddressbook stateStore;
      swapService ← swap_New swapProtocol stateStore vaultService
                      chequeStore swapAddressBook chainID cashoutService
                      accounting;
      _ ← SwapProtocol_SetSwap swapProtocol swapService;
      SAssign (fun g => mkSettleGlobals (chain_globals g) (SettleObject g)
                          (Some swapProtocol))
              (SRet (Ok (swapService, priceOracle)))
  end.

Section Settlement.

(** [common.Address.String()], as for the cheque commands. *)
Variable Address_String : common.Address -> string.

(** [InitSettlement].  [chaininfo] is a pointer, read first for the
    arguments of [initVaultFactory]. *)
Definition InitSettlement (ctx : Context) (stateStore : StateStorer)
    (chaininfo : option ChainInfo.t) (deployGasPrice : string) (chainID : Z)
  : SettleProg (Result SettleInfo.t) :=
  ci ← sderef chaininfo;
  made ← lift (initVaultFactory (ChainInfo.Backend_ ci) (ChainInfo.ChainID ci)
                 (ChainInfo.TransactionService ci)
                 (Address_String
                    (ChainConfig.CurrentFactory (ChainInfo.Chainconfig ci))));
  match made with
  | Err _ => SRet (Failure (Plain (errors_New "init vault factory error")))
  | Ok factory =>
      stores ← initChequeStoreCashout stateStore (ChainInfo.Backend_ ci)
                 factory chainID (ChainInfo.OverlayAddress ci)
                 (ChainInfo.TransactionService ci);
      let chequeStore := fst stores in
      let cashoutService := snd stores in
      acc ← accounting_NewAccounting stateStore;
      match acc with
      | Err _ =>
          SRet (Failure (Plain (errors_New "new accounting service error")))
      | Ok accounting =>
          vs ← initVaultService ctx stateStore (ChainInfo.Signer_ ci)
                 (ChainInfo.ChainID ci) (ChainInfo.PeerID ci)
                 (ChainInfo.Backend_ ci) (ChainInfo.OverlayAddress ci)
                 (ChainInfo.TransactionService ci) factory deployGasPrice
                 chequeStore;
          match vs with
          | Failure err =>
              SRet (Failure (Errorf_w "init vault service: %w" err))
          | Success vaultService =>
              sw ← initSwap stateStore (ChainInfo.OverlayAddress ci)
                     vaultService chequeStore cashoutService accounting
                     (Address_String
                        (ChainConfig.PriceOracleAddress
                           (ChainInfo.Chainconfig ci)))
                     (ChainInfo.ChainID ci)
                     (ChainInfo.TransactionService ci);
              match sw with
              | Err _ =>
                  SRet (Failure (Plain (errors_New
                                          "init swap service error")))
              | Ok built =>
                  let swapService := fst built in
                  let priceOracleService := snd built in
                  _ ← Accounting_SetPayFunc accounting swapService;
                  let obj :=
                    SettleInfo.mk factory vaultService chequeStore
                                  cashoutService swapService
                                  priceOracleService in
                  SAssign (fun g => mkSettleGlobals (chain_globals g)
                                      (Some obj) (SwapProtocol_global g))
                          (SRet (Success obj))
              end
          end
      end
  end.

End Settlement.

(** Running the wiring against an environment. *)
Definition settle_handler (S : Type) : Type :=
  forall c : SettleCall, S -> SettleResp c * S.

Definition SettleExchange : Type := { c : SettleCall & SettleResp c }.
Definition settle_exchange (c : SettleCall) (r : SettleResp c)
  : SettleExchange := existT c r.

Record SettleWorld (S : Type) : Type := mkSettleWorld {
  settle_globals : SettleGlobals;
  settle_env : S
}.
Arguments mkSettleWorld {S} settle_globals settle_env.
Arguments settle_globals {S} _.
Arguments settle_env {S} _.

Record SettleExecution (S A : Type) : Type := mkSettleExecution {
  settle_out : outcome A;
  settle_final : SettleWorld S;
  settle_trace : list SettleExchange
}.
Arguments mkSettleExecution {S A} settle_out settle_final settle_trace.
Arguments settle_out {S A} _.
Arguments settle_final {S A} _.
Arguments settle_trace {S A} _.

Fixpoint settle_run {S A : Type} (h : settle_handler S) (p : SettleProg A)
    (w : SettleWorld S) : SettleExecution S A :=
  match p with
  | SRet a => mkSettleExecution (Returned a) w []
  | SPanic msg => mkSettleExecution (Panicked msg) w []
  | SAssign upd k =>
      settle_run h k (mkSettleWorld (upd (settle_globals w)) (settle_env w))
  | SVis c k =>
      let a := h c (settle_env w) in
      let e := settle_run h (k (fst a))
                 (mkSettleWorld (settle_globals w) (snd a)) in
      mkSettleExecution (settle_out e) (settle_final e)
        (settle_exchange c (fst a) :: settle_trace e)
  end.

Definition settle_asked (tr : list SettleExchange) : list SettleCall :=
  map (@projT1 _ _) tr.

(** The calls of a trace that are not calls of the bootstrap layer. *)
Definition is_wiring_call (c : SettleCall) : bool :=
  match c with Q_chain _ => false | _ => true end.

Definition wiring_calls (tr : list SettleExchange) : list SettleCall :=
  List.filter is_wiring_call (settle_asked tr).

(** A scripted environment for the wiring. *)
Module SettleScript.

Record t : Type := mk {
  chain : Script.t;
  new_accounting : result Accounting;
  vault_init : result VaultService
}.

Definition answer (s : t) (c : SettleCall) : SettleResp c :=
  match c as c0 return SettleResp c0 with
  | Q_chain c' => Script.answer (chain s) c'
  | Q_vault_NewChequeStore _ _ _ _ _ => chequestore_ref 0
  | Q_vault_NewCashoutService _ _ _ _ => cashout_ref 0
  | Q_accounting_NewAccounting _ => new_accounting s
  | Q_vault_NewChequeSigner _ _ => chequesigner_ref 0
  | Q_vault_Init _ _ _ _ _ _ _ _ _ _ => vault_init s
  | Q_priceoracle_New _ _ => priceoracle_ref 0
  | Q_swapprotocol_New _ _ => swapprotocol_ref 0
  | Q_swap_NewAddressbook _ => addressbook_ref 0
  | Q_swap_New _ _ _ _ _ _ _ _ => swapservice_ref 0
  | Q_SwapProtocol_SetSwap _ _ => tt
  | Q_Accounting_SetPayFunc _ _ => tt
  end.

Definition serve : settle_handler t := fun c s => (answer s c, s).

Definition healthy : t :=
  mk Script.healthy (Ok (accounting_ref 0)) (Ok (vaultservice_ref 0)).

(** A node on which the vault cannot be initialised. *)
Definition no_vault : t :=
  mk Script.healthy (Ok (accounting_ref 0)) (Err (Foreign 6)).

Definition start (s : t) : SettleWorld t :=
  mkSettleWorld (mkSettleGlobals (mkGlobals None) None None) s.

(** What [InitChain] hands to [InitSettlement] on the healthy node. *)
Definition chaininfo : ChainInfo.t :=
  ChainInfo.mk Script.config199 (backend_ref 0) Script.addrA (signer_ref 0)
    199 "me" (monitor_ref 0) (service_ref 0).

End SettleScript.

(** The bootstrap layer as seen from the wiring: its environment and its
    exchanges. *)
Definition chain_handler {S : Type} (h : settle_handler S) : handler S :=
  fun c s => h (Q_chain c) s.

Definition lift_exchange (x : Exchange) : SettleExchange :=
  settle_exchange (Q_chain (projT1 x)) (projT2 x).

Definition chain_world {S : Type} (w : SettleWorld S) : World S :=
  mkWorld (chain_globals (settle_globals w)) (settle_env w).

Definition with_chain_world {S : Type} (w : SettleWorld S) (c : World S)
  : SettleWorld S :=
  mkSettleWorld
    (mkSettleGlobals (globals c) (SettleObject (settle_globals w))
                     (SwapProtocol_global (settle_globals w)))
    (env c).

(** * Properties *)

(** ** Traces *)

Lemma exchange_inj (c : Call) (r r' : Resp c) :
  exchange c r = exchange c r' -> r = r'.
Proof.
  unfold exchange. intros H.
  apply (Eqdep_dec.inj_pair2_eq_dec Call) in H; [exact H|].
  intros x y. destruct (decide (x = y)); [left | right]; assumption.
Qed.

Lemma exchange_call (c c' : Call) (r : Resp c) (r' : Resp c') :
  exchange c r = exchange c' r' -> c = c'.
Proof. intros H. exact (f_equal (@projT1 _ _) H). Qed.

(** Unfolds one layer of a program being run, down to the answers of the
    environment. *)
Ltac run_steps :=
  cbn [mbind mret Prog_bind Prog_ret bind run trace out final globals env
       deref config_GetChainConfig ethclient_Dial Signer_EthereumAddress
       transaction_NewMonitor transaction_NewService vault_NewFactory
       StateStorer_Get Backend_TransactionReceipt transaction_WaitBlock
       SwapService_LastSendCheques SwapService_ReceivedChequeRecordsByPeer
       ChequeStore_SentStatsHistory runtime_mapiter Infof fmt_Println
       cmds_EmitOnce].

(** Splits a membership in a short trace into its cases and drops those
    that name another call or another kind of answer. *)
Ltac in_trace H :=
  cbn [In] in H;
  repeat (destruct H as [H|H]);
  try contradiction;
  try (apply exchange_call in H; discriminate H);
  try (apply exchange_inj in H; discriminate H).

(** ** encoding/hex against its specification *)

Lemma string_pair_ind (P : string -> Prop) :
  P EmptyString ->
  (forall c, P (String c EmptyString)) ->
  (forall p q rest, P rest -> P (String p (String q rest))) ->
  forall s, P s.
Proof.
  intros H0 H1 H2.
  assert (both : forall s, P s /\ forall c, P (String c s)).
  { induction s as [|d s [IHs IHcs]]; split; auto. }
  intros s. apply both.
Qed.

Lemma digit_value_table (c : ascii) :
  match HexSpec.digit_value c with
  | Some v => hex.reverseHexTable c = v /\ 0 <= v <= 15
  | None => 15 < hex.reverseHexTable c
  end.
Proof.
  destruct c as [[] [] [] [] [] [] [] []]; vm_compute; intuition congruence.
Qed.

Lemma nibbles_join (a b : Z) :
  0 <= a <= 15 -> 0 <= b <= 15 -> Z.lor (Z.shiftl a 4) b = 16 * a + b.
Proof.
  intros Ha Hb.
  assert (Ea : a = 0 \/ a = 1 \/ a = 2 \/ a = 3 \/ a = 4 \/ a = 5 \/ a = 6
               \/ a = 7 \/ a = 8 \/ a = 9 \/ a = 10 \/ a = 11 \/ a = 12
               \/ a = 13 \/ a = 14 \/ a = 15) by lia.
  assert (Eb : b = 0 \/ b = 1 \/ b = 2 \/ b = 3 \/ b = 4 \/ b = 5 \/ b = 6
               \/ b = 7 \/ b = 8 \/ b = 9 \/ b = 10 \/ b = 11 \/ b = 12
               \/ b = 13 \/ b = 14 \/ b = 15) by lia.
  repeat (destruct Ea as [-> | Ea]); try subst a;
    repeat (destruct Eb as [-> | Eb]); try subst b; reflexivity.
Qed.

Lemma Decode_complete (s : string) (bs : list Z) :
  HexSpec.encodes s bs -> hex.Decode s = (bs, None).
Proof.
  induction 1 as [|p q rest hi lo bs Hp Hq _ IH]; [reflexivity|].
  pose proof (digit_value_table p) as Tp. rewrite Hp in Tp.
  pose proof (digit_value_table q) as Tq. rewrite Hq in Tq.
  destruct Tp as [Ep Rp], Tq as [Eq Rq].
  cbn [hex.Decode]. rewrite Ep, Eq, IH.
  destruct (15 <? hi) eqn:Chi; [apply Z.ltb_lt in Chi; lia|].
  destruct (15 <? lo) eqn:Clo; [apply Z.ltb_lt in Clo; lia|].
  rewrite nibbles_join by assumption. reflexivity.
Qed.

Lemma Decode_sound (s : string) :
  forall bs, hex.Decode s = (bs, None) -> HexSpec.encodes s bs.
Proof.
  induction s as [|c|p q rest IH] using string_pair_ind; intros bs H.
  - inversion H. constructor.
  - cbn [hex.Decode] in H.
    destruct (15 <? hex.reverseHexTable c); discriminate.
  - cbn [hex.Decode] in H.
    pose proof (digit_value_table p) as Tp.
    pose proof (digit_value_table q) as Tq.
    destruct (15 <? hex.reverseHexTable p) eqn:Cp; [discriminate|].
    destruct (15 <? hex.reverseHexTable q) eqn:Cq; [discriminate|].
    apply Z.ltb_ge in Cp, Cq.
    destruct (HexSpec.digit_value p) as [hi|] eqn:Hp; [|lia].
    destruct (HexSpec.digit_value q) as [lo|] eqn:Hq; [|lia].
    destruct Tp as [Ep Rp], Tq as [Eq Rq].
    destruct (hex.Decode rest) as [bs' e'] eqn:Hrest.
    inversion H; subst bs e'; clear H.
    rewrite Ep, Eq, nibbles_join by assumption.
    constructor; auto.
Qed.

Lemma encodes_length (s : string) (bs : list Z) :
  HexSpec.encodes s bs -> String.length s = (2 * length bs)%nat.
Proof.
  induction 1 as [|p q rest hi lo bs _ _ _ IH]; [reflexivity|].
  cbn [String.length length]. rewrite IH. lia.
Qed.

Lemma encodes_all_digits (s : string) (bs : list Z) :
  HexSpec.encodes s bs -> HexSpec.all_digits s.
Proof.
  induction 1 as [|p q rest hi lo bs Hp Hq _ IH]; [exact I|].
  cbn [HexSpec.all_digits]. rewrite Hp, Hq. repeat split; auto; discriminate.
Qed.

Lemma all_digits_encodes (s : string) :
  Nat.Even (String.length s) -> HexSpec.all_digits s ->
  exists bs, HexSpec.encodes s bs.
Proof.
  induction s as [|c|p q rest IH] using string_pair_ind; intros Hev Hd.
  - exists []. constructor.
  - destruct Hev as [k Hk]. cbn in Hk. lia.
  - cbn [HexSpec.all_digits] in Hd. destruct Hd as (Hp & Hq & Hrest).
    destruct IH as [bs Hbs]; [|exact Hrest|].
    { destruct Hev as [k Hk]. cbn [String.length] in Hk.
      exists (k - 1)%nat. lia. }
    destruct (HexSpec.digit_value p) as [hi|] eqn:Ep; [|congruence].
    destruct (HexSpec.digit_value q) as [lo|] eqn:Eq; [|congruence].
    exists (16 * hi + lo :: bs). constructor; assumption.
Qed.

Lemma encodes_bytes (s : string) (bs : list Z) :
  HexSpec.encodes s bs -> Forall (fun b => 0 <= b < 256) bs.
Proof.
  induction 1 as [|p q rest hi lo bs Hp Hq _ IH]; constructor; [|exact IH].
  pose proof (digit_value_table p) as Tp. rewrite Hp in Tp.
  pose proof (digit_value_table q) as Tq. rewrite Hq in Tq. lia.
Qed.

(** ** Strings *)

Lemma is_empty_spec (s : string) :
  GoString.is_empty s = true <-> s = EmptyString.
Proof. destruct s; cbn; split; congruence. Qed.

Lemma is_empty_false (s : string) :
  s <> EmptyString -> GoString.is_empty s = false.
Proof. destruct s; [congruence | reflexivity]. Qed.

Lemma len_eqb_64 (s : string) :
  (GoString.len s =? 64) = true <-> String.length s = 64%nat.
Proof. unfold GoString.len. rewrite Z.eqb_eq. lia. Qed.

(** ** GetTxNextBlock *)

Section NextBlock.

Context {S : Type} (h : handler S) (w : World S).
Variables (backend : Backend) (monitor : Monitor) (duration : Z).

(** With a block hash supplied, the function is decided by the text
    alone. *)
Lemma GetTxNextBlock_supplied (trx : list Z) (blockHash : string) :
  blockHash <> EmptyString ->
  GetTxNextBlock backend monitor duration trx blockHash =
  let t := GoString.TrimPrefix blockHash "0x" in
  if negb (GoString.len t =? 64) then
    Ret (Err (errors_New "invalid length"))
  else match snd (hex.Decode t) with
       | Some err => Ret (Err err)
       | None =>
           Vis (Q_log_Infof "using the provided block hash %x"
                  [ABytes (fst (hex.Decode t))])
               (fun _ => Ret (Ok (fst (hex.Decode t))))
       end.
Proof.
  intros Hne. unfold GetTxNextBlock.
  rewrite (is_empty_false _ Hne). cbn [negb].
  cbv zeta. destruct (negb _); [reflexivity|].
  unfold hex.DecodeString.
  destruct (snd (hex.Decode _)); reflexivity.
Qed.

Lemma GetTxNextBlock_supplied_ok (trx : list Z) (blockHash : string)
    (bs : list Z) :
  blockHash <> EmptyString ->
  HexSpec.encodes_hash (GoString.TrimPrefix blockHash "0x") bs ->
  GetTxNextBlock backend monitor duration trx blockHash =
  Vis (Q_log_Infof "using the provided block hash %x" [ABytes bs])
      (fun _ => Ret (Ok bs)).
Proof.
  intros Hne [Henc Hlen].
  rewrite GetTxNextBlock_supplied by assumption. cbv zeta.
  pose proof (encodes_length _ _ Henc) as Hl.
  assert (Hl64 : String.length (GoString.TrimPrefix blockHash "0x") = 64%nat)
    by lia.
  apply len_eqb_64 in Hl64. rewrite Hl64. cbn [negb].
  rewrite (Decode_complete _ _ Henc). reflexivity.
Qed.

Lemma GetTxNextBlock_supplied_out (trx : list Z) (blockHash : string) :
  blockHash <> EmptyString ->
  forall o,
    out (run h (GetTxNextBlock backend monitor duration trx blockHash) w)
    = o ->
    match o with
    | Returned (Ok bs) =>
        HexSpec.encodes_hash (GoString.TrimPrefix blockHash "0x") bs
    | Returned (Err _) => True
    | Panicked _ => False
    end.
Proof.
  intros Hne o <-.
  rewrite GetTxNextBlock_supplied by assumption. cbv zeta.
  destruct (negb _) eqn:Hlen; [exact I|].
  apply negb_false_iff, len_eqb_64 in Hlen.
  destruct (hex.Decode (GoString.TrimPrefix blockHash "0x"))
    as [bs [err|]] eqn:Hdec; cbn; [exact I|].
  pose proof (Decode_sound _ _ Hdec) as Henc.
  split; [exact Henc|].
  apply encodes_length in Henc. lia.
Qed.

End NextBlock.

(** C2.  With a non-empty block hash, [GetTxNextBlock] returns bytes [bs]
    exactly when the text, once a leading [0x] is removed, is a valid
    hexadecimal encoding of the 32 bytes [bs], and returns an error
    otherwise.  With no block hash it first reads the receipt of the
    reference transaction, then waits for the block numbered one past the
    receipt's block, and returns that block's hash bytes; an error of
    either step is returned as it is. *)
Theorem GetTxNextBlock_block_hash :
  forall (S : Type) (h : handler S) (w : World S) (backend : Backend)
         (monitor : Monitor) (duration : Z) (trx : list Z)
         (blockHash : string),
    (blockHash <> EmptyString ->
       (forall bs,
           out (run h (GetTxNextBlock backend monitor duration trx
                         blockHash) w) = Returned (Ok bs)
           <-> HexSpec.encodes_hash (GoString.TrimPrefix blockHash "0x") bs)
       /\ ((exists bs,
               out (run h (GetTxNextBlock backend monitor duration trx
                             blockHash) w) = Returned (Ok bs))
           \/ (exists err,
                  out (run h (GetTxNextBlock backend monitor duration trx
                                blockHash) w) = Returned (Err err))))
    /\ (blockHash = EmptyString ->
        exists receipt : result Receipt.t,
          trace (run h (GetTxNextBlock backend monitor duration trx
                          blockHash) w) !! 0%nat
          = Some (exchange (Q_Backend_TransactionReceipt backend
                              (common.BytesToHash trx)) receipt)
          /\ match receipt with
             | Err err =>
                 out (run h (GetTxNextBlock backend monitor duration trx
                               blockHash) w) = Returned (Err err)
             | Ok tx =>
                 exists waited : result Block.t,
                   trace (run h (GetTxNextBlock backend monitor duration trx
                                   blockHash) w) !! 1%nat
                   = Some (exchange (Q_transaction_WaitBlock backend duration
                                       (Receipt.BlockNumber tx + 1)) waited)
                   /\ match waited with
                      | Err err =>
                          out (run h (GetTxNextBlock backend monitor duration
                                        trx blockHash) w) = Returned (Err err)
                      | Ok block =>
                          out (run h (GetTxNextBlock backend monitor duration
                                        trx blockHash) w)
                          = Returned (Ok (common.Hash_Bytes (Block.Hash block)))
                      end
             end).
Proof.
  intros S h w backend monitor duration trx blockHash. split.
  - intros Hne. split.
    + intros bs. split.
      * intros Hout.
        exact (GetTxNextBlock_supplied_out h w backend monitor duration trx
                 blockHash Hne _ Hout).
      * intros Henc.
        rewrite (GetTxNextBlock_supplied_ok backend monitor duration trx
                   blockHash bs Hne Henc).
        reflexivity.
    + pose proof (GetTxNextBlock_supplied_out h w backend monitor duration
                    trx blockHash Hne _ eq_refl) as Hout.
      destruct (out _) as [[bs|err]|msg]; [left | right | contradiction];
        eexists; reflexivity.
  - intros ->. unfold GetTxNextBlock. cbn [GoString.is_empty negb].
    run_steps.
    set (a1 := h (Q_Backend_TransactionReceipt backend
                    (common.BytesToHash trx)) (env w)).
    exists (fst a1). split; [reflexivity|].
    destruct (fst a1) as [tx|err]; [|reflexivity].
    run_steps.
    set (a2 := h (Q_transaction_WaitBlock backend duration
                    (Receipt.BlockNumber tx + 1)) (snd a1)).
    exists (fst a2). split; [reflexivity|].
    destruct (fst a2) as [block|err]; reflexivity.
Qed.

(** C9.  When the supplied block hash, with or without a leading [0x], is
    64 hexadecimal characters, [GetTxNextBlock] makes no call on the chain
    backend: the only call of the execution is the log line.  The bytes
    are returned, and neither the reference transaction nor the backend
    handle has any influence on the execution. *)
Theorem GetTxNextBlock_supplied_hash_no_backend_query :
  forall (S : Type) (h : handler S) (w : World S) (backend : Backend)
         (monitor : Monitor) (duration : Z) (trx : list Z)
         (blockHash : string),
    blockHash <> EmptyString ->
    String.length (GoString.TrimPrefix blockHash "0x") = 64%nat ->
    HexSpec.all_digits (GoString.TrimPrefix blockHash "0x") ->
    exists bs,
      out (run h (GetTxNextBlock backend monitor duration trx blockHash) w)
      = Returned (Ok bs)
      /\ asked (trace (run h (GetTxNextBlock backend monitor duration trx
                                blockHash) w))
         = [Q_log_Infof "using the provided block hash %x" [ABytes bs]]
      /\ List.filter is_backend_query
           (asked (trace (run h (GetTxNextBlock backend monitor duration trx
                                   blockHash) w))) = []
      /\ forall (backend' : Backend) (trx' : list Z),
           run h (GetTxNextBlock backend' monitor duration trx' blockHash) w
           = run h (GetTxNextBlock backend monitor duration trx blockHash) w.
Proof.
  intros S h w backend monitor duration trx blockHash Hne Hlen Hdig.
  destruct (all_digits_encodes (GoString.TrimPrefix blockHash "0x"))
    as [bs Henc]; [|exact Hdig|].
  { exists 32%nat. rewrite Hlen. reflexivity. }
  assert (Hhash : HexSpec.encodes_hash (GoString.TrimPrefix blockHash "0x") bs).
  { split; [exact Henc|]. apply encodes_length in Henc. lia. }
  exists bs.
  rewrite (GetTxNextBlock_supplied_ok backend monitor duration trx
             blockHash bs Hne Hhash).
  repeat split.
  intros backend' trx'.
  rewrite (GetTxNextBlock_supplied_ok backend' monitor duration trx'
             blockHash bs Hne Hhash).
  reflexivity.
Qed.

Lemma GetTxNextBlock_supplied_hash_no_backend_query_witness :
  String "0" (String "x" Script.hash64) <> EmptyString
  /\ String.length
       (GoString.TrimPrefix (String "0" (String "x" Script.hash64)) "0x")
     = 64%nat
  /\ HexSpec.all_digits
       (GoString.TrimPrefix (String "0" (String "x" Script.hash64)) "0x")
  /\ exists bs,
      out (run Script.serve
             (GetTxNextBlock (backend_ref 0) (monitor_ref 0) 5 [1; 2]
                (String "0" (String "x" Script.hash64)))
             (Script.start Script.healthy))
      = Returned (Ok bs)
      /\ asked (trace (run Script.serve
             (GetTxNextBlock (backend_ref 0) (monitor_ref 0) 5 [1; 2]
                (String "0" (String "x" Script.hash64)))
             (Script.start Script.healthy)))
         = [Q_log_Infof "using the provided block hash %x" [ABytes bs]]
      /\ List.filter is_backend_query
           (asked (trace (run Script.serve
              (GetTxNextBlock (backend_ref 0) (monitor_ref 0) 5 [1; 2]
                 (String "0" (String "x" Script.hash64)))
              (Script.start Script.healthy)))) = []
      /\ forall (backend' : Backend) (trx' : list Z),
           run Script.serve
             (GetTxNextBlock backend' (monitor_ref 0) 5 trx'
                (String "0" (String "x" Script.hash64)))
             (Script.start Script.healthy)
           = run Script.serve
               (GetTxNextBlock (backend_ref 0) (monitor_ref 0) 5 [1; 2]
                  (String "0" (String "x" Script.hash64)))
               (Script.start Script.healthy).
Proof.
  assert (Hne : String "0" (String "x" Script.hash64) <> EmptyString)
    by discriminate.
  assert (Hlen : String.length
            (GoString.TrimPrefix (String "0" (String "x" Script.hash64)) "0x")
          = 64%nat) by reflexivity.
  assert (Hdig : HexSpec.all_digits
            (GoString.TrimPrefix (String "0" (String "x" Script.hash64)) "0x")).
  { vm_compute. repeat split; discriminate. }
  refine (conj Hne (conj Hlen (conj Hdig _))).
  exact (GetTxNextBlock_supplied_hash_no_backend_query Script.t Script.serve
           (Script.start Script.healthy) (backend_ref 0) (monitor_ref 0) 5
           [1; 2] (String "0" (String "x" Script.hash64)) Hne Hlen Hdig).
Defined.

(** ** GetTxHash *)

(** C3.  [GetTxHash] asks the state store for the vault-deployment key and
    nothing else.  If the store hands back the persisted hash, its bytes
    are returned.  If the store's error is (or wraps) [ErrNotFound], the
    caller is told to supply the transaction hash manually; any other
    error of the store is returned as it is. *)
Theorem GetTxHash_lookup :
  forall (VaultDeploymentKey : string) (S : Type) (h : handler S)
         (w : World S) (stateStore : StateStorer),
  exists got : result common.Hash,
    trace (run h (GetTxHash VaultDeploymentKey stateStore) w) !! 0%nat
    = Some (exchange (Q_StateStorer_Get stateStore VaultDeploymentKey) got)
    /\ match got with
       | Ok txHash =>
           out (run h (GetTxHash VaultDeploymentKey stateStore) w)
           = Returned (Ok (common.Hash_Bytes txHash))
       | Err err =>
           (errors_Is err ErrNotFound = true ->
            out (run h (GetTxHash VaultDeploymentKey stateStore) w)
            = Returned (Err (errors_New
                "vault deployment transaction hash not found, please specify the transaction hash manually"))
            /\ asked (trace (run h (GetTxHash VaultDeploymentKey stateStore) w))
               = [Q_StateStorer_Get stateStore VaultDeploymentKey])
           /\ (errors_Is err ErrNotFound = false ->
               out (run h (GetTxHash VaultDeploymentKey stateStore) w)
               = Returned (Err err))
       end.
Proof.
  intros key S h w stateStore. unfold GetTxHash. run_steps.
  set (a := h (Q_StateStorer_Get stateStore key) (env w)).
  exists (fst a). split; [reflexivity|].
  destruct (fst a) as [txHash|err]; [reflexivity|].
  destruct (errors_Is err ErrNotFound); split; intros E;
    try discriminate E; try split; reflexivity.
Qed.

(** ** initVaultFactory *)

Section VaultFactory.

Context {S : Type} (h : handler S) (w : World S).
Variables (backend : Backend) (chainID : Z) (transactionService : Service).
Variables (cfg : ChainConfig.t) (found : bool).

Hypothesis looked_up :
  fst (h (Q_config_GetChainConfig chainID) (env w)) = (Some cfg, found).

Lemma initVaultFactory_default :
  found = true ->
  exists f : Factory,
    out (run h (initVaultFactory backend chainID transactionService "") w)
    = Returned (Ok f)
    /\ asked (trace (run h (initVaultFactory backend chainID
                              transactionService "") w))
       = [ Q_config_GetChainConfig chainID;
           Q_log_Infof "using default factory address for chain id %d: %x"
             [AInt chainID; ABytes (ChainConfig.CurrentFactory cfg)];
           Q_vault_NewFactory backend transactionService
             (ChainConfig.CurrentFactory cfg) ]
    /\ In (exchange (Q_vault_NewFactory backend transactionService
                       (ChainConfig.CurrentFactory cfg)) f)
          (trace (run h (initVaultFactory backend chainID
                           transactionService "") w)).
Proof.
  intros ->. unfold initVaultFactory. run_steps.
  rewrite looked_up. cbn [fst snd]. run_steps.
  cbn [GoString.is_empty negb]. run_steps.
  eexists. split; [reflexivity|]. split; [reflexivity|].
  right. right. left. reflexivity.
Qed.

Lemma initVaultFactory_unknown :
  found = false ->
  run h (initVaultFactory backend chainID transactionService "") w
  = mkExecution
      (Returned (Err (fmt_Errorf_d
         "no known factory address for this network (chain id: %d)"
         chainID)))
      (mkWorld (globals w) (snd (h (Q_config_GetChainConfig chainID) (env w))))
      [exchange (Q_config_GetChainConfig chainID) (Some cfg, found)].
Proof.
  intros Hf. unfold initVaultFactory. run_steps.
  rewrite looked_up. cbn [fst snd]. run_steps.
  rewrite Hf. reflexivity.
Qed.

Lemma initVaultFactory_malformed (factoryAddress : string) :
  factoryAddress <> EmptyString ->
  common.IsHexAddress factoryAddress = false ->
  run h (initVaultFactory backend chainID transactionService
           factoryAddress) w
  = mkExecution
      (Returned (Err (errors_New "malformed factory address")))
      (mkWorld (globals w) (snd (h (Q_config_GetChainConfig chainID) (env w))))
      [exchange (Q_config_GetChainConfig chainID) (Some cfg, found)].
Proof.
  intros Hne Hbad. unfold initVaultFactory. run_steps.
  rewrite looked_up. cbn [fst snd]. run_steps.
  rewrite (is_empty_false _ Hne), Hbad. reflexivity.
Qed.

End VaultFactory.

(** [config.GetChainConfig] has to hand back a configuration even for a
    chain it does not know: on a nil pointer the read of
    [chainCfg.CurrentFactory] panics before anything else is looked at. *)
Lemma initVaultFactory_nil_config :
  forall (S : Type) (h : handler S) (w : World S) backend chainID
         transactionService factoryAddress found,
    fst (h (Q_config_GetChainConfig chainID) (env w)) = (None, found) ->
    out (run h (initVaultFactory backend chainID transactionService
                  factoryAddress) w)
    = Panicked "invalid memory address or nil pointer dereference".
Proof.
  intros S h w backend chainID svc factoryAddress found H.
  unfold initVaultFactory. run_steps. rewrite H. reflexivity.
Qed.

(** C1.  Let [config.GetChainConfig] answer the chain identifier with a
    configuration [cfg] and the flag [found].  With an empty factory
    address: on a known network ([found] true) the factory is built by
    [vault.NewFactory] on [cfg]'s well-known factory address, and that is
    the only factory built; on an unknown network the call returns the
    "no known factory address" error, without panicking and without
    building a factory.  With a non-empty factory address that is not a
    hexadecimal address the call returns "malformed factory address". *)
Theorem initVaultFactory_address_resolution :
  forall (S : Type) (h : handler S) (w : World S) (backend : Backend)
         (chainID : Z) (transactionService : Service)
         (factoryAddress : string) (cfg : ChainConfig.t) (found : bool),
    fst (h (Q_config_GetChainConfig chainID) (env w)) = (Some cfg, found) ->
    (factoryAddress = EmptyString -> found = true ->
       exists f : Factory,
         out (run h (initVaultFactory backend chainID transactionService
                       factoryAddress) w) = Returned (Ok f)
         /\ In (exchange (Q_vault_NewFactory backend transactionService
                            (ChainConfig.CurrentFactory cfg)) f)
               (trace (run h (initVaultFactory backend chainID
                                transactionService factoryAddress) w))
         /\ forall b t a,
              In (Q_vault_NewFactory b t a)
                 (asked (trace (run h (initVaultFactory backend chainID
                                         transactionService factoryAddress)
                                  w))) ->
              a = ChainConfig.CurrentFactory cfg)
    /\ (factoryAddress = EmptyString -> found = false ->
          out (run h (initVaultFactory backend chainID transactionService
                        factoryAddress) w)
          = Returned (Err (fmt_Errorf_d
              "no known factory address for this network (chain id: %d)"
              chainID))
          /\ forall b t a,
               ~ In (Q_vault_NewFactory b t a)
                    (asked (trace (run h (initVaultFactory backend chainID
                                            transactionService
                                            factoryAddress) w))))
    /\ (factoryAddress <> EmptyString ->
        common.IsHexAddress factoryAddress = false ->
          out (run h (initVaultFactory backend chainID transactionService
                        factoryAddress) w)
          = Returned (Err (errors_New "malformed factory address"))
          /\ forall b t a,
               ~ In (Q_vault_NewFactory b t a)
                    (asked (trace (run h (initVaultFactory backend chainID
                                            transactionService
                                            factoryAddress) w)))).
Proof.
  intros S h w backend chainID svc factoryAddress cfg found Hcfg.
  split; [|split].
  - intros -> Hfound.
    destruct (initVaultFactory_default h w backend chainID svc cfg found
                Hcfg Hfound) as (f & Hout & Hasked & Hin).
    exists f. split; [exact Hout|]. split; [exact Hin|].
    intros b t a. rewrite Hasked. cbn [In].
    intros [E|[E|[E|[]]]]; congruence.
  - intros -> Hfound.
    rewrite (initVaultFactory_unknown h w backend chainID svc cfg found
               Hcfg Hfound).
    split; [reflexivity|]. intros b t a [E|[]]. discriminate E.
  - intros Hne Hbad.
    rewrite (initVaultFactory_malformed h w backend chainID svc cfg found
               Hcfg factoryAddress Hne Hbad).
    split; [reflexivity|]. intros b t a [E|[]]. discriminate E.
Qed.

Lemma initVaultFactory_address_resolution_witness :
  fst (Script.serve (Q_config_GetChainConfig 199)
         (env (Script.start Script.healthy)))
  = (Some Script.config199, true)
  /\ exists f : Factory,
       out (run Script.serve
              (initVaultFactory (backend_ref 0) 199 (service_ref 0) "")
              (Script.start Script.healthy)) = Returned (Ok f)
       /\ In (exchange (Q_vault_NewFactory (backend_ref 0) (service_ref 0)
                          (ChainConfig.CurrentFactory Script.config199)) f)
             (trace (run Script.serve
                       (initVaultFactory (backend_ref 0) 199 (service_ref 0)
                          "")
                       (Script.start Script.healthy)))
       /\ forall b t a,
            In (Q_vault_NewFactory b t a)
               (asked (trace (run Script.serve
                                (initVaultFactory (backend_ref 0) 199
                                   (service_ref 0) "")
                                (Script.start Script.healthy)))) ->
            a = ChainConfig.CurrentFactory Script.config199.
Proof.
  split; [reflexivity|].
  exact (proj1 (initVaultFactory_address_resolution Script.t Script.serve
                  (Script.start Script.healthy) (backend_ref 0) 199
                  (service_ref 0) "" Script.config199 true eq_refl)
               eq_refl eq_refl).
Defined.

(** ** InitChain *)

(** Case analysis on the next answer of the environment under a [match]. *)
Ltac next_answer :=
  match goal with
  | |- context [deref ?x] => destruct x eqn:?
  | |- context [match ?x with _ => _ end] => destruct x eqn:?
  end; run_steps.

Section Bootstrap.

Context {S : Type} (h : handler S) (w : World S).
Variables (stateStore : StateStorer) (signer : Signer).
Variables (pollingInterval chainID : Z) (peerid : string).

Local Abbreviation boot :=
  (run h (InitChain stateStore signer pollingInterval chainID peerid) w).

(** Every monitor [InitChain] builds is built with [CancellationDepth]. *)
Lemma InitChain_monitor_depth backend sender interval depth :
  In (Q_transaction_NewMonitor backend sender interval depth)
     (asked (trace boot)) ->
  depth = CancellationDepth.
Proof.
  unfold InitChain. run_steps.
  repeat next_answer; cbn [asked map projT1 exchange In];
    intros Hin; repeat (destruct Hin as [Hin|Hin]);
    try discriminate Hin; try contradiction.
  all: injection Hin; intros; subst; reflexivity.
Qed.

(** On success exactly one monitor is built, on the dialled backend. *)
Lemma InitChain_success (obj : ChainInfo.t) :
  out boot = Returned (Ok obj) ->
  globals (final boot) = mkGlobals (Some obj)
  /\ List.filter
       (fun c => match c with
                 | Q_transaction_NewMonitor _ _ _ _ => true
                 | _ => false
                 end) (asked (trace boot))
     = [Q_transaction_NewMonitor (ChainInfo.Backend_ obj)
          (ChainInfo.OverlayAddress obj) pollingInterval CancellationDepth].
Proof.
  unfold InitChain. run_steps.
  repeat next_answer; intros Hout; try discriminate Hout.
  injection Hout as <-. split; reflexivity.
Qed.

(** The package-level [ChainObject] changes only on success. *)
Lemma InitChain_publishes_on_success_only :
  (forall obj, out boot <> Returned (Ok obj)) ->
  globals (final boot) = globals w.
Proof.
  unfold InitChain. run_steps.
  repeat next_answer; intros Hno; try reflexivity.
  exfalso. eapply Hno. reflexivity.
Qed.

(** A failed dial is the end of [InitChain]. *)
Lemma InitChain_dial_failure endpoint err :
  In (exchange (Q_ethclient_Dial endpoint) (Err err)) (trace boot) ->
  out boot = Returned (Err (fmt_Errorf_w "dial eth client: %w" err))
  /\ globals (final boot) = globals w
  /\ exists looked,
       trace boot = [ exchange (Q_config_GetChainConfig chainID) looked;
                      exchange (Q_ethclient_Dial endpoint) (Err err) ].
Proof.
  unfold InitChain. run_steps.
  repeat next_answer; cbn [In]; intros Hin;
    repeat (destruct Hin as [Hin|Hin]); try contradiction;
    try (apply exchange_call in Hin; discriminate Hin).
  all: pose proof (exchange_call _ _ _ _ Hin) as Hc;
    injection Hc as Hep; revert Hin; rewrite Hep; intros Hin;
    apply exchange_inj in Hin; try discriminate Hin.
  injection Hin as <-.
  split; [reflexivity|]. split; [reflexivity|].
  eexists. reflexivity.
Qed.

End Bootstrap.

(** C5.  Whatever the environment and the arguments,
    [InitChain] builds its Transaction Monitor with a cancellation depth
    of exactly 6 blocks -- on success exactly one monitor, on the dialled
    backend, with the caller's polling interval -- and [MaxDelay] is one
    minute.  Both values are constants of the package: no argument of
    [InitChain] and no answer of the environment changes them. *)
Theorem InitChain_monitor_constants :
  forall (S : Type) (h : handler S) (w : World S) (stateStore : StateStorer)
         (signer : Signer) (pollingInterval chainID : Z) (peerid : string),
    (forall backend sender interval depth,
        In (Q_transaction_NewMonitor backend sender interval depth)
           (asked (trace (run h (InitChain stateStore signer pollingInterval
                                   chainID peerid) w))) ->
        depth = 6)
    /\ (forall obj,
           out (run h (InitChain stateStore signer pollingInterval chainID
                         peerid) w) = Returned (Ok obj) ->
           List.filter
             (fun c => match c with
                       | Q_transaction_NewMonitor _ _ _ _ => true
                       | _ => false
                       end)
             (asked (trace (run h (InitChain stateStore signer
                                     pollingInterval chainID peerid) w)))
           = [Q_transaction_NewMonitor (ChainInfo.Backend_ obj)
                (ChainInfo.OverlayAddress obj) pollingInterval 6])
    /\ CancellationDepth = 6
    /\ MaxDelay = 60 * 1000000000.
Proof.
  intros S h w stateStore signer pollingInterval chainID peerid.
  split; [|split; [|split; reflexivity]].
  - intros backend sender interval depth Hin.
    exact (InitChain_monitor_depth h w stateStore signer pollingInterval
             chainID peerid backend sender interval depth Hin).
  - intros obj Hout.
    exact (proj2 (InitChain_success h w stateStore signer pollingInterval
                    chainID peerid obj Hout)).
Qed.

Lemma InitChain_monitor_constants_witness :
  asked (trace (run Script.serve (InitChain (store_ref 0) (signer_ref 0) 5
                                    199 "me") (Script.start Script.healthy)))
  = [ Q_config_GetChainConfig 199;
      Q_ethclient_Dial "https://rpc.example:8545";
      Q_Signer_EthereumAddress (signer_ref 0);
      Q_transaction_NewMonitor (backend_ref 0) Script.addrA 5 6;
      Q_transaction_NewService (backend_ref 0) (signer_ref 0) (store_ref 0)
        199 (monitor_ref 0) ]
  /\ (forall backend sender interval depth,
        In (Q_transaction_NewMonitor backend sender interval depth)
           (asked (trace (run Script.serve
                            (InitChain (store_ref 0) (signer_ref 0) 5 199
                               "me") (Script.start Script.healthy)))) ->
        depth = 6).
Proof.
  split; [reflexivity|].
  exact (proj1 (InitChain_monitor_constants Script.t Script.serve
                  (Script.start Script.healthy) (store_ref 0) (signer_ref 0)
                  5 199 "me")).
Defined.

(** C5, tunability: a depth that can be tuned per deployment would let
    some deployment get a monitor of another depth.  None gets another
    depth than 6. *)
Lemma depth_not_tunable : ~ depth_tunable.
Proof.
  intros (S & h & w & stateStore & signer & pollingInterval & chainID
          & peerid & backend & sender & interval & depth & Hin & Hne).
  apply Hne.
  exact (InitChain_monitor_depth h w stateStore signer pollingInterval
           chainID peerid backend sender interval depth Hin).
Qed.

(** C8.  If the dial of the chain endpoint fails with [err], [InitChain]
    returns the error "dial eth client: err" and [ChainObject] is as it
    was.  More generally [ChainObject] is as it was whenever [InitChain]
    does not return a [ChainInfo]: nothing is published on an error
    path. *)
Theorem InitChain_failure_publishes_nothing :
  forall (S : Type) (h : handler S) (w : World S) (stateStore : StateStorer)
         (signer : Signer) (pollingInterval chainID : Z) (peerid : string),
    (forall endpoint err,
        In (exchange (Q_ethclient_Dial endpoint) (Err err))
           (trace (run h (InitChain stateStore signer pollingInterval
                            chainID peerid) w)) ->
        out (run h (InitChain stateStore signer pollingInterval chainID
                      peerid) w)
        = Returned (Err (fmt_Errorf_w "dial eth client: %w" err))
        /\ globals (final (run h (InitChain stateStore signer
                                    pollingInterval chainID peerid) w))
           = globals w)
    /\ ((forall obj,
            out (run h (InitChain stateStore signer pollingInterval chainID
                          peerid) w) <> Returned (Ok obj)) ->
        globals (final (run h (InitChain stateStore signer pollingInterval
                                 chainID peerid) w))
        = globals w).
Proof.
  intros S h w stateStore signer pollingInterval chainID peerid. split.
  - intros endpoint err Hin.
    destruct (InitChain_dial_failure h w stateStore signer pollingInterval
                chainID peerid endpoint err Hin) as (Hout & Hglob & _).
    split; assumption.
  - apply InitChain_publishes_on_success_only.
Qed.

Lemma InitChain_failure_publishes_nothing_witness :
  In (exchange (Q_ethclient_Dial "https://rpc.example:8545")
        (Err (Foreign 1)))
     (trace (run Script.serve (InitChain (store_ref 0) (signer_ref 0) 5 199
                                 "me") (Script.start Script.unreachable)))
  /\ out (run Script.serve (InitChain (store_ref 0) (signer_ref 0) 5 199
                              "me") (Script.start Script.unreachable))
     = Returned (Err (fmt_Errorf_w "dial eth client: %w" (Foreign 1)))
  /\ globals (final (run Script.serve
                       (InitChain (store_ref 0) (signer_ref 0) 5 199 "me")
                       (Script.start Script.unreachable)))
     = globals (Script.start Script.unreachable).
Proof.
  assert (Hin : In (exchange (Q_ethclient_Dial "https://rpc.example:8545")
                      (Err (Foreign 1)))
                   (trace (run Script.serve
                             (InitChain (store_ref 0) (signer_ref 0) 5 199
                                "me") (Script.start Script.unreachable)))).
  { right. left. reflexivity. }
  split; [exact Hin|].
  exact (proj1 (InitChain_failure_publishes_nothing Script.t Script.serve
                  (Script.start Script.unreachable) (store_ref 0)
                  (signer_ref 0) 5 199 "me")
               "https://rpc.example:8545" (Foreign 1) Hin).
Defined.

(** ** The cheque commands *)

Lemma fold_left_snoc_map {A B : Type} (f : A -> B) (l : list A)
    (acc : list B) :
  fold_left (fun (r : list B) (x : A) => r ++ [f x]) l acc = acc ++ map f l.
Proof.
  revert acc. induction l as [|x l IH]; intros acc; cbn [fold_left map].
  - rewrite app_nil_r. reflexivity.
  - rewrite IH, <- app_assoc. reflexivity.
Qed.

Lemma send_list_loop (Address_String : common.Address -> string)
    (visited : list (string * SignedCheque.t)) :
  fold_left (send_list_step Address_String) visited []
  = map (send_list_entry Address_String) visited.
Proof.
  exact (fold_left_snoc_map (send_list_entry Address_String) visited []).
Qed.

Lemma receive_history_loop (peer : string) (records : list ChequeRecord.t) :
  fold_left (receive_history_step peer) records []
  = map (receive_history_entry peer) records.
Proof. exact (fold_left_snoc_map (receive_history_entry peer) records []). Qed.

Lemma send_stats_loop (stats : list DailySentStats.t) :
  fold_left send_stats_step stats [] = map send_stats_entry stats.
Proof. exact (fold_left_snoc_map send_stats_entry stats []). Qed.

Lemma map_lookup_entry {A B : Type} (f : A -> B) (l : list A) (i : nat)
    (x : A) :
  l !! i = Some x -> map f l !! i = Some (f x).
Proof.
  intros H. change (map f l) with (f <$> l).
  rewrite list_lookup_fmap, H. reflexivity.
Qed.

(** The text encoder prints the emitted entries one line each, in the
    order of the slice. *)
Lemma send_list_lines_all (pre l : list cheque.t) :
  send_list_lines (pre ++ l) (seq (length pre) (length l))
  = Returned (map send_list_row l).
Proof.
  revert pre. induction l as [|c l IH]; intros pre; [reflexivity|].
  cbn [length seq send_list_lines map].
  rewrite lookup_app_r by lia. rewrite Nat.sub_diag. cbn [lookup list_lookup].
  specialize (IH (pre ++ [c])).
  rewrite <- app_assoc, length_app in IH. cbn [app length] in IH.
  rewrite Nat.add_1_r in IH. rewrite IH. reflexivity.
Qed.

Lemma ListSendChequesCmd_Text_emitted (l : list cheque.t) :
  ListSendChequesCmd_Text (ListChequeRet.mk l (Z.of_nat (length l)))
  = Returned (map send_list_row l).
Proof.
  unfold ListSendChequesCmd_Text. cbn [ListChequeRet.Cheques ListChequeRet.Len].
  rewrite Nat2Z.id. exact (send_list_lines_all [] l).
Qed.

Section SendList.

Variable Address_String : common.Address -> string.
Context {S : Type} (h : handler S) (w : World S).

Local Abbreviation listing :=
  (run h (ListSendChequesCmd_Run Address_String) w).

(** With the mapping [m] handed back by the swap service, the command
    asks the runtime for an iteration order and emits the entries in
    that order. *)
Lemma ListSendChequesCmd_listing (m : gmap string SignedCheque.t) :
  In (exchange Q_SwapService_LastSendCheques (Ok m)) (trace listing) ->
  exists visited,
    In (exchange (Q_runtime_mapiter m) visited) (trace listing)
    /\ emitted (trace listing)
       = [Emit_ListChequeRet
            (ListChequeRet.mk
               (map (send_list_entry Address_String) visited)
               (Z.of_nat (length visited)))]
    /\ forall visited',
         In (exchange (Q_runtime_mapiter m) visited') (trace listing) ->
         visited' = visited.
Proof.
  unfold ListSendChequesCmd_Run. run_steps.
  next_answer; intros Hin; in_trace Hin.
  apply exchange_inj in Hin. injection Hin as ->.
  rewrite send_list_loop, length_map.
  eexists. split; [right; left; reflexivity|].
  split; [reflexivity|].
  intros visited' Hin'. in_trace Hin'.
  apply exchange_inj in Hin'. symmetry. exact Hin'.
Qed.

End SendList.

(** C4.  With the mapping [m] handed back by the swap
    service and a runtime that visits every entry of a ranged map once,
    the send-list command emits one value whose entries are the entries
    of [m], one per peer, in the order in which the runtime visited the
    map; [Len] is the number of peers, and the text encoder prints the
    entries in that same order.  The order is the runtime's, not an
    insertion order. *)
Theorem ListSendChequesCmd_entries :
  forall (Address_String : common.Address -> string) (S : Type)
         (h : handler S) (w : World S) (m : gmap string SignedCheque.t),
    In (exchange Q_SwapService_LastSendCheques (Ok m))
       (trace (run h (ListSendChequesCmd_Run Address_String) w)) ->
    lawful_range (trace (run h (ListSendChequesCmd_Run Address_String) w)) ->
    exists (visited : list (string * SignedCheque.t)) (o : ListChequeRet.t),
      In (exchange (Q_runtime_mapiter m) visited)
         (trace (run h (ListSendChequesCmd_Run Address_String) w))
      /\ emitted (trace (run h (ListSendChequesCmd_Run Address_String) w))
         = [Emit_ListChequeRet o]
      /\ ListChequeRet.Cheques o
         = map (send_list_entry Address_String) visited
      /\ ListChequeRet.Cheques o
         ≡ₚ map (send_list_entry Address_String) (map_to_list m)
      /\ ListChequeRet.Len o = Z.of_nat (size m)
      /\ ListSendChequesCmd_Text o
         = Returned (map send_list_row (ListChequeRet.Cheques o)).
Proof.
  intros Address_String S h w m Hgot Hlaw.
  destruct (ListSendChequesCmd_listing Address_String h w m Hgot)
    as (visited & Hin & Hemit & _).
  pose proof (Hlaw m visited Hin) as Hperm.
  exists visited, (ListChequeRet.mk
                     (map (send_list_entry Address_String) visited)
                     (Z.of_nat (length visited))).
  cbn [ListChequeRet.Cheques ListChequeRet.Len].
  repeat split; try assumption.
  - apply Permutation_map. exact Hperm.
  - rewrite (Permutation_length Hperm), length_map_to_list. reflexivity.
  - rewrite <- (length_map (send_list_entry Address_String) visited).
    apply ListSendChequesCmd_Text_emitted.
Qed.

(** The trace of the send-list command on a scripted environment. *)
Lemma Script_send_list_trace (s : Script.t) (m : gmap string SignedCheque.t) :
  Script.last_send_cheques s = Ok m ->
  trace (run Script.serve (ListSendChequesCmd_Run Script.show_address)
           (Script.start s))
  = [ exchange Q_SwapService_LastSendCheques (Ok m);
      exchange (Q_runtime_mapiter m) (Script.mapiter s m);
      exchange (Q_cmds_EmitOnce
                  (Emit_ListChequeRet
                     (ListChequeRet.mk
                        (map (send_list_entry Script.show_address)
                           (Script.mapiter s m))
                        (Z.of_nat (length (Script.mapiter s m))))))
               (Script.emit_once s) ].
Proof.
  intros Hm. unfold ListSendChequesCmd_Run. run_steps.
  cbn [Script.serve Script.start env fst snd Script.answer].
  rewrite Hm. run_steps.
  cbn [Script.serve Script.start env fst snd Script.answer].
  rewrite send_list_loop, length_map. reflexivity.
Qed.

Lemma Script_send_list_lawful (s : Script.t) (m : gmap string SignedCheque.t) :
  Script.last_send_cheques s = Ok m ->
  Script.mapiter s m ≡ₚ map_to_list m ->
  lawful_range (trace (run Script.serve
                         (ListSendChequesCmd_Run Script.show_address)
                         (Script.start s))).
Proof.
  intros Hm Hperm. rewrite (Script_send_list_trace s m Hm).
  intros m' visited Hin. in_trace Hin.
  pose proof (exchange_call _ _ _ _ Hin) as Hc. injection Hc as <-.
  apply exchange_inj in Hin. subst visited. exact Hperm.
Qed.

Lemma ListSendChequesCmd_entries_witness :
  In (exchange Q_SwapService_LastSendCheques (Ok Script.two_cheques))
     (trace (run Script.serve (ListSendChequesCmd_Run Script.show_address)
               (Script.start Script.healthy_reversed)))
  /\ lawful_range
       (trace (run Script.serve (ListSendChequesCmd_Run Script.show_address)
                 (Script.start Script.healthy_reversed)))
  /\ exists (visited : list (string * SignedCheque.t)) (o : ListChequeRet.t),
      In (exchange (Q_runtime_mapiter Script.two_cheques) visited)
         (trace (run Script.serve
                   (ListSendChequesCmd_Run Script.show_address)
                   (Script.start Script.healthy_reversed)))
      /\ emitted (trace (run Script.serve
                           (ListSendChequesCmd_Run Script.show_address)
                           (Script.start Script.healthy_reversed)))
         = [Emit_ListChequeRet o]
      /\ ListChequeRet.Cheques o
         = map (send_list_entry Script.show_address) visited
      /\ ListChequeRet.Cheques o
         ≡ₚ map (send_list_entry Script.show_address)
              (map_to_list Script.two_cheques)
      /\ ListChequeRet.Len o = Z.of_nat (size Script.two_cheques)
      /\ ListSendChequesCmd_Text o
         = Returned (map send_list_row (ListChequeRet.Cheques o)).
Proof.
  assert (Hgot : In (exchange Q_SwapService_LastSendCheques
                       (Ok Script.two_cheques))
                    (trace (run Script.serve
                              (ListSendChequesCmd_Run Script.show_address)
                              (Script.start Script.healthy_reversed)))).
  { rewrite (Script_send_list_trace Script.healthy_reversed
               Script.two_cheques eq_refl). left. reflexivity. }
  assert (Hlaw : lawful_range
                   (trace (run Script.serve
                             (ListSendChequesCmd_Run Script.show_address)
                             (Script.start Script.healthy_reversed)))).
  { apply (Script_send_list_lawful Script.healthy_reversed
             Script.two_cheques eq_refl).
    exact (reverse_Permutation (map_to_list Script.two_cheques)). }
  refine (conj Hgot (conj Hlaw _)).
  exact (ListSendChequesCmd_entries Script.show_address Script.t Script.serve
           (Script.start Script.healthy_reversed) Script.two_cheques
           Hgot Hlaw).
Defined.

(** C4, stability of the order: the display order is neither an insertion
    order nor the same from one execution to the next.  The mapping with
    the last cheques
    of [peerA] and [peerB] is the same mapping whichever peer was
    inserted first, and two lawful executions over it display the two
    peers in opposite orders. *)
Lemma send_list_order_not_stable :
  <[ "peerB" := Script.chequeB ]> (<[ "peerA" := Script.chequeA ]> ∅)
  = <[ "peerA" := Script.chequeA ]>
      (<[ "peerB" := Script.chequeB ]> (∅ : gmap string SignedCheque.t))
  /\ ~ send_list_stable Script.show_address.
Proof.
  split.
  - apply insert_insert_ne. discriminate.
  - intros Hstable.
    specialize (Hstable Script.t Script.t Script.serve Script.serve
                  (Script.start Script.healthy)
                  (Script.start Script.healthy_reversed) Script.two_cheques).
    assert (H1 : Script.last_send_cheques Script.healthy
                 = Ok Script.two_cheques) by reflexivity.
    assert (H2 : Script.last_send_cheques Script.healthy_reversed
                 = Ok Script.two_cheques) by reflexivity.
    pose proof (Script_send_list_lawful Script.healthy Script.two_cheques H1
                  (reflexivity _)) as L1.
    assert (L2 : lawful_range
                   (trace (run Script.serve
                             (ListSendChequesCmd_Run Script.show_address)
                             (Script.start Script.healthy_reversed)))).
    { apply (Script_send_list_lawful Script.healthy_reversed
               Script.two_cheques H2).
      exact (reverse_Permutation (map_to_list Script.two_cheques)). }
    rewrite (Script_send_list_trace Script.healthy Script.two_cheques H1),
            (Script_send_list_trace Script.healthy_reversed
               Script.two_cheques H2) in Hstable.
    specialize (Hstable (or_introl eq_refl) (or_introl eq_refl)).
    rewrite <- (Script_send_list_trace Script.healthy Script.two_cheques H1)
      in Hstable at 1.
    rewrite <- (Script_send_list_trace Script.healthy_reversed
                  Script.two_cheques H2) in Hstable at 1.
    specialize (Hstable L1 L2).
    vm_compute in Hstable. discriminate Hstable.
Qed.

(** C6.  With the records handed back by
    [ReceivedChequeRecordsByPeer] for the requested peer, the
    receive-history command emits one value: one entry per record, in the
    order of the records, each with the record's vault, beneficiary,
    amount and receive time and with the requested peer as its peer id;
    [Len] is the number of records.  The history of no other peer is
    asked for. *)
Theorem ChequeReceiveHistoryPeerCmd_entries :
  forall (S : Type) (h : handler S) (w : World S) (peer_id : string)
         (more : list string) (records : list ChequeRecord.t),
    In (exchange (Q_SwapService_ReceivedChequeRecordsByPeer peer_id)
          (Ok records))
       (trace (run h (ChequeReceiveHistoryPeerCmd_Run (peer_id :: more)) w)) ->
    exists o : ChequeRecords.t,
      emitted (trace (run h (ChequeReceiveHistoryPeerCmd_Run
                               (peer_id :: more)) w))
      = [Emit_ChequeRecords o]
      /\ ChequeRecords.Len o = Z.of_nat (length records)
      /\ length (ChequeRecords.Records o) = length records
      /\ (forall (i : nat) (v : ChequeRecord.t),
             records !! i = Some v ->
             ChequeRecords.Records o !! i
             = Some (chequeRecordRet.mk peer_id
                       (ChequeRecord.Vault v) (ChequeRecord.Beneficiary v)
                       (ChequeRecord.Amount v) (ChequeRecord.ReceiveTime v)))
      /\ (forall p,
             In (Q_SwapService_ReceivedChequeRecordsByPeer p)
                (asked (trace (run h (ChequeReceiveHistoryPeerCmd_Run
                                        (peer_id :: more)) w))) ->
             p = peer_id).
Proof.
  intros S h w peer_id more records.
  unfold ChequeReceiveHistoryPeerCmd_Run. run_steps.
  next_answer; intros Hin; in_trace Hin.
  apply exchange_inj in Hin. injection Hin as ->.
  rewrite receive_history_loop, length_map.
  eexists. split; [reflexivity|].
  cbn [ChequeRecords.Len ChequeRecords.Records].
  split; [reflexivity|]. split; [apply length_map|]. split.
  - intros i v Hv.
    exact (map_lookup_entry (receive_history_entry peer_id) records i v Hv).
  - intros p Hp. cbn [asked map projT1 exchange In] in Hp.
    repeat (destruct Hp as [Hp|Hp]); try discriminate Hp;
      try contradiction.
    injection Hp as <-. reflexivity.
Qed.

Lemma ChequeReceiveHistoryPeerCmd_entries_witness :
  In (exchange (Q_SwapService_ReceivedChequeRecordsByPeer "peerA")
        (Ok Script.two_records))
     (trace (run Script.serve (ChequeReceiveHistoryPeerCmd_Run ["peerA"])
               (Script.start Script.healthy)))
  /\ exists o : ChequeRecords.t,
      emitted (trace (run Script.serve
                        (ChequeReceiveHistoryPeerCmd_Run ["peerA"])
                        (Script.start Script.healthy)))
      = [Emit_ChequeRecords o]
      /\ ChequeRecords.Len o = Z.of_nat (length Script.two_records)
      /\ length (ChequeRecords.Records o) = length Script.two_records
      /\ (forall (i : nat) (v : ChequeRecord.t),
             Script.two_records !! i = Some v ->
             ChequeRecords.Records o !! i
             = Some (chequeRecordRet.mk "peerA"
                       (ChequeRecord.Vault v) (ChequeRecord.Beneficiary v)
                       (ChequeRecord.Amount v) (ChequeRecord.ReceiveTime v)))
      /\ (forall p,
             In (Q_SwapService_ReceivedChequeRecordsByPeer p)
                (asked (trace (run Script.serve
                                 (ChequeReceiveHistoryPeerCmd_Run ["peerA"])
                                 (Script.start Script.healthy)))) ->
             p = "peerA").
Proof.
  assert (Hin : In (exchange
                      (Q_SwapService_ReceivedChequeRecordsByPeer "peerA")
                      (Ok Script.two_records))
                   (trace (run Script.serve
                             (ChequeReceiveHistoryPeerCmd_Run ["peerA"])
                             (Script.start Script.healthy)))).
  { right. left. reflexivity. }
  split; [exact Hin|].
  exact (ChequeReceiveHistoryPeerCmd_entries Script.t Script.serve
           (Script.start Script.healthy) "peerA" [] Script.two_records Hin).
Defined.

(** C7.  The sent-cheque stats command asks [SentStatsHistory] for a
    window of exactly 30 days, once.  If that fails the error is returned
    and nothing is emitted.  Otherwise one value is emitted: one entry per
    per-day stat handed back, in order, carrying its amount as the total
    issued, its count as the total issued count, and its date -- so the
    output has as many entries as there are stats, no day is added. *)
Theorem ChequeSendHistoryStatsCmd_entries :
  forall (S : Type) (h : handler S) (w : World S),
  exists got : result (list DailySentStats.t),
    trace (run h ChequeSendHistoryStatsCmd_Run w) !! 0%nat
    = Some (exchange (Q_ChequeStore_SentStatsHistory 30) got)
    /\ List.filter
         (fun c => match c with
                   | Q_ChequeStore_SentStatsHistory _ => true
                   | _ => false
                   end)
         (asked (trace (run h ChequeSendHistoryStatsCmd_Run w)))
       = [Q_ChequeStore_SentStatsHistory 30]
    /\ match got with
       | Err err =>
           out (run h ChequeSendHistoryStatsCmd_Run w) = Returned (Some err)
           /\ emitted (trace (run h ChequeSendHistoryStatsCmd_Run w)) = []
       | Ok stats =>
           exists ret : list chequeSentHistoryStats.t,
             emitted (trace (run h ChequeSendHistoryStatsCmd_Run w))
             = [Emit_SentStats ret]
             /\ length ret = length stats
             /\ forall (i : nat) (stat : DailySentStats.t),
                  stats !! i = Some stat ->
                  ret !! i
                  = Some (chequeSentHistoryStats.mk
                            (DailySentStats.Amount stat)
                            (DailySentStats.Count stat)
                            (DailySentStats.Date stat))
       end.
Proof.
  intros S h w. unfold ChequeSendHistoryStatsCmd_Run. run_steps.
  set (a := h (Q_ChequeStore_SentStatsHistory sentStatsDuration) (env w)).
  exists (fst a). split; [reflexivity|].
  destruct (fst a) as [stats|err]; run_steps.
  - split; [reflexivity|].
    rewrite send_stats_loop.
    exists (map send_stats_entry stats).
    split; [reflexivity|]. split; [apply length_map|].
    intros i stat Hstat.
    exact (map_lookup_entry send_stats_entry stats i stat Hstat).
  - repeat split.
Qed.

(** ** The WebUI constants *)

(** C10.  [WebUIPath] is the first element of [WebUIPaths], hence a
    member of it, and the [hostui], [webui] and [dashboard] options are
    each built by [RedirectOption] with [WebUIPath] as the target. *)
Theorem WebUIPath_heads_history :
  head WebUIPaths = Some WebUIPath
  /\ In WebUIPath WebUIPaths
  /\ HostUIOption = RedirectOption "hostui" WebUIPath
  /\ WebUIOption = RedirectOption "webui" WebUIPath
  /\ DashboardOption = RedirectOption "dashboard" WebUIPath
  /\ map ServeOption.redirect [HostUIOption; WebUIOption; DashboardOption]
     = [WebUIPath; WebUIPath; WebUIPath]
  /\ map ServeOption.path [HostUIOption; WebUIOption; DashboardOption]
     = ["hostui"; "webui"; "dashboard"].
Proof.
  split; [reflexivity|]. split; [left; reflexivity|].
  repeat split.
Qed.

(** * Further properties *)

(** ** GetTxNextBlock: rejected block hashes *)

Lemma Decode_first_non_digit (s : string) (c : ascii) :
  first_non_digit s = Some c ->
  snd (hex.Decode s) = Some (hex_InvalidByteError c).
Proof.
  induction s as [|d|p q rest IH] using string_pair_ind; intros H.
  - discriminate H.
  - cbn [first_non_digit] in H. cbn [hex.Decode].
    pose proof (digit_value_table d) as Td.
    destruct (HexSpec.digit_value d); [discriminate H|].
    injection H as <-.
    apply Z.ltb_lt in Td. rewrite Td. reflexivity.
  - cbn [first_non_digit] in H. cbn [hex.Decode].
    pose proof (digit_value_table p) as Tp.
    pose proof (digit_value_table q) as Tq.
    destruct (HexSpec.digit_value p) as [hi|].
    + destruct Tp as [Ep Rp].
      destruct (15 <? hex.reverseHexTable p) eqn:Cp;
        [apply Z.ltb_lt in Cp; lia|].
      destruct (HexSpec.digit_value q) as [lo|].
      * destruct Tq as [Eq Rq].
        destruct (15 <? hex.reverseHexTable q) eqn:Cq;
          [apply Z.ltb_lt in Cq; lia|].
        specialize (IH H).
        destruct (hex.Decode rest) as [bs e]. exact IH.
      * injection H as <-. apply Z.ltb_lt in Tq. rewrite Tq. reflexivity.
    + injection H as <-. apply Z.ltb_lt in Tp. rewrite Tp. reflexivity.
Qed.

(** X1.  A supplied block hash whose text, after the removal of a leading
    [0x], is not 64 characters long is refused with "invalid length",
    whatever the characters are; nothing is logged and nothing is asked
    of the backend. *)
Theorem GetTxNextBlock_wrong_length :
  forall (S : Type) (h : handler S) (w : World S) (backend : Backend)
         (monitor : Monitor) (duration : Z) (trx : list Z)
         (blockHash : string),
    blockHash <> EmptyString ->
    String.length (GoString.TrimPrefix blockHash "0x") <> 64%nat ->
    run h (GetTxNextBlock backend monitor duration trx blockHash) w
    = mkExecution (Returned (Err (errors_New "invalid length"))) w [].
Proof.
  intros S h w backend monitor duration trx blockHash Hne Hlen.
  rewrite GetTxNextBlock_supplied by assumption. cbv zeta.
  destruct (GoString.len _ =? 64) eqn:E; [|reflexivity].
  apply len_eqb_64 in E. contradiction.
Qed.

Lemma GetTxNextBlock_wrong_length_witness :
  "0x12" <> EmptyString
  /\ String.length (GoString.TrimPrefix "0x12" "0x") <> 64%nat
  /\ run Script.serve
       (GetTxNextBlock (backend_ref 0) (monitor_ref 0) 5 [1; 2] "0x12")
       (Script.start Script.healthy)
     = mkExecution (Returned (Err (errors_New "invalid length")))
         (Script.start Script.healthy) [].
Proof.
  assert (Hne : "0x12" <> EmptyString) by discriminate.
  assert (Hlen : String.length (GoString.TrimPrefix "0x12" "0x") <> 64%nat)
    by (cbn; lia).
  refine (conj Hne (conj Hlen _)).
  exact (GetTxNextBlock_wrong_length Script.t Script.serve
           (Script.start Script.healthy) (backend_ref 0) (monitor_ref 0) 5
           [1; 2] "0x12" Hne Hlen).
Defined.

(** X2.  A supplied block hash of the right length that holds a character
    which is not a hexadecimal digit is refused with the decoder's
    invalid-byte error for the first such character; nothing is logged
    and nothing is asked of the backend. *)
Theorem GetTxNextBlock_invalid_digit :
  forall (S : Type) (h : handler S) (w : World S) (backend : Backend)
         (monitor : Monitor) (duration : Z) (trx : list Z)
         (blockHash : string) (c : ascii),
    blockHash <> EmptyString ->
    String.length (GoString.TrimPrefix blockHash "0x") = 64%nat ->
    first_non_digit (GoString.TrimPrefix blockHash "0x") = Some c ->
    run h (GetTxNextBlock backend monitor duration trx blockHash) w
    = mkExecution (Returned (Err (hex_InvalidByteError c))) w [].
Proof.
  intros S h w backend monitor duration trx blockHash c Hne Hlen Hbad.
  rewrite GetTxNextBlock_supplied by assumption. cbv zeta.
  apply len_eqb_64 in Hlen. rewrite Hlen. cbn [negb].
  rewrite (Decode_first_non_digit _ _ Hbad). reflexivity.
Qed.

Lemma GetTxNextBlock_invalid_digit_witness :
  Sample.bad64 <> EmptyString
  /\ String.length (GoString.TrimPrefix Sample.bad64 "0x") = 64%nat
  /\ first_non_digit (GoString.TrimPrefix Sample.bad64 "0x") = Some "g"%char
  /\ run Script.serve
       (GetTxNextBlock (backend_ref 0) (monitor_ref 0) 5 [1; 2] Sample.bad64)
       (Script.start Script.healthy)
     = mkExecution (Returned (Err (hex_InvalidByteError "g"%char)))
         (Script.start Script.healthy) [].
Proof.
  assert (Hne : Sample.bad64 <> EmptyString) by discriminate.
  assert (Hlen : String.length (GoString.TrimPrefix Sample.bad64 "0x")
                 = 64%nat) by reflexivity.
  assert (Hbad : first_non_digit (GoString.TrimPrefix Sample.bad64 "0x")
                 = Some "g"%char) by reflexivity.
  refine (conj Hne (conj Hlen (conj Hbad _))).
  exact (GetTxNextBlock_invalid_digit Script.t Script.serve
           (Script.start Script.healthy) (backend_ref 0) (monitor_ref 0) 5
           [1; 2] Sample.bad64 "g"%char Hne Hlen Hbad).
Defined.

Lemma HasPrefix_empty (s : string) : GoString.HasPrefix s "" = true.
Proof. destruct s; reflexivity. Qed.

Lemma TrimPrefix_0x (t : string) :
  GoString.TrimPrefix (String "0" (String "x" t)) "0x" = t.
Proof.
  unfold GoString.TrimPrefix. cbn [GoString.HasPrefix Ascii.eqb Bool.eqb].
  rewrite HasPrefix_empty. reflexivity.
Qed.

(** X3.  The [0x] prefix is optional: a text that is not empty and does
    not itself start with [0x] is treated in the same way with the prefix
    and without it. *)
Theorem GetTxNextBlock_prefix_optional :
  forall (backend : Backend) (monitor : Monitor) (duration : Z)
         (trx : list Z) (t : string),
    t <> EmptyString ->
    GoString.HasPrefix t "0x" = false ->
    GetTxNextBlock backend monitor duration trx (String "0" (String "x" t))
    = GetTxNextBlock backend monitor duration trx t.
Proof.
  intros backend monitor duration trx t Hne Hpre.
  rewrite (GetTxNextBlock_supplied backend monitor duration trx
             (String "0" (String "x" t))) by discriminate.
  rewrite (GetTxNextBlock_supplied backend monitor duration trx t)
    by assumption.
  pose proof (TrimPrefix_0x t) as E1.
  assert (E2 : GoString.TrimPrefix t "0x" = t)
    by (unfold GoString.TrimPrefix; rewrite Hpre; reflexivity).
  rewrite E1, E2. reflexivity.
Qed.

Lemma GetTxNextBlock_prefix_optional_witness :
  Script.hash64 <> EmptyString
  /\ GoString.HasPrefix Script.hash64 "0x" = false
  /\ GetTxNextBlock (backend_ref 0) (monitor_ref 0) 5 [1; 2]
       (String "0" (String "x" Script.hash64))
     = GetTxNextBlock (backend_ref 0) (monitor_ref 0) 5 [1; 2] Script.hash64.
Proof.
  assert (Hne : Script.hash64 <> EmptyString) by discriminate.
  assert (Hpre : GoString.HasPrefix Script.hash64 "0x" = false)
    by reflexivity.
  refine (conj Hne (conj Hpre _)).
  exact (GetTxNextBlock_prefix_optional (backend_ref 0) (monitor_ref 0) 5
           [1; 2] Script.hash64 Hne Hpre).
Defined.

(** X4.  Only the lower-case prefix is removed: 64 characters behind an
    upper-case [0X] are refused with "invalid length", digits or not. *)
Theorem GetTxNextBlock_upper_case_prefix :
  forall (S : Type) (h : handler S) (w : World S) (backend : Backend)
         (monitor : Monitor) (duration : Z) (trx : list Z) (t : string),
    String.length t = 64%nat ->
    run h (GetTxNextBlock backend monitor duration trx
             (String "0" (String "X" t))) w
    = mkExecution (Returned (Err (errors_New "invalid length"))) w [].
Proof.
  intros S h w backend monitor duration trx t Hlen.
  rewrite GetTxNextBlock_supplied by discriminate. cbv zeta.
  assert (E : GoString.TrimPrefix (String "0" (String "X" t)) "0x"
              = String "0" (String "X" t)) by reflexivity.
  rewrite E.
  destruct (GoString.len _ =? 64) eqn:E64; [|reflexivity].
  apply len_eqb_64 in E64. cbn [String.length] in E64. lia.
Qed.

Lemma GetTxNextBlock_upper_case_prefix_witness :
  String.length Script.hash64 = 64%nat
  /\ run Script.serve
       (GetTxNextBlock (backend_ref 0) (monitor_ref 0) 5 [1; 2]
          (String "0" (String "X" Script.hash64)))
       (Script.start Script.healthy)
     = mkExecution (Returned (Err (errors_New "invalid length")))
         (Script.start Script.healthy) [].
Proof.
  assert (Hlen : String.length Script.hash64 = 64%nat) by reflexivity.
  refine (conj Hlen _).
  exact (GetTxNextBlock_upper_case_prefix Script.t Script.serve
           (Script.start Script.healthy) (backend_ref 0) (monitor_ref 0) 5
           [1; 2] Script.hash64 Hlen).
Defined.

(** ** GetTxNextBlock: round trip and the chain path *)

Lemma hextable_digit (d : Z) :
  0 <= d <= 15 -> HexSpec.digit_value (hex.hextable d) = Some d.
Proof.
  intros Hd.
  destruct (Z.to_nat d) as [|[|[|[|[|[|[|[|[|[|[|[|[|[|[|[|k]]]]]]]]]]]]]]]]
    eqn:E; try lia;
    (replace d with (Z.of_nat (Z.to_nat d)) by lia); rewrite E;
    reflexivity.
Qed.

Lemma byte_nibbles (v : Z) :
  0 <= v < 256 ->
  0 <= Z.shiftr v 4 <= 15 /\ 0 <= Z.land v 15 <= 15
  /\ 16 * Z.shiftr v 4 + Z.land v 15 = v.
Proof.
  intros Hv.
  assert (Eh : Z.shiftr v 4 = v / 16)
    by (rewrite Z.shiftr_div_pow2 by lia; reflexivity).
  assert (El : Z.land v 15 = v mod 16)
    by (change 15 with (Z.ones 4); rewrite Z.land_ones by lia; reflexivity).
  rewrite Eh, El.
  pose proof (Z.div_mod v 16 ltac:(lia)) as Hdm.
  pose proof (Z.mod_pos_bound v 16 ltac:(lia)) as Hm.
  assert (0 <= v / 16 <= 15).
  { split; [apply Z.div_pos; lia|].
    apply Z.lt_succ_r. apply Z.div_lt_upper_bound; lia. }
  lia.
Qed.

Lemma EncodeToString_encodes (bs : list Z) :
  Forall (fun b => 0 <= b < 256) bs ->
  HexSpec.encodes (hex.EncodeToString bs) bs.
Proof.
  induction 1 as [|v bs Hv _ IH]; [constructor|].
  cbn [hex.EncodeToString].
  destruct (byte_nibbles v Hv) as (Hhi & Hlo & Hsum).
  rewrite <- Hsum at 3.
  constructor; auto using hextable_digit.
Qed.

(** X5.  Round trip: the hexadecimal text of any 32 bytes, behind a [0x]
    prefix, is handed back as those 32 bytes. *)
Theorem GetTxNextBlock_round_trip :
  forall (S : Type) (h : handler S) (w : World S) (backend : Backend)
         (monitor : Monitor) (duration : Z) (trx : list Z) (bs : list Z),
    length bs = 32%nat ->
    Forall (fun b => 0 <= b < 256) bs ->
    out (run h (GetTxNextBlock backend monitor duration trx
                  (String "0" (String "x" (hex.EncodeToString bs)))) w)
    = Returned (Ok bs).
Proof.
  intros S h w backend monitor duration trx bs Hlen Hbytes.
  rewrite (GetTxNextBlock_supplied_ok backend monitor duration trx
             (String "0" (String "x" (hex.EncodeToString bs))) bs).
  - reflexivity.
  - discriminate.
  - rewrite TrimPrefix_0x. split; [|exact Hlen].
    apply EncodeToString_encodes. exact Hbytes.
Qed.

Lemma GetTxNextBlock_round_trip_witness :
  length Sample.bytes32 = 32%nat
  /\ Forall (fun b => 0 <= b < 256) Sample.bytes32
  /\ out (run Script.serve
            (GetTxNextBlock (backend_ref 0) (monitor_ref 0) 5 [1; 2]
               (String "0" (String "x" (hex.EncodeToString Sample.bytes32))))
            (Script.start Script.healthy))
     = Returned (Ok Sample.bytes32).
Proof.
  assert (Hlen : length Sample.bytes32 = 32%nat) by reflexivity.
  assert (Hbytes : Forall (fun b => 0 <= b < 256) Sample.bytes32).
  { unfold Sample.bytes32. repeat (apply Forall_cons; split; [lia|]).
    apply Forall_nil. exact I. }
  refine (conj Hlen (conj Hbytes _)).
  exact (GetTxNextBlock_round_trip Script.t Script.serve
           (Script.start Script.healthy) (backend_ref 0) (monitor_ref 0) 5
           [1; 2] Sample.bytes32 Hlen Hbytes).
Defined.

Lemma setBytes_length (n : nat) (b : list Z) :
  length (common.setBytes n b) = n.
Proof.
  unfold common.setBytes. rewrite length_app, repeat_length, length_skipn.
  lia.
Qed.

Lemma setBytes_exact (n : nat) (b : list Z) :
  length b = n -> common.setBytes n b = b.
Proof.
  intros <-. unfold common.setBytes.
  rewrite Nat.sub_diag. cbn [skipn]. rewrite Nat.sub_diag. reflexivity.
Qed.

(** X6.  Without a block hash the first thing [GetTxNextBlock] does is
    read the receipt of a 32-byte transaction hash: the reference
    transaction itself when it has 32 bytes, otherwise its last 32 bytes
    or the transaction behind leading zeros. *)
Theorem GetTxNextBlock_receipt_hash :
  forall (S : Type) (h : handler S) (w : World S) (backend : Backend)
         (monitor : Monitor) (duration : Z) (trx : list Z),
  exists (txHash : common.Hash) (receipt : result Receipt.t),
    trace (run h (GetTxNextBlock backend monitor duration trx "") w) !! 0%nat
    = Some (exchange (Q_Backend_TransactionReceipt backend txHash) receipt)
    /\ length txHash = 32%nat
    /\ (length trx = 32%nat -> txHash = trx)
    /\ ((32 <= length trx)%nat -> txHash = skipn (length trx - 32) trx)
    /\ ((length trx <= 32)%nat ->
        txHash = repeat 0 (32 - length trx) ++ trx).
Proof.
  intros S h w backend monitor duration trx.
  exists (common.BytesToHash trx).
  unfold GetTxNextBlock. cbn [GoString.is_empty negb]. run_steps.
  eexists. split; [reflexivity|].
  unfold common.BytesToHash, common.HashLength.
  split; [apply setBytes_length|].
  split; [apply setBytes_exact|].
  unfold common.setBytes. split; intros Hlen.
  - rewrite length_skipn.
    replace (32 - (length trx - (length trx - 32)))%nat with 0%nat by lia.
    reflexivity.
  - replace (length trx - 32)%nat with 0%nat by lia. reflexivity.
Qed.

(** X7.  If the receipt of the reference transaction cannot be read, its
    error is returned as it is and nothing else happens: no wait for a
    block, no log line, no change of [ChainObject]. *)
Theorem GetTxNextBlock_receipt_failure :
  forall (S : Type) (h : handler S) (w : World S) (backend : Backend)
         (monitor : Monitor) (duration : Z) (trx : list Z)
         (txHash : common.Hash) (err : error),
    In (exchange (Q_Backend_TransactionReceipt backend txHash) (Err err))
       (trace (run h (GetTxNextBlock backend monitor duration trx "") w)) ->
    out (run h (GetTxNextBlock backend monitor duration trx "") w)
    = Returned (Err err)
    /\ asked (trace (run h (GetTxNextBlock backend monitor duration trx "")
                       w))
       = [Q_Backend_TransactionReceipt backend (common.BytesToHash trx)]
    /\ globals (final (run h (GetTxNextBlock backend monitor duration trx
                                "") w))
       = globals w.
Proof.
  intros S h w backend monitor duration trx txHash err.
  unfold GetTxNextBlock. cbn [GoString.is_empty negb]. run_steps.
  repeat next_answer; intros Hin; in_trace Hin;
    pose proof (exchange_call _ _ _ _ Hin) as Hc; injection Hc as Hh;
    subst txHash; apply exchange_inj in Hin; try discriminate Hin.
  injection Hin as <-. repeat split.
Qed.

Lemma GetTxNextBlock_receipt_failure_witness :
  In (exchange (Q_Backend_TransactionReceipt (backend_ref 0)
                  (common.BytesToHash [1; 2])) (Err (Foreign 2)))
     (trace (run Script.serve
               (GetTxNextBlock (backend_ref 0) (monitor_ref 0) 5 [1; 2] "")
               (Script.start Sample.no_receipt)))
  /\ out (run Script.serve
            (GetTxNextBlock (backend_ref 0) (monitor_ref 0) 5 [1; 2] "")
            (Script.start Sample.no_receipt))
     = Returned (Err (Foreign 2))
  /\ asked (trace (run Script.serve
                     (GetTxNextBlock (backend_ref 0) (monitor_ref 0) 5
                        [1; 2] "")
                     (Script.start Sample.no_receipt)))
     = [Q_Backend_TransactionReceipt (backend_ref 0)
          (common.BytesToHash [1; 2])]
  /\ globals (final (run Script.serve
                       (GetTxNextBlock (backend_ref 0) (monitor_ref 0) 5
                          [1; 2] "")
                       (Script.start Sample.no_receipt)))
     = globals (Script.start Sample.no_receipt).
Proof.
  assert (Hin : In (exchange (Q_Backend_TransactionReceipt (backend_ref 0)
                                (common.BytesToHash [1; 2]))
                      (Err (Foreign 2)))
                   (trace (run Script.serve
                             (GetTxNextBlock (backend_ref 0) (monitor_ref 0)
                                5 [1; 2] "")
                             (Script.start Sample.no_receipt)))).
  { left. reflexivity. }
  refine (conj Hin _).
  exact (GetTxNextBlock_receipt_failure Script.t Script.serve
           (Script.start Sample.no_receipt) (backend_ref 0) (monitor_ref 0)
           5 [1; 2] (common.BytesToHash [1; 2]) (Foreign 2) Hin).
Defined.

(** ** GetTxHash: what the caller can tell from the error *)

Lemma errors_Is_refl (e : error) : errors_Is e e = true.
Proof.
  destruct e; cbn [errors_Is];
    match goal with |- context [decide ?P] => destruct (decide P) end;
    congruence.
Qed.

Lemma errors_Is_wrapped (format : string) (e : error) :
  errors_Is (fmt_Errorf_w format e) e = true.
Proof.
  cbn [errors_Is]. destruct (decide _); [reflexivity|].
  apply errors_Is_refl.
Qed.

(** X8.  No error returned by [GetTxHash] is or wraps [ErrNotFound]: a
    missing deployment hash is reported by a new error that does not wrap
    the store's, so a caller cannot recognise it with [errors.Is]. *)
Theorem GetTxHash_never_not_found :
  forall (VaultDeploymentKey : string) (S : Type) (h : handler S)
         (w : World S) (stateStore : StateStorer) (e : error),
    out (run h (GetTxHash VaultDeploymentKey stateStore) w)
    = Returned (Err e) ->
    errors_Is e ErrNotFound = false.
Proof.
  intros key S h w stateStore e.
  unfold GetTxHash. run_steps.
  next_answer; [intros H; discriminate H|].
  destruct (errors_Is _ ErrNotFound) eqn:His; run_steps;
    intros H; injection H as <-; [reflexivity | exact His].
Qed.

Lemma GetTxHash_never_not_found_witness :
  out (run Script.serve (GetTxHash "deployment" (store_ref 0))
         (Script.start Sample.missing_hash))
  = Returned (Err (errors_New
      "vault deployment transaction hash not found, please specify the transaction hash manually"))
  /\ errors_Is
       (errors_New
          "vault deployment transaction hash not found, please specify the transaction hash manually")
       ErrNotFound = false.
Proof.
  assert (Hout : out (run Script.serve (GetTxHash "deployment" (store_ref 0))
                        (Script.start Sample.missing_hash))
                 = Returned (Err (errors_New
      "vault deployment transaction hash not found, please specify the transaction hash manually")))
    by reflexivity.
  refine (conj Hout _).
  exact (GetTxHash_never_not_found "deployment" Script.t Script.serve
           (Script.start Sample.missing_hash) (store_ref 0) _ Hout).
Defined.

(** ** initVaultFactory: the other paths *)

Lemma HexToAddress_length (s : string) :
  length (common.HexToAddress s) = 20%nat.
Proof. apply setBytes_length. Qed.

(** X9.  A factory address given by hand that is a hexadecimal address is
    used as it is, on a known network and on an unknown one alike: the
    factory is built on the 20 bytes it denotes, and the network's
    well-known factory address plays no part. *)
Theorem initVaultFactory_custom_address :
  forall (S : Type) (h : handler S) (w : World S) (backend : Backend)
         (chainID : Z) (transactionService : Service)
         (factoryAddress : string) (cfg : ChainConfig.t) (found : bool),
    fst (h (Q_config_GetChainConfig chainID) (env w)) = (Some cfg, found) ->
    factoryAddress <> EmptyString ->
    common.IsHexAddress factoryAddress = true ->
    exists f : Factory,
      out (run h (initVaultFactory backend chainID transactionService
                    factoryAddress) w) = Returned (Ok f)
      /\ asked (trace (run h (initVaultFactory backend chainID
                                transactionService factoryAddress) w))
         = [ Q_config_GetChainConfig chainID;
             Q_log_Infof "using custom factory address: %x"
               [ABytes (common.HexToAddress factoryAddress)];
             Q_vault_NewFactory backend transactionService
               (common.HexToAddress factoryAddress) ]
      /\ In (exchange (Q_vault_NewFactory backend transactionService
                         (common.HexToAddress factoryAddress)) f)
            (trace (run h (initVaultFactory backend chainID
                             transactionService factoryAddress) w))
      /\ length (common.HexToAddress factoryAddress) = 20%nat.
Proof.
  intros S h w backend chainID svc factoryAddress cfg found Hcfg Hne Hhex.
  unfold initVaultFactory. run_steps.
  rewrite Hcfg. cbn [fst snd]. run_steps.
  rewrite (is_empty_false _ Hne), Hhex. cbn [negb]. run_steps.
  eexists. split; [reflexivity|]. split; [reflexivity|].
  split; [right; right; left; reflexivity|].
  apply HexToAddress_length.
Qed.

Lemma initVaultFactory_custom_address_witness :
  fst (Script.serve (Q_config_GetChainConfig 198)
         (env (Script.start Script.healthy)))
  = (Some (ChainConfig.mk "" [] []), false)
  /\ Sample.address40 <> EmptyString
  /\ common.IsHexAddress Sample.address40 = true
  /\ exists f : Factory,
      out (run Script.serve
             (initVaultFactory (backend_ref 0) 198 (service_ref 0)
                Sample.address40)
             (Script.start Script.healthy)) = Returned (Ok f)
      /\ asked (trace (run Script.serve
                         (initVaultFactory (backend_ref 0) 198
                            (service_ref 0) Sample.address40)
                         (Script.start Script.healthy)))
         = [ Q_config_GetChainConfig 198;
             Q_log_Infof "using custom factory address: %x"
               [ABytes (common.HexToAddress Sample.address40)];
             Q_vault_NewFactory (backend_ref 0) (service_ref 0)
               (common.HexToAddress Sample.address40) ]
      /\ In (exchange (Q_vault_NewFactory (backend_ref 0) (service_ref 0)
                         (common.HexToAddress Sample.address40)) f)
            (trace (run Script.serve
                      (initVaultFactory (backend_ref 0) 198 (service_ref 0)
                         Sample.address40)
                      (Script.start Script.healthy)))
      /\ length (common.HexToAddress Sample.address40) = 20%nat.
Proof.
  assert (Hcfg : fst (Script.serve (Q_config_GetChainConfig 198)
                        (env (Script.start Script.healthy)))
                 = (Some (ChainConfig.mk "" [] []), false)) by reflexivity.
  assert (Hne : Sample.address40 <> EmptyString) by discriminate.
  assert (Hhex : common.IsHexAddress Sample.address40 = true)
    by reflexivity.
  refine (conj Hcfg (conj Hne (conj Hhex _))).
  exact (initVaultFactory_custom_address Script.t Script.serve
           (Script.start Script.healthy) (backend_ref 0) 198 (service_ref 0)
           Sample.address40 (ChainConfig.mk "" [] []) false Hcfg Hne Hhex).
Defined.

(** X10.  [initVaultFactory] builds a factory exactly when it returns
    one: a returned factory is the answer of the single call of
    [vault.NewFactory] of the execution, and an execution that returns no
    factory (an error, or the panic on a nil configuration) has called
    [vault.NewFactory] not at all.  [ChainObject] is never touched. *)
Theorem initVaultFactory_builds_iff_returns :
  forall (S : Type) (h : handler S) (w : World S) (backend : Backend)
         (chainID : Z) (transactionService : Service)
         (factoryAddress : string),
    (forall f : Factory,
        out (run h (initVaultFactory backend chainID transactionService
                      factoryAddress) w) = Returned (Ok f) ->
        exists address,
          List.filter
            (fun x : Exchange =>
               match projT1 x with
               | Q_vault_NewFactory _ _ _ => true
               | _ => false
               end)
            (trace (run h (initVaultFactory backend chainID
                             transactionService factoryAddress) w))
          = [exchange (Q_vault_NewFactory backend transactionService address)
               f])
    /\ ((forall f : Factory,
            out (run h (initVaultFactory backend chainID transactionService
                          factoryAddress) w) <> Returned (Ok f)) ->
        forall b t a,
          ~ In (Q_vault_NewFactory b t a)
               (asked (trace (run h (initVaultFactory backend chainID
                                       transactionService factoryAddress)
                                w))))
    /\ globals (final (run h (initVaultFactory backend chainID
                                transactionService factoryAddress) w))
       = globals w.
Proof.
  intros S h w backend chainID svc factoryAddress.
  unfold initVaultFactory. run_steps.
  repeat next_answer; (split; [|split; [|reflexivity]]).
  all: try (intros f Hf; discriminate Hf).
  all: try (intros f Hf; injection Hf as <-; eexists; reflexivity).
  all: try (intros _ b' t' a' Hin;
            cbn [asked map projT1 exchange In] in Hin;
            repeat (destruct Hin as [Hin|Hin]); try discriminate Hin;
            contradiction).
  all: intros Hno; exfalso; eapply Hno; reflexivity.
Qed.

(** X11.  On a nil configuration [initVaultFactory] panics right after
    the lookup, whatever the factory address: nothing is logged, no
    factory is built. *)
Theorem initVaultFactory_nil_config_stops :
  forall (S : Type) (h : handler S) (w : World S) (backend : Backend)
         (chainID : Z) (transactionService : Service)
         (factoryAddress : string) (found : bool),
    fst (h (Q_config_GetChainConfig chainID) (env w)) = (None, found) ->
    out (run h (initVaultFactory backend chainID transactionService
                  factoryAddress) w)
    = Panicked "invalid memory address or nil pointer dereference"
    /\ asked (trace (run h (initVaultFactory backend chainID
                              transactionService factoryAddress) w))
       = [Q_config_GetChainConfig chainID].
Proof.
  intros S h w backend chainID svc factoryAddress found H.
  unfold initVaultFactory. run_steps. rewrite H. split; reflexivity.
Qed.

Lemma initVaultFactory_nil_config_stops_witness :
  fst (Script.serve (Q_config_GetChainConfig 199)
         (env (Script.start Sample.nil_config))) = (None, false)
  /\ out (run Script.serve
            (initVaultFactory (backend_ref 0) 199 (service_ref 0)
               Sample.address40)
            (Script.start Sample.nil_config))
     = Panicked "invalid memory address or nil pointer dereference"
  /\ asked (trace (run Script.serve
                     (initVaultFactory (backend_ref 0) 199 (service_ref 0)
                        Sample.address40)
                     (Script.start Sample.nil_config)))
     = [Q_config_GetChainConfig 199].
Proof.
  assert (H : fst (Script.serve (Q_config_GetChainConfig 199)
                     (env (Script.start Sample.nil_config)))
              = (None, false)) by reflexivity.
  refine (conj H _).
  exact (initVaultFactory_nil_config_stops Script.t Script.serve
           (Script.start Sample.nil_config) (backend_ref 0) 199
           (service_ref 0) Sample.address40 false H).
Defined.

(** ** InitChain: what is dialled, built and reported *)

(** X12.  [InitChain] does not look at the [found] flag of the
    configuration lookup: known network or not, the second thing it does
    is dial the endpoint of the configuration it was handed. *)
Theorem InitChain_dials_configured_endpoint :
  forall (S : Type) (h : handler S) (w : World S) (stateStore : StateStorer)
         (signer : Signer) (pollingInterval chainID : Z) (peerid : string)
         (cfg : ChainConfig.t) (found : bool),
    fst (h (Q_config_GetChainConfig chainID) (env w)) = (Some cfg, found) ->
    asked (trace (run h (InitChain stateStore signer pollingInterval chainID
                           peerid) w)) !! 0%nat
    = Some (Q_config_GetChainConfig chainID)
    /\ asked (trace (run h (InitChain stateStore signer pollingInterval
                              chainID peerid) w)) !! 1%nat
       = Some (Q_ethclient_Dial (ChainConfig.Endpoint cfg)).
Proof.
  intros S h w stateStore signer pollingInterval chainID peerid cfg found H.
  unfold InitChain. run_steps. rewrite H. cbn [fst]. run_steps.
  split; reflexivity.
Qed.

Lemma InitChain_dials_configured_endpoint_witness :
  fst (Script.serve (Q_config_GetChainConfig 198)
         (env (Script.start Script.healthy)))
  = (Some (ChainConfig.mk "" [] []), false)
  /\ asked (trace (run Script.serve
                     (InitChain (store_ref 0) (signer_ref 0) 5 198 "me")
                     (Script.start Script.healthy))) !! 0%nat
     = Some (Q_config_GetChainConfig 198)
  /\ asked (trace (run Script.serve
                     (InitChain (store_ref 0) (signer_ref 0) 5 198 "me")
                     (Script.start Script.healthy))) !! 1%nat
     = Some (Q_ethclient_Dial
               (ChainConfig.Endpoint (ChainConfig.mk "" [] []))).
Proof.
  assert (H : fst (Script.serve (Q_config_GetChainConfig 198)
                     (env (Script.start Script.healthy)))
              = (Some (ChainConfig.mk "" [] []), false)) by reflexivity.
  refine (conj H _).
  exact (InitChain_dials_configured_endpoint Script.t Script.serve
           (Script.start Script.healthy) (store_ref 0) (signer_ref 0) 5 198
           "me" (ChainConfig.mk "" [] []) false H).
Defined.

(** X13.  When [InitChain] succeeds it has made exactly five calls, in
    this order: the configuration lookup, the dial of the configured
    endpoint, the signer's address, the monitor (on the dialled backend,
    for the signer's address) and the transaction service (on the same
    backend, signer, state store and chain id, watching that monitor).
    The value returned carries the caller's chain id, peer id and signer,
    and is the value published in [ChainObject]. *)
Theorem InitChain_success_wiring :
  forall (S : Type) (h : handler S) (w : World S) (stateStore : StateStorer)
         (signer : Signer) (pollingInterval chainID : Z) (peerid : string)
         (obj : ChainInfo.t),
    out (run h (InitChain stateStore signer pollingInterval chainID peerid)
           w) = Returned (Ok obj) ->
    asked (trace (run h (InitChain stateStore signer pollingInterval chainID
                           peerid) w))
    = [ Q_config_GetChainConfig chainID;
        Q_ethclient_Dial (ChainConfig.Endpoint (ChainInfo.Chainconfig obj));
        Q_Signer_EthereumAddress signer;
        Q_transaction_NewMonitor (ChainInfo.Backend_ obj)
          (ChainInfo.OverlayAddress obj) pollingInterval CancellationDepth;
        Q_transaction_NewService (ChainInfo.Backend_ obj) signer stateStore
          chainID (ChainInfo.TransactionMonitor obj) ]
    /\ ChainInfo.ChainID obj = chainID
    /\ ChainInfo.PeerID obj = peerid
    /\ ChainInfo.Signer_ obj = signer
    /\ In (exchange (Q_ethclient_Dial
                       (ChainConfig.Endpoint (ChainInfo.Chainconfig obj)))
             (Ok (ChainInfo.Backend_ obj)))
          (trace (run h (InitChain stateStore signer pollingInterval chainID
                           peerid) w))
    /\ In (exchange (Q_Signer_EthereumAddress signer)
             (Ok (ChainInfo.OverlayAddress obj)))
          (trace (run h (InitChain stateStore signer pollingInterval chainID
                           peerid) w))
    /\ globals (final (run h (InitChain stateStore signer pollingInterval
                                chainID peerid) w))
       = mkGlobals (Some obj).
Proof.
  intros S h w stateStore signer pollingInterval chainID peerid obj.
  unfold InitChain. run_steps.
  repeat next_answer; intros Hout; try discriminate Hout.
  injection Hout as <-. cbn [ChainInfo.Chainconfig ChainInfo.Backend_
    ChainInfo.OverlayAddress ChainInfo.ChainID ChainInfo.PeerID
    ChainInfo.Signer_ ChainInfo.TransactionMonitor].
  split; [reflexivity|]. do 3 (split; [reflexivity|]).
  split; [right; left; reflexivity|].
  split; [right; right; left; reflexivity|].
  reflexivity.
Qed.

Lemma InitChain_success_wiring_witness :
  out (run Script.serve (InitChain (store_ref 0) (signer_ref 0) 5 199 "me")
         (Script.start Script.healthy))
  = Returned (Ok (ChainInfo.mk Script.config199 (backend_ref 0) Script.addrA
                    (signer_ref 0) 199 "me" (monitor_ref 0) (service_ref 0)))
  /\ globals (final (run Script.serve
                       (InitChain (store_ref 0) (signer_ref 0) 5 199 "me")
                       (Script.start Script.healthy)))
     = mkGlobals
         (Some (ChainInfo.mk Script.config199 (backend_ref 0) Script.addrA
                  (signer_ref 0) 199 "me" (monitor_ref 0) (service_ref 0))).
Proof.
  assert (Hout : out (run Script.serve
                        (InitChain (store_ref 0) (signer_ref 0) 5 199 "me")
                        (Script.start Script.healthy))
                 = Returned (Ok (ChainInfo.mk Script.config199 (backend_ref 0)
                                   Script.addrA (signer_ref 0) 199 "me"
                                   (monitor_ref 0) (service_ref 0))))
    by reflexivity.
  refine (conj Hout _).
  exact (proj2 (proj2 (proj2 (proj2 (proj2 (proj2
           (InitChain_success_wiring Script.t Script.serve
              (Script.start Script.healthy) (store_ref 0) (signer_ref 0) 5
              199 "me" _ Hout))))))).
Defined.

(** X14.  Every error [InitChain] returns wraps the error of the
    collaborator that failed -- the dial, the signer or the transaction
    service -- behind one of three prefixes, so the cause is found again
    with [errors.Is]. *)
Theorem InitChain_errors_wrap_cause :
  forall (S : Type) (h : handler S) (w : World S) (stateStore : StateStorer)
         (signer : Signer) (pollingInterval chainID : Z) (peerid : string)
         (e : error),
    out (run h (InitChain stateStore signer pollingInterval chainID peerid)
           w) = Returned (Err e) ->
    exists (format : string) (cause : error),
      e = fmt_Errorf_w format cause
      /\ errors_Is e cause = true
      /\ ((format = "dial eth client: %w"
           /\ exists endpoint,
                In (exchange (Q_ethclient_Dial endpoint) (Err cause))
                   (trace (run h (InitChain stateStore signer pollingInterval
                                    chainID peerid) w)))
          \/ (format = "eth address: %w"
              /\ In (exchange (Q_Signer_EthereumAddress signer) (Err cause))
                    (trace (run h (InitChain stateStore signer
                                     pollingInterval chainID peerid) w)))
          \/ (format = "new transaction service: %w"
              /\ exists backend monitor,
                   In (exchange (Q_transaction_NewService backend signer
                                   stateStore chainID monitor) (Err cause))
                      (trace (run h (InitChain stateStore signer
                                       pollingInterval chainID peerid) w)))).
Proof.
  intros S h w stateStore signer pollingInterval chainID peerid e.
  unfold InitChain. run_steps.
  repeat next_answer; intros Hout; try discriminate Hout;
    injection Hout as <-; eexists; eexists;
    (split; [reflexivity|]); (split; [apply errors_Is_wrapped|]).
  - right. right. split; [reflexivity|].
    eexists. eexists. do 4 right. left. reflexivity.
  - right. left. split; [reflexivity|].
    do 2 right. left. reflexivity.
  - left. split; [reflexivity|].
    eexists. right. left. reflexivity.
Qed.

Lemma InitChain_errors_wrap_cause_witness :
  out (run Script.serve (InitChain (store_ref 0) (signer_ref 0) 5 199 "me")
         (Script.start Sample.no_signer))
  = Returned (Err (fmt_Errorf_w "eth address: %w" (Foreign 3)))
  /\ exists (format : string) (cause : error),
      fmt_Errorf_w "eth address: %w" (Foreign 3) = fmt_Errorf_w format cause
      /\ errors_Is (fmt_Errorf_w "eth address: %w" (Foreign 3)) cause = true
      /\ ((format = "dial eth client: %w"
           /\ exists endpoint,
                In (exchange (Q_ethclient_Dial endpoint) (Err cause))
                   (trace (run Script.serve
                             (InitChain (store_ref 0) (signer_ref 0) 5 199
                                "me") (Script.start Sample.no_signer))))
          \/ (format = "eth address: %w"
              /\ In (exchange (Q_Signer_EthereumAddress (signer_ref 0))
                       (Err cause))
                    (trace (run Script.serve
                              (InitChain (store_ref 0) (signer_ref 0) 5 199
                                 "me") (Script.start Sample.no_signer))))
          \/ (format = "new transaction service: %w"
              /\ exists backend monitor,
                   In (exchange (Q_transaction_NewService backend
                                   (signer_ref 0) (store_ref 0) 199 monitor)
                         (Err cause))
                      (trace (run Script.serve
                                (InitChain (store_ref 0) (signer_ref 0) 5
                                   199 "me")
                                (Script.start Sample.no_signer))))).
Proof.
  assert (Hout : out (run Script.serve
                        (InitChain (store_ref 0) (signer_ref 0) 5 199 "me")
                        (Script.start Sample.no_signer))
                 = Returned (Err (fmt_Errorf_w "eth address: %w" (Foreign 3))))
    by reflexivity.
  refine (conj Hout _).
  exact (InitChain_errors_wrap_cause Script.t Script.serve
           (Script.start Sample.no_signer) (store_ref 0) (signer_ref 0) 5
           199 "me" _ Hout).
Defined.

(** X15.  On a nil configuration [InitChain] panics on the read of the
    endpoint: nothing is dialled and [ChainObject] is as it was. *)
Theorem InitChain_nil_config_stops :
  forall (S : Type) (h : handler S) (w : World S) (stateStore : StateStorer)
         (signer : Signer) (pollingInterval chainID : Z) (peerid : string)
         (found : bool),
    fst (h (Q_config_GetChainConfig chainID) (env w)) = (None, found) ->
    out (run h (InitChain stateStore signer pollingInterval chainID peerid)
           w)
    = Panicked "invalid memory address or nil pointer dereference"
    /\ asked (trace (run h (InitChain stateStore signer pollingInterval
                              chainID peerid) w))
       = [Q_config_GetChainConfig chainID]
    /\ globals (final (run h (InitChain stateStore signer pollingInterval
                                chainID peerid) w))
       = globals w.
Proof.
  intros S h w stateStore signer pollingInterval chainID peerid found H.
  unfold InitChain. run_steps. rewrite H. repeat split.
Qed.

Lemma InitChain_nil_config_stops_witness :
  fst (Script.serve (Q_config_GetChainConfig 199)
         (env (Script.start Sample.nil_config))) = (None, false)
  /\ out (run Script.serve
            (InitChain (store_ref 0) (signer_ref 0) 5 199 "me")
            (Script.start Sample.nil_config))
     = Panicked "invalid memory address or nil pointer dereference"
  /\ asked (trace (run Script.serve
                     (InitChain (store_ref 0) (signer_ref 0) 5 199 "me")
                     (Script.start Sample.nil_config)))
     = [Q_config_GetChainConfig 199]
  /\ globals (final (run Script.serve
                       (InitChain (store_ref 0) (signer_ref 0) 5 199 "me")
                       (Script.start Sample.nil_config)))
     = globals (Script.start Sample.nil_config).
Proof.
  assert (H : fst (Script.serve (Q_config_GetChainConfig 199)
                     (env (Script.start Sample.nil_config)))
              = (None, false)) by reflexivity.
  refine (conj H _).
  exact (InitChain_nil_config_stops Script.t Script.serve
           (Script.start Sample.nil_config) (store_ref 0) (signer_ref 0) 5
           199 "me" false H).
Defined.

(** ** The cheque commands: failures, the emitter, the text encoder *)

(** X16.  If the swap service cannot list the last-sent cheques, the
    send-list command returns that error and does nothing more: no map is
    walked, nothing is emitted. *)
Theorem ListSendChequesCmd_failure :
  forall (Address_String : common.Address -> string) (S : Type)
         (h : handler S) (w : World S) (err : error),
    In (exchange Q_SwapService_LastSendCheques (Err err))
       (trace (run h (ListSendChequesCmd_Run Address_String) w)) ->
    out (run h (ListSendChequesCmd_Run Address_String) w)
    = Returned (Some err)
    /\ asked (trace (run h (ListSendChequesCmd_Run Address_String) w))
       = [Q_SwapService_LastSendCheques]
    /\ emitted (trace (run h (ListSendChequesCmd_Run Address_String) w))
       = [].
Proof.
  intros Address_String S h w err.
  unfold ListSendChequesCmd_Run. run_steps.
  next_answer; intros Hin; in_trace Hin.
  apply exchange_inj in Hin. injection Hin as <-. repeat split.
Qed.

Lemma ListSendChequesCmd_failure_witness :
  In (exchange Q_SwapService_LastSendCheques (Err (Foreign 4)))
     (trace (run Script.serve (ListSendChequesCmd_Run Script.show_address)
               (Script.start Sample.no_cheques)))
  /\ out (run Script.serve (ListSendChequesCmd_Run Script.show_address)
            (Script.start Sample.no_cheques))
     = Returned (Some (Foreign 4))
  /\ asked (trace (run Script.serve
                     (ListSendChequesCmd_Run Script.show_address)
                     (Script.start Sample.no_cheques)))
     = [Q_SwapService_LastSendCheques]
  /\ emitted (trace (run Script.serve
                       (ListSendChequesCmd_Run Script.show_address)
                       (Script.start Sample.no_cheques)))
     = [].
Proof.
  assert (Hin : In (exchange Q_SwapService_LastSendCheques (Err (Foreign 4)))
                   (trace (run Script.serve
                             (ListSendChequesCmd_Run Script.show_address)
                             (Script.start Sample.no_cheques)))).
  { left. reflexivity. }
  refine (conj Hin _).
  exact (ListSendChequesCmd_failure Script.show_address Script.t Script.serve
           (Script.start Sample.no_cheques) (Foreign 4) Hin).
Defined.

(** X17.  With the mapping [m] handed back and a runtime that visits
    every entry of a ranged map once, no peer is listed twice by the
    send-list command, every listed entry is the last cheque [m] holds
    for its peer, and every peer of [m] is listed. *)
Theorem ListSendChequesCmd_one_entry_per_peer :
  forall (Address_String : common.Address -> string) (S : Type)
         (h : handler S) (w : World S) (m : gmap string SignedCheque.t)
         (o : ListChequeRet.t),
    In (exchange Q_SwapService_LastSendCheques (Ok m))
       (trace (run h (ListSendChequesCmd_Run Address_String) w)) ->
    lawful_range (trace (run h (ListSendChequesCmd_Run Address_String) w)) ->
    In (Emit_ListChequeRet o)
       (emitted (trace (run h (ListSendChequesCmd_Run Address_String) w))) ->
    NoDup (map cheque.PeerID (ListChequeRet.Cheques o))
    /\ (forall c,
           In c (ListChequeRet.Cheques o) ->
           exists v,
             m !! cheque.PeerID c = Some v
             /\ c = cheque.mk (cheque.PeerID c)
                      (Address_String (SignedCheque.Beneficiary v))
                      (Address_String (SignedCheque.Vault v))
                      (SignedCheque.CumulativePayout v))
    /\ (forall k v,
           m !! k = Some v ->
           In (cheque.mk k (Address_String (SignedCheque.Beneficiary v))
                 (Address_String (SignedCheque.Vault v))
                 (SignedCheque.CumulativePayout v))
              (ListChequeRet.Cheques o)).
Proof.
  intros Address_String S h w m o Hgot Hlaw Hemit.
  destruct (ListSendChequesCmd_listing Address_String h w m Hgot)
    as (visited & Hin & Hemitted & _).
  pose proof (Hlaw m visited Hin) as Hperm.
  rewrite Hemitted in Hemit. destruct Hemit as [Ho|[]].
  injection Ho as <-. cbn [ListChequeRet.Cheques].
  split; [|split].
  - rewrite map_map. cbn [send_list_entry cheque.PeerID].
    change (map (fun x : string * SignedCheque.t => fst x) visited)
      with (visited.*1).
    rewrite Hperm. apply NoDup_fst_map_to_list.
  - intros c Hc. apply in_map_iff in Hc. destruct Hc as ([k v] & <- & Hkv).
    exists v. split; [|reflexivity].
    cbn [send_list_entry cheque.PeerID fst].
    apply elem_of_map_to_list. rewrite <- Hperm.
    apply list_elem_of_In. exact Hkv.
  - intros k v Hkv.
    apply (in_map (send_list_entry Address_String) visited (k, v)).
    apply list_elem_of_In. rewrite Hperm.
    apply elem_of_map_to_list. exact Hkv.
Qed.

Lemma ListSendChequesCmd_one_entry_per_peer_witness :
  In (exchange Q_SwapService_LastSendCheques (Ok Script.two_cheques))
     (trace (run Script.serve (ListSendChequesCmd_Run Script.show_address)
               (Script.start Script.healthy_reversed)))
  /\ lawful_range
       (trace (run Script.serve (ListSendChequesCmd_Run Script.show_address)
                 (Script.start Script.healthy_reversed)))
  /\ In (Emit_ListChequeRet
           (ListChequeRet.mk
              (map (send_list_entry Script.show_address)
                 (Script.mapiter Script.healthy_reversed Script.two_cheques))
              (Z.of_nat (length (Script.mapiter Script.healthy_reversed
                                   Script.two_cheques)))))
        (emitted (trace (run Script.serve
                           (ListSendChequesCmd_Run Script.show_address)
                           (Script.start Script.healthy_reversed))))
  /\ NoDup (map cheque.PeerID
              (map (send_list_entry Script.show_address)
                 (Script.mapiter Script.healthy_reversed
                    Script.two_cheques))).
Proof.
  assert (Htr := Script_send_list_trace Script.healthy_reversed
                   Script.two_cheques eq_refl).
  assert (Hgot : In (exchange Q_SwapService_LastSendCheques
                       (Ok Script.two_cheques))
                    (trace (run Script.serve
                              (ListSendChequesCmd_Run Script.show_address)
                              (Script.start Script.healthy_reversed)))).
  { rewrite Htr. left. reflexivity. }
  assert (Hlaw : lawful_range
                   (trace (run Script.serve
                             (ListSendChequesCmd_Run Script.show_address)
                             (Script.start Script.healthy_reversed)))).
  { apply (Script_send_list_lawful Script.healthy_reversed
             Script.two_cheques eq_refl).
    exact (reverse_Permutation (map_to_list Script.two_cheques)). }
  assert (Hemit : In (Emit_ListChequeRet
           (ListChequeRet.mk
              (map (send_list_entry Script.show_address)
                 (Script.mapiter Script.healthy_reversed Script.two_cheques))
              (Z.of_nat (length (Script.mapiter Script.healthy_reversed
                                   Script.two_cheques)))))
        (emitted (trace (run Script.serve
                           (ListSendChequesCmd_Run Script.show_address)
                           (Script.start Script.healthy_reversed))))).
  { rewrite Htr. left. reflexivity. }
  refine (conj Hgot (conj Hlaw (conj Hemit _))).
  exact (proj1 (ListSendChequesCmd_one_entry_per_peer Script.show_address
                  Script.t Script.serve
                  (Script.start Script.healthy_reversed) Script.two_cheques
                  _ Hgot Hlaw Hemit)).
Defined.

(** X18.  Each of the three commands emits at most one value, and a
    command that has emitted returns what [cmds.EmitOnce] answered: the
    emitter's error is the command's error. *)
Theorem commands_return_emitter_answer :
  forall (Address_String : common.Address -> string) (S : Type)
         (h : handler S) (w : World S) (Arguments : list string)
         (v : Emitted) (r : option error),
    ((length (emitted (trace (run h (ListSendChequesCmd_Run Address_String)
                                w))) <= 1)%nat
     /\ (In (exchange (Q_cmds_EmitOnce v) r)
            (trace (run h (ListSendChequesCmd_Run Address_String) w)) ->
         out (run h (ListSendChequesCmd_Run Address_String) w) = Returned r))
    /\ ((length (emitted (trace (run h (ChequeReceiveHistoryPeerCmd_Run
                                          Arguments) w))) <= 1)%nat
        /\ (In (exchange (Q_cmds_EmitOnce v) r)
               (trace (run h (ChequeReceiveHistoryPeerCmd_Run Arguments) w))
            -> out (run h (ChequeReceiveHistoryPeerCmd_Run Arguments) w)
               = Returned r))
    /\ ((length (emitted (trace (run h ChequeSendHistoryStatsCmd_Run w)))
         <= 1)%nat
        /\ (In (exchange (Q_cmds_EmitOnce v) r)
               (trace (run h ChequeSendHistoryStatsCmd_Run w)) ->
            out (run h ChequeSendHistoryStatsCmd_Run w) = Returned r)).
Proof.
  intros Address_String S h w Arguments v r. split; [|split].
  - unfold ListSendChequesCmd_Run. run_steps.
    next_answer; (split; [cbn; lia|]); intros Hin; in_trace Hin.
    pose proof (exchange_call _ _ _ _ Hin) as Hc. injection Hc as <-.
    apply exchange_inj in Hin. rewrite Hin. reflexivity.
  - unfold ChequeReceiveHistoryPeerCmd_Run.
    destruct Arguments as [|peer_id more]; run_steps;
      [split; [cbn; lia | intros []]|].
    next_answer; (split; [cbn; lia|]); intros Hin; in_trace Hin.
    pose proof (exchange_call _ _ _ _ Hin) as Hc. injection Hc as <-.
    apply exchange_inj in Hin. rewrite Hin. reflexivity.
  - unfold ChequeSendHistoryStatsCmd_Run. run_steps.
    next_answer; (split; [cbn; lia|]); intros Hin; in_trace Hin.
    pose proof (exchange_call _ _ _ _ Hin) as Hc. injection Hc as <-.
    apply exchange_inj in Hin. rewrite Hin. reflexivity.
Qed.

(** X19.  If the swap service cannot give the records of the requested
    peer, the receive-history command returns that error after having
    printed the peer id; nothing is emitted. *)
Theorem ChequeReceiveHistoryPeerCmd_failure :
  forall (S : Type) (h : handler S) (w : World S) (peer_id : string)
         (more : list string) (err : error),
    In (exchange (Q_SwapService_ReceivedChequeRecordsByPeer peer_id)
          (Err err))
       (trace (run h (ChequeReceiveHistoryPeerCmd_Run (peer_id :: more)) w)) ->
    out (run h (ChequeReceiveHistoryPeerCmd_Run (peer_id :: more)) w)
    = Returned (Some err)
    /\ asked (trace (run h (ChequeReceiveHistoryPeerCmd_Run
                              (peer_id :: more)) w))
       = [ Q_fmt_Println ["ChequeReceiveHistoryPeerCmd peer_id = "; peer_id];
           Q_SwapService_ReceivedChequeRecordsByPeer peer_id ]
    /\ emitted (trace (run h (ChequeReceiveHistoryPeerCmd_Run
                                (peer_id :: more)) w))
       = [].
Proof.
  intros S h w peer_id more err.
  unfold ChequeReceiveHistoryPeerCmd_Run. run_steps.
  next_answer; intros Hin; in_trace Hin.
  apply exchange_inj in Hin. injection Hin as <-. repeat split.
Qed.

Lemma ChequeReceiveHistoryPeerCmd_failure_witness :
  In (exchange (Q_SwapService_ReceivedChequeRecordsByPeer "peerA")
        (Err (Foreign 5)))
     (trace (run Script.serve (ChequeReceiveHistoryPeerCmd_Run ["peerA"])
               (Script.start Sample.no_cheques)))
  /\ out (run Script.serve (ChequeReceiveHistoryPeerCmd_Run ["peerA"])
            (Script.start Sample.no_cheques))
     = Returned (Some (Foreign 5))
  /\ asked (trace (run Script.serve
                     (ChequeReceiveHistoryPeerCmd_Run ["peerA"])
                     (Script.start Sample.no_cheques)))
     = [ Q_fmt_Println ["ChequeReceiveHistoryPeerCmd peer_id = "; "peerA"];
         Q_SwapService_ReceivedChequeRecordsByPeer "peerA" ]
  /\ emitted (trace (run Script.serve
                       (ChequeReceiveHistoryPeerCmd_Run ["peerA"])
                       (Script.start Sample.no_cheques)))
     = [].
Proof.
  assert (Hin : In (exchange
                      (Q_SwapService_ReceivedChequeRecordsByPeer "peerA")
                      (Err (Foreign 5)))
                   (trace (run Script.serve
                             (ChequeReceiveHistoryPeerCmd_Run ["peerA"])
                             (Script.start Sample.no_cheques)))).
  { right. left. reflexivity. }
  refine (conj Hin _).
  exact (ChequeReceiveHistoryPeerCmd_failure Script.t Script.serve
           (Script.start Sample.no_cheques) "peerA" [] (Foreign 5) Hin).
Defined.

Lemma send_list_lines_range (l : list cheque.t) (n a : nat) :
  ((a + n <= length l)%nat ->
   send_list_lines l (seq a n)
   = Returned (map send_list_row (firstn n (skipn a l))))
  /\ ((a <= length l < a + n)%nat ->
      exists msg, send_list_lines l (seq a n) = Panicked msg).
Proof.
  revert a. induction n as [|n IH]; intros a.
  - split; [reflexivity | intros H; lia].
  - cbn [seq send_list_lines].
    destruct (l !! a) as [c|] eqn:Hla.
    + pose proof (lookup_lt_Some _ _ _ Hla) as Hlt.
      destruct (IH (Datatypes.S a)) as [IHok IHbad]. split; intros H.
      * rewrite IHok by lia.
        rewrite (drop_S l c a Hla). reflexivity.
      * destruct IHbad as [msg Hmsg]; [lia|].
        rewrite Hmsg. eexists. reflexivity.
    + pose proof (lookup_ge_None_1 _ _ Hla) as Hge. split; intros H.
      * lia.
      * eexists. reflexivity.
Qed.

(** X20.  The text encoder of the send-list command prints the first
    [Len] entries, in order, and nothing when [Len] is not positive; a
    [Len] beyond the number of entries makes it panic on the index.  An
    amount from 0 up to 2^64 - 1 is printed as it is, and any amount is
    printed as a number in that range. *)
Theorem ListSendChequesCmd_Text_bounds :
  forall (o : ListChequeRet.t),
    ((Z.to_nat (ListChequeRet.Len o) <= length (ListChequeRet.Cheques o))%nat
     -> ListSendChequesCmd_Text o
        = Returned (map send_list_row
                      (firstn (Z.to_nat (ListChequeRet.Len o))
                         (ListChequeRet.Cheques o))))
    /\ ((length (ListChequeRet.Cheques o) < Z.to_nat (ListChequeRet.Len o))%nat
        -> exists msg, ListSendChequesCmd_Text o = Panicked msg)
    /\ (ListChequeRet.Len o <= 0 -> ListSendChequesCmd_Text o = Returned [])
    /\ (forall c,
           0 <= snd (send_list_row c) < 2 ^ 64
           /\ (0 <= cheque.Payout c < 2 ^ 64 ->
               snd (send_list_row c) = cheque.Payout c)).
Proof.
  intros o. unfold ListSendChequesCmd_Text.
  destruct (send_list_lines_range (ListChequeRet.Cheques o)
              (Z.to_nat (ListChequeRet.Len o)) 0) as [Hok Hbad].
  split; [|split; [|split]].
  - intros H. rewrite Hok by lia. reflexivity.
  - intros H. apply Hbad. lia.
  - intros H. replace (Z.to_nat (ListChequeRet.Len o)) with 0%nat by lia.
    reflexivity.
  - intros c. cbn [send_list_row snd]. unfold big_Uint64. split.
    + apply Z.mod_pos_bound. lia.
    + intros Hp. rewrite Z.abs_eq by lia. apply Z.mod_small. exact Hp.
Qed.

(** ** The settlement wiring *)

Lemma settle_exchange_inj (c : SettleCall) (r r' : SettleResp c) :
  settle_exchange c r = settle_exchange c r' -> r = r'.
Proof.
  unfold settle_exchange. intros H.
  apply (Eqdep_dec.inj_pair2_eq_dec SettleCall) in H; [exact H|].
  intros x y. destruct (decide (x = y)); [left | right]; assumption.
Qed.

Lemma settle_exchange_call (c c' : SettleCall) (r : SettleResp c)
    (r' : SettleResp c') :
  settle_exchange c r = settle_exchange c' r' -> c = c'.
Proof. intros H. exact (f_equal (@projT1 _ _) H). Qed.

Ltac settle_steps :=
  cbn [mbind mret SettleProg_bind SettleProg_ret Prog_bind Prog_ret sbind
       bind lift sderef deref settle_run settle_trace settle_out
       settle_final settle_globals settle_env
       config_GetChainConfig vault_NewFactory Infof
       vault_NewChequeStore vault_NewCashoutService
       accounting_NewAccounting vault_NewChequeSigner vault_Init
       priceoracle_New swapprotocol_New swap_NewAddressbook swap_New
       SwapProtocol_SetSwap Accounting_SetPayFunc fst snd].

Ltac settle_next :=
  match goal with
  | |- context [sderef ?x] => destruct x eqn:?
  | |- context [deref ?x] => destruct x eqn:?
  | |- context [match ?x with _ => _ end] => destruct x eqn:?
  end; settle_steps.

Ltac in_settle_trace H :=
  cbn [In] in H;
  repeat (destruct H as [H|H]);
  try contradiction;
  try (apply settle_exchange_call in H; discriminate H);
  try (apply settle_exchange_inj in H; discriminate H).

(** X21.  [initVaultService] and the deployment gas price.  With no gas
    price the vault is initialised under the caller's context; with a gas
    price that parses as a decimal number, under that context with the
    price set on it; with one that does not parse, the call fails with the
    "cannot be parsed" error before the vault is initialised.  A failure
    of the initialisation is returned wrapped behind "vault init: ". *)
Theorem initVaultService_gas_price :
  forall (S : Type) (h : settle_handler S) (w : SettleWorld S)
         (ctx : Context) (stateStore : StateStorer) (signer : Signer)
         (chainID : Z) (peerId : string) (backend : Backend)
         (overlayEthAddress : common.Address) (transactionService : Service)
         (vaultFactory : Factory) (deployGasPrice : string)
         (chequeStore : ChequeStore),
    (deployGasPrice = EmptyString ->
     exists chequeSigner,
       settle_asked (settle_trace (settle_run h
         (initVaultService ctx stateStore signer chainID peerId backend
            overlayEthAddress transactionService vaultFactory deployGasPrice
            chequeStore) w))
       = [ Q_vault_NewChequeSigner signer chainID;
           Q_vault_Init ctx vaultFactory stateStore transactionService
             backend chainID peerId overlayEthAddress chequeSigner
             chequeStore ])
    /\ (forall gasPrice,
           deployGasPrice <> EmptyString ->
           big_SetString deployGasPrice = Some gasPrice ->
           exists chequeSigner,
             settle_asked (settle_trace (settle_run h
               (initVaultService ctx stateStore signer chainID peerId
                  backend overlayEthAddress transactionService vaultFactory
                  deployGasPrice chequeStore) w))
             = [ Q_vault_NewChequeSigner signer chainID;
                 Q_vault_Init (sctx_SetGasPrice ctx gasPrice) vaultFactory
                   stateStore transactionService backend chainID peerId
                   overlayEthAddress chequeSigner chequeStore ])
    /\ (deployGasPrice <> EmptyString ->
        big_SetString deployGasPrice = None ->
        settle_out (settle_run h
          (initVaultService ctx stateStore signer chainID peerId backend
             overlayEthAddress transactionService vaultFactory deployGasPrice
             chequeStore) w)
        = Returned (Failure (Errorf_s gas_price_format deployGasPrice))
        /\ settle_asked (settle_trace (settle_run h
             (initVaultService ctx stateStore signer chainID peerId backend
                overlayEthAddress transactionService vaultFactory
                deployGasPrice chequeStore) w))
           = [Q_vault_NewChequeSigner signer chainID])
    /\ (forall c f s t b n p o cs ch err,
           In (settle_exchange (Q_vault_Init c f s t b n p o cs ch) (Err err))
              (settle_trace (settle_run h
                 (initVaultService ctx stateStore signer chainID peerId
                    backend overlayEthAddress transactionService vaultFactory
                    deployGasPrice chequeStore) w)) ->
           settle_out (settle_run h
             (initVaultService ctx stateStore signer chainID peerId backend
                overlayEthAddress transactionService vaultFactory
                deployGasPrice chequeStore) w)
           = Returned (Failure (Errorf_w "vault init: %w" (Plain err)))).
Proof.
  intros S h w ctx stateStore signer chainID peerId backend
    overlayEthAddress transactionService vaultFactory deployGasPrice
    chequeStore.
  unfold initVaultService. settle_steps.
  split; [|split; [|split]].
  - intros ->. cbn [GoString.is_empty negb]. settle_steps.
    settle_next; eexists; reflexivity.
  - intros gasPrice Hne Hparse.
    rewrite (is_empty_false _ Hne), Hparse. cbn [negb]. settle_steps.
    settle_next; eexists; reflexivity.
  - intros Hne Hparse.
    rewrite (is_empty_false _ Hne), Hparse. cbn [negb]. settle_steps.
    split; reflexivity.
  - intros c f s t b n p o cs ch err.
    repeat settle_next; intros Hin; in_settle_trace Hin;
      pose proof (settle_exchange_call _ _ _ _ Hin) as Hc;
      injection Hc; intros; subst;
      apply settle_exchange_inj in Hin; try discriminate Hin;
      injection Hin as <-; reflexivity.
Qed.

(** X22.  A price-oracle address given to [initSwap] is not validated:
    whatever the non-empty text, the chain configuration is not
    consulted, the call succeeds, and the oracle is built on
    [HexToAddress] of the text -- always 20 bytes.  The protocol, the
    address book and the swap service are built in that order, the
    service is set on the protocol, and the protocol is published in
    [swapprotocol.SwapProtocol]. *)
Theorem initSwap_explicit_address :
  forall (S : Type) (h : settle_handler S) (w : SettleWorld S)
         (stateStore : StateStorer) (overlayEthAddress : common.Address)
         (vaultService : VaultService) (chequeStore : ChequeStore)
         (cashoutService : CashoutService) (accounting : Accounting)
         (priceOracleAddress : string) (chainID : Z)
         (transactionService : Service),
    priceOracleAddress <> EmptyString ->
    exists priceOracle swapProtocol addressbook swapService,
      settle_out (settle_run h
        (initSwap stateStore overlayEthAddress vaultService chequeStore
           cashoutService accounting priceOracleAddress chainID
           transactionService) w)
      = Returned (Ok (swapService, priceOracle))
      /\ settle_asked (settle_trace (settle_run h
           (initSwap stateStore overlayEthAddress vaultService chequeStore
              cashoutService accounting priceOracleAddress chainID
              transactionService) w))
         = [ Q_priceoracle_New (common.HexToAddress priceOracleAddress)
               transactionService;
             Q_swapprotocol_New overlayEthAddress priceOracle;
             Q_swap_NewAddressbook stateStore;
             Q_swap_New swapProtocol stateStore vaultService chequeStore
               addressbook chainID cashoutService accounting;
             Q_SwapProtocol_SetSwap swapProtocol swapService ]
      /\ settle_globals (settle_final (settle_run h
           (initSwap stateStore overlayEthAddress vaultService chequeStore
              cashoutService accounting priceOracleAddress chainID
              transactionService) w))
         = mkSettleGlobals (chain_globals (settle_globals w))
             (SettleObject (settle_globals w)) (Some swapProtocol)
      /\ length (common.HexToAddress priceOracleAddress) = 20%nat.
Proof.
  intros S h w stateStore overlayEthAddress vaultService chequeStore
    cashoutService accounting priceOracleAddress chainID transactionService
    Hne.
  unfold initSwap. rewrite (is_empty_false _ Hne). settle_steps.
  do 4 eexists. split; [reflexivity|]. split; [reflexivity|].
  split; [reflexivity|]. apply HexToAddress_length.
Qed.

Lemma initSwap_explicit_address_witness :
  "not an address" <> EmptyString
  /\ exists priceOracle swapProtocol addressbook swapService,
      settle_out (settle_run SettleScript.serve
        (initSwap (store_ref 0) Script.addrA (vaultservice_ref 0)
           (chequestore_ref 0) (cashout_ref 0) (accounting_ref 0)
           "not an address" 199 (service_ref 0))
        (SettleScript.start SettleScript.healthy))
      = Returned (Ok (swapService, priceOracle))
      /\ settle_asked (settle_trace (settle_run SettleScript.serve
           (initSwap (store_ref 0) Script.addrA (vaultservice_ref 0)
              (chequestore_ref 0) (cashout_ref 0) (accounting_ref 0)
              "not an address" 199 (service_ref 0))
           (SettleScript.start SettleScript.healthy)))
         = [ Q_priceoracle_New (common.HexToAddress "not an address")
               (service_ref 0);
             Q_swapprotocol_New Script.addrA priceOracle;
             Q_swap_NewAddressbook (store_ref 0);
             Q_swap_New swapProtocol (store_ref 0) (vaultservice_ref 0)
               (chequestore_ref 0) addressbook 199 (cashout_ref 0)
               (accounting_ref 0);
             Q_SwapProtocol_SetSwap swapProtocol swapService ]
      /\ settle_globals (settle_final (settle_run SettleScript.serve
           (initSwap (store_ref 0) Script.addrA (vaultservice_ref 0)
              (chequestore_ref 0) (cashout_ref 0) (accounting_ref 0)
              "not an address" 199 (service_ref 0))
           (SettleScript.start SettleScript.healthy)))
         = mkSettleGlobals
             (chain_globals (settle_globals
                               (SettleScript.start SettleScript.healthy)))
             (SettleObject (settle_globals
                              (SettleScript.start SettleScript.healthy)))
             (Some swapProtocol)
      /\ length (common.HexToAddress "not an address") = 20%nat.
Proof.
  assert (Hne : "not an address" <> EmptyString) by discriminate.
  refine (conj Hne _).
  exact (initSwap_explicit_address SettleScript.t SettleScript.serve
           (SettleScript.start SettleScript.healthy) (store_ref 0)
           Script.addrA (vaultservice_ref 0) (chequestore_ref 0)
           (cashout_ref 0) (accounting_ref 0) "not an address" 199
           (service_ref 0) Hne).
Defined.

(** X23.  With no price-oracle address given, [initSwap] falls back on
    the chain configuration: on a known network the oracle is built on
    the configured price-oracle address; on an unknown one the call fails
    with "no known price oracle address for this network", nothing is
    built and [swapprotocol.SwapProtocol] is as it was. *)
Theorem initSwap_default_address :
  forall (S : Type) (h : settle_handler S) (w : SettleWorld S)
         (stateStore : StateStorer) (overlayEthAddress : common.Address)
         (vaultService : VaultService) (chequeStore : ChequeStore)
         (cashoutService : CashoutService) (accounting : Accounting)
         (chainID : Z) (transactionService : Service)
         (cfg : ChainConfig.t) (found : bool),
    fst (h (Q_chain (Q_config_GetChainConfig chainID)) (settle_env w))
    = (Some cfg, found) ->
    (found = true ->
     exists priceOracle swapService,
       settle_out (settle_run h
         (initSwap stateStore overlayEthAddress vaultService chequeStore
            cashoutService accounting "" chainID transactionService) w)
       = Returned (Ok (swapService, priceOracle))
       /\ settle_asked (settle_trace (settle_run h
            (initSwap stateStore overlayEthAddress vaultService chequeStore
               cashoutService accounting "" chainID transactionService) w))
            !! 1%nat
          = Some (Q_priceoracle_New (ChainConfig.PriceOracleAddress cfg)
                    transactionService))
    /\ (found = false ->
        settle_out (settle_run h
          (initSwap stateStore overlayEthAddress vaultService chequeStore
             cashoutService accounting "" chainID transactionService) w)
        = Returned (Err (errors_New
                          "no known price oracle address for this network"))
        /\ settle_asked (settle_trace (settle_run h
             (initSwap stateStore overlayEthAddress vaultService chequeStore
                cashoutService accounting "" chainID transactionService) w))
           = [Q_chain (Q_config_GetChainConfig chainID)]
        /\ settle_globals (settle_final (settle_run h
             (initSwap stateStore overlayEthAddress vaultService chequeStore
                cashoutService accounting "" chainID transactionService) w))
           = settle_globals w).
Proof.
  intros S h w stateStore overlayEthAddress vaultService chequeStore
    cashoutService accounting chainID transactionService cfg found Hcfg.
  unfold initSwap. cbn [GoString.is_empty]. settle_steps.
  rewrite Hcfg. cbn [fst snd]. settle_steps.
  split; intros ->; cbn [negb]; settle_steps.
  - do 2 eexists. split; reflexivity.
  - repeat split.
Qed.

Lemma initSwap_default_address_witness :
  fst (SettleScript.serve (Q_chain (Q_config_GetChainConfig 198))
         (settle_env (SettleScript.start SettleScript.healthy)))
  = (Some (ChainConfig.mk "" [] []), false)
  /\ settle_out (settle_run SettleScript.serve
       (initSwap (store_ref 0) Script.addrA (vaultservice_ref 0)
          (chequestore_ref 0) (cashout_ref 0) (accounting_ref 0) "" 198
          (service_ref 0))
       (SettleScript.start SettleScript.healthy))
     = Returned (Err (errors_New
                       "no known price oracle address for this network"))
  /\ settle_asked (settle_trace (settle_run SettleScript.serve
       (initSwap (store_ref 0) Script.addrA (vaultservice_ref 0)
          (chequestore_ref 0) (cashout_ref 0) (accounting_ref 0) "" 198
          (service_ref 0))
       (SettleScript.start SettleScript.healthy)))
     = [Q_chain (Q_config_GetChainConfig 198)]
  /\ settle_globals (settle_final (settle_run SettleScript.serve
       (initSwap (store_ref 0) Script.addrA (vaultservice_ref 0)
          (chequestore_ref 0) (cashout_ref 0) (accounting_ref 0) "" 198
          (service_ref 0))
       (SettleScript.start SettleScript.healthy)))
     = settle_globals (SettleScript.start SettleScript.healthy).
Proof.
  assert (Hcfg : fst (SettleScript.serve
                        (Q_chain (Q_config_GetChainConfig 198))
                        (settle_env (SettleScript.start SettleScript.healthy)))
                 = (Some (ChainConfig.mk "" [] []), false)) by reflexivity.
  refine (conj Hcfg _).
  exact (proj2 (initSwap_default_address SettleScript.t SettleScript.serve
                  (SettleScript.start SettleScript.healthy) (store_ref 0)
                  Script.addrA (vaultservice_ref 0) (chequestore_ref 0)
                  (cashout_ref 0) (accounting_ref 0) 198 (service_ref 0)
                  (ChainConfig.mk "" [] []) false Hcfg) eq_refl).
Defined.

(** *** How executions compose *)

Lemma settle_run_bind {S A B : Type} (h : settle_handler S)
    (p : SettleProg A) (f : A -> SettleProg B) :
  forall w : SettleWorld S,
    settle_run h (sbind p f) w
    = match settle_out (settle_run h p w) with
      | Returned a =>
          mkSettleExecution
            (settle_out (settle_run h (f a) (settle_final (settle_run h p w))))
            (settle_final
               (settle_run h (f a) (settle_final (settle_run h p w))))
            (settle_trace (settle_run h p w)
             ++ settle_trace
                  (settle_run h (f a) (settle_final (settle_run h p w))))
      | Panicked msg =>
          mkSettleExecution (Panicked msg)
            (settle_final (settle_run h p w))
            (settle_trace (settle_run h p w))
      end.
Proof.
  induction p as [a|msg|upd k IH|c k IH]; intros w; cbn [sbind settle_run].
  - cbn [settle_out settle_final settle_trace app].
    destruct (settle_run h (f a) w); reflexivity.
  - reflexivity.
  - apply IH.
  - rewrite IH. cbn [settle_out settle_final settle_trace].
    destruct (settle_out (settle_run h (k _) _)); reflexivity.
Qed.

Lemma settle_run_mbind {S A B : Type} (h : settle_handler S)
    (p : SettleProg A) (f : A -> SettleProg B) (w : SettleWorld S) :
  settle_run h (p ≫= f) w
  = match settle_out (settle_run h p w) with
    | Returned a =>
        mkSettleExecution
          (settle_out (settle_run h (f a) (settle_final (settle_run h p w))))
          (settle_final
             (settle_run h (f a) (settle_final (settle_run h p w))))
          (settle_trace (settle_run h p w)
           ++ settle_trace
                (settle_run h (f a) (settle_final (settle_run h p w))))
    | Panicked msg =>
        mkSettleExecution (Panicked msg)
          (settle_final (settle_run h p w))
          (settle_trace (settle_run h p w))
    end.
Proof. exact (settle_run_bind h p f w). Qed.

Lemma settle_run_lift {S A : Type} (h : settle_handler S) (p : Prog A) :
  forall w : SettleWorld S,
    settle_run h (lift p) w
    = mkSettleExecution
        (out (run (chain_handler h) p (chain_world w)))
        (with_chain_world w (final (run (chain_handler h) p (chain_world w))))
        (map lift_exchange (trace (run (chain_handler h) p (chain_world w)))).
Proof.
  induction p as [a|msg|upd k IH|c k IH]; intros w; cbn [lift settle_run run].
  - destruct w as [[g so sp] e]. reflexivity.
  - destruct w as [[g so sp] e]. reflexivity.
  - rewrite IH. reflexivity.
  - rewrite IH. reflexivity.
Qed.

Lemma wiring_calls_app (t1 t2 : list SettleExchange) :
  wiring_calls (t1 ++ t2) = wiring_calls t1 ++ wiring_calls t2.
Proof.
  unfold wiring_calls, settle_asked. rewrite map_app. apply List.filter_app.
Qed.

Lemma wiring_calls_lifted (tr : list Exchange) :
  wiring_calls (map lift_exchange tr) = [].
Proof.
  induction tr as [|x tr IH]; [reflexivity|]. exact IH.
Qed.

(** *** What each helper of [InitSettlement] leaves behind *)

Lemma initVaultFactory_keeps_globals {S : Type} (h : handler S)
    (w : World S) backend chainID transactionService factoryAddress :
  globals (final (run h (initVaultFactory backend chainID transactionService
                           factoryAddress) w))
  = globals w.
Proof.
  unfold initVaultFactory. run_steps. repeat next_answer; reflexivity.
Qed.

Lemma lifted_factory_keeps_globals {S : Type} (h : settle_handler S)
    (w : SettleWorld S) backend chainID transactionService factoryAddress :
  settle_globals (settle_final (settle_run h
    (lift (initVaultFactory backend chainID transactionService
             factoryAddress)) w))
  = settle_globals w.
Proof.
  rewrite settle_run_lift. cbn [settle_final].
  unfold with_chain_world. cbn [settle_globals].
  rewrite initVaultFactory_keeps_globals.
  destruct w as [[g so sp] e]. reflexivity.
Qed.

Lemma lifted_factory_wiring_calls {S : Type} (h : settle_handler S)
    (w : SettleWorld S) backend chainID transactionService factoryAddress :
  wiring_calls (settle_trace (settle_run h
    (lift (initVaultFactory backend chainID transactionService
             factoryAddress)) w))
  = [].
Proof. rewrite settle_run_lift. apply wiring_calls_lifted. Qed.

Lemma initChequeStoreCashout_run {S : Type} (h : settle_handler S)
    (w : SettleWorld S) stateStore swapBackend vaultFactory chainID
    overlayEthAddress transactionService :
  exists chequeStore cashout,
    settle_out (settle_run h
      (initChequeStoreCashout stateStore swapBackend vaultFactory chainID
         overlayEthAddress transactionService) w)
    = Returned (chequeStore, cashout)
    /\ settle_globals (settle_final (settle_run h
         (initChequeStoreCashout stateStore swapBackend vaultFactory chainID
            overlayEthAddress transactionService) w))
       = settle_globals w
    /\ settle_asked (settle_trace (settle_run h
         (initChequeStoreCashout stateStore swapBackend vaultFactory chainID
            overlayEthAddress transactionService) w))
       = [ Q_vault_NewChequeStore stateStore vaultFactory chainID
             overlayEthAddress transactionService;
           Q_vault_NewCashoutService stateStore swapBackend
             transactionService chequeStore ].
Proof.
  unfold initChequeStoreCashout. settle_steps.
  do 2 eexists. repeat split.
Qed.

Lemma initVaultService_summary {S : Type} (h : settle_handler S)
    (w : SettleWorld S) ctx stateStore signer chainID peerId backend
    overlayEthAddress transactionService vaultFactory deployGasPrice
    chequeStore :
  exists r,
    settle_out (settle_run h
      (initVaultService ctx stateStore signer chainID peerId backend
         overlayEthAddress transactionService vaultFactory deployGasPrice
         chequeStore) w) = Returned r
    /\ settle_globals (settle_final (settle_run h
         (initVaultService ctx stateStore signer chainID peerId backend
            overlayEthAddress transactionService vaultFactory deployGasPrice
            chequeStore) w))
       = settle_globals w
    /\ match r with
       | Success _ =>
           exists ctx' chequeSigner,
             settle_asked (settle_trace (settle_run h
               (initVaultService ctx stateStore signer chainID peerId
                  backend overlayEthAddress transactionService vaultFactory
                  deployGasPrice chequeStore) w))
             = [ Q_vault_NewChequeSigner signer chainID;
                 Q_vault_Init ctx' vaultFactory stateStore transactionService
                   backend chainID peerId overlayEthAddress chequeSigner
                   chequeStore ]
             /\ ((deployGasPrice = EmptyString /\ ctx' = ctx)
                 \/ exists gasPrice,
                      big_SetString deployGasPrice = Some gasPrice
                      /\ ctx' = sctx_SetGasPrice ctx gasPrice)
       | Failure e =>
           e = Errorf_s gas_price_format deployGasPrice
           \/ exists cause, e = Errorf_w "vault init: %w" (Plain cause)
       end.
Proof.
  unfold initVaultService. settle_steps.
  destruct (GoString.is_empty deployGasPrice) eqn:Hgas; cbn [negb];
    [|destruct (big_SetString deployGasPrice) eqn:Hparse];
    settle_steps; try settle_next;
    eexists; (split; [reflexivity|]); (split; [reflexivity|]).
  - do 2 eexists. split; [reflexivity|].
    left. split; [apply is_empty_spec; assumption | reflexivity].
  - right. eexists. reflexivity.
  - do 2 eexists. split; [reflexivity|].
    right. eexists. split; reflexivity.
  - right. eexists. reflexivity.
  - left. reflexivity.
Qed.

Lemma initSwap_summary {S : Type} (h : settle_handler S)
    (w : SettleWorld S) stateStore overlayEthAddress vaultService
    chequeStore cashoutService accounting priceOracleAddress chainID
    transactionService :
  match settle_out (settle_run h
          (initSwap stateStore overlayEthAddress vaultService chequeStore
             cashoutService accounting priceOracleAddress chainID
             transactionService) w) with
  | Returned (Ok built) =>
      exists oracleAddress swapProtocol addressbook,
        wiring_calls (settle_trace (settle_run h
          (initSwap stateStore overlayEthAddress vaultService chequeStore
             cashoutService accounting priceOracleAddress chainID
             transactionService) w))
        = [ Q_priceoracle_New oracleAddress transactionService;
            Q_swapprotocol_New overlayEthAddress (snd built);
            Q_swap_NewAddressbook stateStore;
            Q_swap_New swapProtocol stateStore vaultService chequeStore
              addressbook chainID cashoutService accounting;
            Q_SwapProtocol_SetSwap swapProtocol (fst built) ]
        /\ settle_globals (settle_final (settle_run h
             (initSwap stateStore overlayEthAddress vaultService chequeStore
                cashoutService accounting priceOracleAddress chainID
                transactionService) w))
           = mkSettleGlobals (chain_globals (settle_globals w))
               (SettleObject (settle_globals w)) (Some swapProtocol)
        /\ (priceOracleAddress <> EmptyString ->
            oracleAddress = common.HexToAddress priceOracleAddress
            /\ wiring_calls (settle_trace (settle_run h
                 (initSwap stateStore overlayEthAddress vaultService
                    chequeStore cashoutService accounting priceOracleAddress
                    chainID transactionService) w))
               = settle_asked (settle_trace (settle_run h
                   (initSwap stateStore overlayEthAddress vaultService
                      chequeStore cashoutService accounting
                      priceOracleAddress chainID transactionService) w)))
  | Returned (Err err) =>
      settle_globals (settle_final (settle_run h
        (initSwap stateStore overlayEthAddress vaultService chequeStore
           cashoutService accounting priceOracleAddress chainID
           transactionService) w))
      = settle_globals w
      /\ err = errors_New "no known price oracle address for this network"
      /\ priceOracleAddress = EmptyString
  | Panicked _ =>
      settle_globals (settle_final (settle_run h
        (initSwap stateStore overlayEthAddress vaultService chequeStore
           cashoutService accounting priceOracleAddress chainID
           transactionService) w))
      = settle_globals w
      /\ priceOracleAddress = EmptyString
  end.
Proof.
  unfold initSwap.
  destruct (GoString.is_empty priceOracleAddress) eqn:Hempty; settle_steps.
  - apply is_empty_spec in Hempty.
    destruct (fst (fst (h (Q_chain (Q_config_GetChainConfig chainID))
                          (settle_env w)))) as [cfg|];
      settle_steps; [|split; [reflexivity | assumption]].
    destruct (snd (fst (h (Q_chain (Q_config_GetChainConfig chainID))
                          (settle_env w))));
      cbn [negb]; settle_steps.
    + do 3 eexists. split; [reflexivity|]. split; [reflexivity|].
      intros Hne. contradiction.
    + repeat split. assumption.
  - do 3 eexists. split; [reflexivity|]. split; [reflexivity|].
    intros _. split; reflexivity.
Qed.

Lemma settle_asked_app (t1 t2 : list SettleExchange) :
  settle_asked (t1 ++ t2) = settle_asked t1 ++ settle_asked t2.
Proof. apply map_app. Qed.

Lemma wiring_calls_of_asked (t : list SettleExchange) (cs : list SettleCall) :
  settle_asked t = cs ->
  wiring_calls t = List.filter is_wiring_call cs.
Proof. intros <-. reflexivity. Qed.

Lemma wiring_calls_cons (c : SettleCall) (r : SettleResp c)
    (t : list SettleExchange) :
  wiring_calls (settle_exchange c r :: t)
  = (if is_wiring_call c then [c] else []) ++ wiring_calls t.
Proof.
  unfold wiring_calls. cbn [settle_asked map projT1 settle_exchange
                            List.filter].
  destruct (is_wiring_call c); reflexivity.
Qed.

Lemma settle_asked_cons (c : SettleCall) (r : SettleResp c)
    (t : list SettleExchange) :
  settle_asked (settle_exchange c r :: t) = [c] ++ settle_asked t.
Proof. reflexivity. Qed.

Ltac split_trace :=
  repeat (rewrite wiring_calls_app || rewrite wiring_calls_cons
          || rewrite settle_asked_app || rewrite settle_asked_cons).

Ltac stage_steps H :=
  cbn [mbind SettleProg_bind sbind settle_run settle_out settle_final
       settle_trace settle_globals settle_env accounting_NewAccounting
       Accounting_SetPayFunc sderef fst snd] in H.

(** The stages of [InitSettlement]: where its execution stops, what it
    has published by then, and what it has built when it succeeds. *)
Lemma InitSettlement_stages (Address_String : common.Address -> string)
    {S : Type} (h : settle_handler S) (w : SettleWorld S) (ctx : Context)
    (stateStore : StateStorer) (ci : ChainInfo.t) (deployGasPrice : string)
    (chainID : Z) :
  exists rest,
    settle_trace (settle_run h
      (InitSettlement Address_String ctx stateStore (Some ci) deployGasPrice
         chainID) w)
    = settle_trace (settle_run h
        (lift (initVaultFactory (ChainInfo.Backend_ ci) (ChainInfo.ChainID ci)
                 (ChainInfo.TransactionService ci)
                 (Address_String (ChainConfig.CurrentFactory
                                    (ChainInfo.Chainconfig ci))))) w)
      ++ rest
    /\ ((settle_globals (settle_final (settle_run h
           (InitSettlement Address_String ctx stateStore (Some ci)
              deployGasPrice chainID) w)) = settle_globals w
         /\ ((exists msg,
                 settle_out (settle_run h
                   (InitSettlement Address_String ctx stateStore (Some ci)
                      deployGasPrice chainID) w) = Panicked msg
                 /\ (settle_out (settle_run h
                       (lift (initVaultFactory (ChainInfo.Backend_ ci)
                                (ChainInfo.ChainID ci)
                                (ChainInfo.TransactionService ci)
                                (Address_String
                                   (ChainConfig.CurrentFactory
                                      (ChainInfo.Chainconfig ci))))) w)
                     = Panicked msg
                     \/ Address_String (ChainConfig.PriceOracleAddress
                                          (ChainInfo.Chainconfig ci))
                        = EmptyString))
             \/ (settle_out (settle_run h
                   (InitSettlement Address_String ctx stateStore (Some ci)
                      deployGasPrice chainID) w)
                 = Returned (Failure (Plain (errors_New
                                               "init vault factory error")))
                 /\ exists err,
                      settle_out (settle_run h
                        (lift (initVaultFactory (ChainInfo.Backend_ ci)
                                 (ChainInfo.ChainID ci)
                                 (ChainInfo.TransactionService ci)
                                 (Address_String
                                    (ChainConfig.CurrentFactory
                                       (ChainInfo.Chainconfig ci))))) w)
                      = Returned (Err err))
             \/ settle_out (settle_run h
                  (InitSettlement Address_String ctx stateStore (Some ci)
                     deployGasPrice chainID) w)
                = Returned (Failure (Plain (errors_New
                                              "new accounting service error")))
             \/ settle_out (settle_run h
                  (InitSettlement Address_String ctx stateStore (Some ci)
                     deployGasPrice chainID) w)
                = Returned (Failure (Errorf_w "init vault service: %w"
                              (Errorf_s gas_price_format deployGasPrice)))
             \/ (exists cause,
                    settle_out (settle_run h
                      (InitSettlement Address_String ctx stateStore (Some ci)
                         deployGasPrice chainID) w)
                    = Returned (Failure (Errorf_w "init vault service: %w"
                                  (Errorf_w "vault init: %w" (Plain cause)))))
             \/ (settle_out (settle_run h
                   (InitSettlement Address_String ctx stateStore (Some ci)
                      deployGasPrice chainID) w)
                 = Returned (Failure (Plain (errors_New
                                               "init swap service error")))
                 /\ Address_String (ChainConfig.PriceOracleAddress
                                      (ChainInfo.Chainconfig ci))
                    = EmptyString)))
        \/ exists obj ctx' oracleAddress chequeSigner swapProtocol
                  addressbook accounting,
             settle_out (settle_run h
               (lift (initVaultFactory (ChainInfo.Backend_ ci)
                        (ChainInfo.ChainID ci)
                        (ChainInfo.TransactionService ci)
                        (Address_String
                           (ChainConfig.CurrentFactory
                              (ChainInfo.Chainconfig ci))))) w)
             = Returned (Ok (SettleInfo.Factory_ obj))
             /\ settle_out (settle_run h
                  (InitSettlement Address_String ctx stateStore (Some ci)
                     deployGasPrice chainID) w) = Returned (Success obj)
             /\ wiring_calls rest
                = [ Q_vault_NewChequeStore stateStore
                      (SettleInfo.Factory_ obj) chainID
                      (ChainInfo.OverlayAddress ci)
                      (ChainInfo.TransactionService ci);
                    Q_vault_NewCashoutService stateStore
                      (ChainInfo.Backend_ ci)
                      (ChainInfo.TransactionService ci)
                      (SettleInfo.ChequeStore_ obj);
                    Q_accounting_NewAccounting stateStore;
                    Q_vault_NewChequeSigner (ChainInfo.Signer_ ci)
                      (ChainInfo.ChainID ci);
                    Q_vault_Init ctx' (SettleInfo.Factory_ obj) stateStore
                      (ChainInfo.TransactionService ci)
                      (ChainInfo.Backend_ ci) (ChainInfo.ChainID ci)
                      (ChainInfo.PeerID ci) (ChainInfo.OverlayAddress ci)
                      chequeSigner (SettleInfo.ChequeStore_ obj);
                    Q_priceoracle_New oracleAddress
                      (ChainInfo.TransactionService ci);
                    Q_swapprotocol_New (ChainInfo.OverlayAddress ci)
                      (SettleInfo.OracleService obj);
                    Q_swap_NewAddressbook stateStore;
                    Q_swap_New swapProtocol stateStore
                      (SettleInfo.VaultService_ obj)
                      (SettleInfo.ChequeStore_ obj) addressbook
                      (ChainInfo.ChainID ci)
                      (SettleInfo.CashoutService_ obj) accounting;
                    Q_SwapProtocol_SetSwap swapProtocol
                      (SettleInfo.SwapService_ obj);
                    Q_Accounting_SetPayFunc accounting
                      (SettleInfo.SwapService_ obj) ]
             /\ ((deployGasPrice = EmptyString /\ ctx' = ctx)
                 \/ exists gasPrice,
                      big_SetString deployGasPrice = Some gasPrice
                      /\ ctx' = sctx_SetGasPrice ctx gasPrice)
             /\ settle_globals (settle_final (settle_run h
                  (InitSettlement Address_String ctx stateStore (Some ci)
                     deployGasPrice chainID) w))
                = mkSettleGlobals (chain_globals (settle_globals w))
                    (Some obj) (Some swapProtocol)
             /\ (Address_String (ChainConfig.PriceOracleAddress
                                   (ChainInfo.Chainconfig ci))
                 <> EmptyString ->
                 oracleAddress
                 = common.HexToAddress
                     (Address_String (ChainConfig.PriceOracleAddress
                                        (ChainInfo.Chainconfig ci)))
                 /\ settle_asked rest = wiring_calls rest)).
Proof.
  remember (settle_run h (InitSettlement Address_String ctx stateStore
                            (Some ci) deployGasPrice chainID) w)
    as E eqn:HE.
  unfold InitSettlement in HE. stage_steps HE.
  rewrite settle_run_mbind in HE.
  pose proof (lifted_factory_keeps_globals h w (ChainInfo.Backend_ ci)
                (ChainInfo.ChainID ci) (ChainInfo.TransactionService ci)
                (Address_String (ChainConfig.CurrentFactory
                                   (ChainInfo.Chainconfig ci)))) as G1.
  set (e1 := settle_run h (lift (initVaultFactory _ _ _ _)) w) in *.
  destruct (settle_out e1) as [[factory|err1]|msg1] eqn:O1; stage_steps HE.
  2:{ subst E. exists []. rewrite app_nil_r. split; [reflexivity|].
      left. split; [exact G1|]. right. left. split; [reflexivity|].
      eexists. reflexivity. }
  2:{ subst E. exists []. rewrite app_nil_r. split; [reflexivity|].
      left. split; [exact G1|]. left. eexists. split; [reflexivity|].
      left. reflexivity. }
  rewrite settle_run_mbind in HE.
  destruct (initChequeStoreCashout_run h (settle_final e1) stateStore
              (ChainInfo.Backend_ ci) factory chainID
              (ChainInfo.OverlayAddress ci) (ChainInfo.TransactionService ci))
    as (chequeStore & cashout & O2 & G2 & T2).
  set (e2 := settle_run h (initChequeStoreCashout _ _ _ _ _ _)
               (settle_final e1)) in *.
  rewrite O2 in HE. stage_steps HE.
  set (a3 := h (Q_accounting_NewAccounting stateStore)
               (settle_env (settle_final e2))) in *.
  destruct (fst a3) as [accounting|err3] eqn:O3; stage_steps HE.
  2:{ subst E. eexists. split; [reflexivity|].
      left. split; [cbn [settle_final settle_globals]; congruence|].
      do 2 right. left. reflexivity. }
  rewrite settle_run_mbind in HE.
  destruct (initVaultService_summary h
              (mkSettleWorld (settle_globals (settle_final e2)) (snd a3))
              ctx stateStore (ChainInfo.Signer_ ci) (ChainInfo.ChainID ci)
              (ChainInfo.PeerID ci) (ChainInfo.Backend_ ci)
              (ChainInfo.OverlayAddress ci) (ChainInfo.TransactionService ci)
              factory deployGasPrice chequeStore)
    as (r4 & O4 & G4 & D4).
  set (e4 := settle_run h (initVaultService _ _ _ _ _ _ _ _ _ _ _) _) in *.
  rewrite O4 in HE. stage_steps HE.
  destruct r4 as [vaultService|err4]; stage_steps HE.
  2:{ subst E. eexists. split; [reflexivity|].
      left. split; [cbn [settle_final settle_globals] in *; congruence|].
      destruct D4 as [->|[cause ->]].
      - do 3 right. left. reflexivity.
      - do 4 right. left. eexists. reflexivity. }
  destruct D4 as (ctx' & chequeSigner & T4 & Hctx).
  rewrite settle_run_mbind in HE.
  pose proof (initSwap_summary h (settle_final e4) stateStore
                (ChainInfo.OverlayAddress ci) vaultService chequeStore
                cashout accounting
                (Address_String (ChainConfig.PriceOracleAddress
                                   (ChainInfo.Chainconfig ci)))
                (ChainInfo.ChainID ci) (ChainInfo.TransactionService ci))
    as D5.
  set (e5 := settle_run h (initSwap _ _ _ _ _ _ _ _ _) (settle_final e4))
    in *.
  destruct (settle_out e5) as [[built|err5]|msg5] eqn:O5; stage_steps HE.
  2:{ subst E. eexists. split; [reflexivity|].
      destruct D5 as (G5 & _ & Hoa).
      left. split; [cbn [settle_final settle_globals] in *; congruence|].
      do 5 right. split; [reflexivity | exact Hoa]. }
  2:{ subst E. eexists. split; [reflexivity|].
      destruct D5 as (G5 & Hoa).
      left. split; [cbn [settle_final settle_globals] in *; congruence|].
      left. eexists. split; [reflexivity|]. right. exact Hoa. }
  destruct D5 as (oracleAddress & swapProtocol & addressbook & T5 & G5 & N5).
  subst E. cbn [settle_out settle_final settle_trace settle_globals].
  eexists. split; [reflexivity|]. right.
  exists (SettleInfo.mk factory vaultService chequeStore cashout (fst built)
            (snd built)),
    ctx', oracleAddress, chequeSigner, swapProtocol, addressbook, accounting.
  cbn [SettleInfo.Factory_ SettleInfo.VaultService_ SettleInfo.ChequeStore_
       SettleInfo.CashoutService_ SettleInfo.SwapService_
       SettleInfo.OracleService].
  split; [reflexivity|]. split; [reflexivity|].
  split; [|split; [exact Hctx|split]].
  - split_trace.
    rewrite T5, (wiring_calls_of_asked _ _ T2),
      (wiring_calls_of_asked _ _ T4).
    reflexivity.
  - rewrite G5. cbn [chain_globals SettleObject]. f_equal.
    cbn [settle_final settle_globals] in *. congruence.
  - intros Hne. destruct (N5 Hne) as [-> N5'].
    split; [reflexivity|].
    split_trace.
    rewrite <- N5', (wiring_calls_of_asked _ _ T2),
      (wiring_calls_of_asked _ _ T4), T2, T4.
    reflexivity.
Qed.

(** X24.  [InitSettlement] publishes nothing unless it succeeds: whenever
    it does not return a [SettleInfo] -- any of its errors, or a panic --
    [SettleObject], [swapprotocol.SwapProtocol] and [ChainObject] are as
    they were. *)
Theorem InitSettlement_failure_publishes_nothing :
  forall (Address_String : common.Address -> string) (S : Type)
         (h : settle_handler S) (w : SettleWorld S) (ctx : Context)
         (stateStore : StateStorer) (chaininfo : option ChainInfo.t)
         (deployGasPrice : string) (chainID : Z),
    (forall obj,
        settle_out (settle_run h
          (InitSettlement Address_String ctx stateStore chaininfo
             deployGasPrice chainID) w) <> Returned (Success obj)) ->
    settle_globals (settle_final (settle_run h
      (InitSettlement Address_String ctx stateStore chaininfo deployGasPrice
         chainID) w))
    = settle_globals w.
Proof.
  intros Address_String S h w ctx stateStore [ci|] deployGasPrice chainID
    Hno; [|reflexivity].
  destruct (InitSettlement_stages Address_String h w ctx stateStore ci
              deployGasPrice chainID)
    as (rest & _ & [[Hglob _] | (obj & ? & ? & ? & ? & ? & ? & _ & Hout & _)]).
  - exact Hglob.
  - exfalso. exact (Hno obj Hout).
Qed.

Lemma InitSettlement_failure_publishes_nothing_witness :
  (forall obj,
      settle_out (settle_run SettleScript.serve
        (InitSettlement Script.show_address (ctx_ref 0) (store_ref 0)
           (Some SettleScript.chaininfo) "" 199)
        (SettleScript.start SettleScript.no_vault))
      <> Returned (Success obj))
  /\ settle_globals (settle_final (settle_run SettleScript.serve
       (InitSettlement Script.show_address (ctx_ref 0) (store_ref 0)
          (Some SettleScript.chaininfo) "" 199)
       (SettleScript.start SettleScript.no_vault)))
     = settle_globals (SettleScript.start SettleScript.no_vault).
Proof.
  assert (Hno : forall obj,
             settle_out (settle_run SettleScript.serve
               (InitSettlement Script.show_address (ctx_ref 0) (store_ref 0)
                  (Some SettleScript.chaininfo) "" 199)
               (SettleScript.start SettleScript.no_vault))
             <> Returned (Success obj)).
  { intros obj H. vm_compute in H. discriminate H. }
  refine (conj Hno _).
  exact (InitSettlement_failure_publishes_nothing Script.show_address
           SettleScript.t SettleScript.serve
           (SettleScript.start SettleScript.no_vault) (ctx_ref 0)
           (store_ref 0) (Some SettleScript.chaininfo) "" 199 Hno).
Defined.

(** X25.  The errors of [InitSettlement].  A failure of the vault
    factory, of the accounting or of the swap service is reported by a
    fixed message that does not carry the cause; a failure of the vault
    service is reported wrapped behind "init vault service: ", and is
    either the gas price that cannot be parsed or the wrapped error of
    [vault.Init]. *)
Theorem InitSettlement_errors :
  forall (Address_String : common.Address -> string) (S : Type)
         (h : settle_handler S) (w : SettleWorld S) (ctx : Context)
         (stateStore : StateStorer) (chaininfo : option ChainInfo.t)
         (deployGasPrice : string) (chainID : Z) (e : Error),
    settle_out (settle_run h
      (InitSettlement Address_String ctx stateStore chaininfo deployGasPrice
         chainID) w) = Returned (Failure e) ->
    e = Plain (errors_New "init vault factory error")
    \/ e = Plain (errors_New "new accounting service error")
    \/ e = Plain (errors_New "init swap service error")
    \/ e = Errorf_w "init vault service: %w"
             (Errorf_s gas_price_format deployGasPrice)
    \/ exists cause,
         e = Errorf_w "init vault service: %w"
               (Errorf_w "vault init: %w" (Plain cause)).
Proof.
  intros Address_String S h w ctx stateStore [ci|] deployGasPrice chainID e
    Hout; [|discriminate Hout].
  destruct (InitSettlement_stages Address_String h w ctx stateStore ci
              deployGasPrice chainID)
    as (rest & _ & [[_ Hcase] | (obj & ? & ? & ? & ? & ? & ? & _ & Hok & _)]).
  - rewrite Hout in Hcase.
    destruct Hcase as [(msg & H & _) | [(H & _) | [H | [H | [(c & H) | (H & _)]]]]];
      try discriminate H; injection H as ->; eauto 10.
  - rewrite Hout in Hok. discriminate Hok.
Qed.

Lemma InitSettlement_errors_witness :
  settle_out (settle_run SettleScript.serve
    (InitSettlement Script.show_address (ctx_ref 0) (store_ref 0)
       (Some SettleScript.chaininfo) "1e9" 199)
    (SettleScript.start SettleScript.healthy))
  = Returned (Failure (Errorf_w "init vault service: %w"
                         (Errorf_s gas_price_format "1e9")))
  /\ (Errorf_w "init vault service: %w" (Errorf_s gas_price_format "1e9")
      = Plain (errors_New "init vault factory error")
      \/ Errorf_w "init vault service: %w" (Errorf_s gas_price_format "1e9")
         = Plain (errors_New "new accounting service error")
      \/ Errorf_w "init vault service: %w" (Errorf_s gas_price_format "1e9")
         = Plain (errors_New "init swap service error")
      \/ Errorf_w "init vault service: %w" (Errorf_s gas_price_format "1e9")
         = Errorf_w "init vault service: %w"
             (Errorf_s gas_price_format "1e9")
      \/ exists cause,
           Errorf_w "init vault service: %w"
             (Errorf_s gas_price_format "1e9")
           = Errorf_w "init vault service: %w"
               (Errorf_w "vault init: %w" (Plain cause))).
Proof.
  assert (Hout : settle_out (settle_run SettleScript.serve
                   (InitSettlement Script.show_address (ctx_ref 0)
                      (store_ref 0) (Some SettleScript.chaininfo) "1e9" 199)
                   (SettleScript.start SettleScript.healthy))
                 = Returned (Failure (Errorf_w "init vault service: %w"
                                        (Errorf_s gas_price_format "1e9"))))
    by reflexivity.
  refine (conj Hout _).
  exact (InitSettlement_errors Script.show_address SettleScript.t
           SettleScript.serve (SettleScript.start SettleScript.healthy)
           (ctx_ref 0) (store_ref 0) (Some SettleScript.chaininfo) "1e9" 199
           _ Hout).
Defined.

(** X26.  What a successful [InitSettlement] has built, in order, apart
    from the vault factory: the cheque store (on the [chainID] argument)
    and the cashout service, the accounting, the cheque signer and the
    vault service (on the chain id of [chaininfo], under the caller's
    context or that context with the parsed gas price), the price oracle,
    the swap protocol, the address book and the swap service (on the
    chain id of [chaininfo]); the swap service is then set on the protocol
    and registered with the accounting.  The value returned holds exactly
    these parts and is the value published in [SettleObject]. *)
Theorem InitSettlement_success_wiring :
  forall (Address_String : common.Address -> string) (S : Type)
         (h : settle_handler S) (w : SettleWorld S) (ctx : Context)
         (stateStore : StateStorer) (ci : ChainInfo.t)
         (deployGasPrice : string) (chainID : Z) (obj : SettleInfo.t),
    settle_out (settle_run h
      (InitSettlement Address_String ctx stateStore (Some ci) deployGasPrice
         chainID) w) = Returned (Success obj) ->
    exists ctx' oracleAddress chequeSigner swapProtocol addressbook
           accounting,
      wiring_calls (settle_trace (settle_run h
        (InitSettlement Address_String ctx stateStore (Some ci)
           deployGasPrice chainID) w))
      = [ Q_vault_NewChequeStore stateStore (SettleInfo.Factory_ obj)
            chainID (ChainInfo.OverlayAddress ci)
            (ChainInfo.TransactionService ci);
          Q_vault_NewCashoutService stateStore (ChainInfo.Backend_ ci)
            (ChainInfo.TransactionService ci) (SettleInfo.ChequeStore_ obj);
          Q_accounting_NewAccounting stateStore;
          Q_vault_NewChequeSigner (ChainInfo.Signer_ ci)
            (ChainInfo.ChainID ci);
          Q_vault_Init ctx' (SettleInfo.Factory_ obj) stateStore
            (ChainInfo.TransactionService ci) (ChainInfo.Backend_ ci)
            (ChainInfo.ChainID ci) (ChainInfo.PeerID ci)
            (ChainInfo.OverlayAddress ci) chequeSigner
            (SettleInfo.ChequeStore_ obj);
          Q_priceoracle_New oracleAddress (ChainInfo.TransactionService ci);
          Q_swapprotocol_New (ChainInfo.OverlayAddress ci)
            (SettleInfo.OracleService obj);
          Q_swap_NewAddressbook stateStore;
          Q_swap_New swapProtocol stateStore (SettleInfo.VaultService_ obj)
            (SettleInfo.ChequeStore_ obj) addressbook (ChainInfo.ChainID ci)
            (SettleInfo.CashoutService_ obj) accounting;
          Q_SwapProtocol_SetSwap swapProtocol (SettleInfo.SwapService_ obj);
          Q_Accounting_SetPayFunc accounting (SettleInfo.SwapService_ obj) ]
      /\ ((deployGasPrice = EmptyString /\ ctx' = ctx)
          \/ exists gasPrice,
               big_SetString deployGasPrice = Some gasPrice
               /\ ctx' = sctx_SetGasPrice ctx gasPrice)
      /\ settle_globals (settle_final (settle_run h
           (InitSettlement Address_String ctx stateStore (Some ci)
              deployGasPrice chainID) w))
         = mkSettleGlobals (chain_globals (settle_globals w)) (Some obj)
             (Some swapProtocol).
Proof.
  intros Address_String S h w ctx stateStore ci deployGasPrice chainID obj
    Hout.
  destruct (InitSettlement_stages Address_String h w ctx stateStore ci
              deployGasPrice chainID)
    as (rest & Htrace
        & [[_ Hcase]
          | (obj' & ctx' & oracleAddress & chequeSigner & swapProtocol
             & addressbook & accounting & _ & Hok & Hcalls & Hctx & Hglob
             & _)]).
  - rewrite Hout in Hcase.
    destruct Hcase as [(msg & H & _) | [(H & _) | [H | [H | [(c & H) | (H & _)]]]]];
      discriminate H.
  - rewrite Hout in Hok. injection Hok as <-.
    exists ctx', oracleAddress, chequeSigner, swapProtocol, addressbook,
      accounting.
    split; [|split; assumption].
    rewrite Htrace, wiring_calls_app, lifted_factory_wiring_calls.
    exact Hcalls.
Qed.

Lemma InitSettlement_success_wiring_witness :
  settle_out (settle_run SettleScript.serve
    (InitSettlement Script.show_address (ctx_ref 0) (store_ref 0)
       (Some SettleScript.chaininfo) "1000" 7)
    (SettleScript.start SettleScript.healthy))
  = Returned (Success (SettleInfo.mk (factory_ref 0) (vaultservice_ref 0)
                         (chequestore_ref 0) (cashout_ref 0)
                         (swapservice_ref 0) (priceoracle_ref 0)))
  /\ exists ctx' oracleAddress chequeSigner swapProtocol addressbook
            accounting,
      wiring_calls (settle_trace (settle_run SettleScript.serve
        (InitSettlement Script.show_address (ctx_ref 0) (store_ref 0)
           (Some SettleScript.chaininfo) "1000" 7)
        (SettleScript.start SettleScript.healthy)))
      = [ Q_vault_NewChequeStore (store_ref 0) (factory_ref 0) 7
            Script.addrA (service_ref 0);
          Q_vault_NewCashoutService (store_ref 0) (backend_ref 0)
            (service_ref 0) (chequestore_ref 0);
          Q_accounting_NewAccounting (store_ref 0);
          Q_vault_NewChequeSigner (signer_ref 0) 199;
          Q_vault_Init ctx' (factory_ref 0) (store_ref 0) (service_ref 0)
            (backend_ref 0) 199 "me" Script.addrA chequeSigner
            (chequestore_ref 0);
          Q_priceoracle_New oracleAddress (service_ref 0);
          Q_swapprotocol_New Script.addrA (priceoracle_ref 0);
          Q_swap_NewAddressbook (store_ref 0);
          Q_swap_New swapProtocol (store_ref 0) (vaultservice_ref 0)
            (chequestore_ref 0) addressbook 199 (cashout_ref 0) accounting;
          Q_SwapProtocol_SetSwap swapProtocol (swapservice_ref 0);
          Q_Accounting_SetPayFunc accounting (swapservice_ref 0) ]
      /\ (("1000" = EmptyString /\ ctx' = ctx_ref 0)
          \/ exists gasPrice,
               big_SetString "1000" = Some gasPrice
               /\ ctx' = sctx_SetGasPrice (ctx_ref 0) gasPrice)
      /\ settle_globals (settle_final (settle_run SettleScript.serve
           (InitSettlement Script.show_address (ctx_ref 0) (store_ref 0)
              (Some SettleScript.chaininfo) "1000" 7)
           (SettleScript.start SettleScript.healthy)))
         = mkSettleGlobals
             (chain_globals (settle_globals
                               (SettleScript.start SettleScript.healthy)))
             (Some (SettleInfo.mk (factory_ref 0) (vaultservice_ref 0)
                      (chequestore_ref 0) (cashout_ref 0)
                      (swapservice_ref 0) (priceoracle_ref 0)))
             (Some swapProtocol).
Proof.
  assert (Hout : settle_out (settle_run SettleScript.serve
                   (InitSettlement Script.show_address (ctx_ref 0)
                      (store_ref 0) (Some SettleScript.chaininfo) "1000" 7)
                   (SettleScript.start SettleScript.healthy))
                 = Returned (Success (SettleInfo.mk (factory_ref 0)
                      (vaultservice_ref 0) (chequestore_ref 0)
                      (cashout_ref 0) (swapservice_ref 0)
                      (priceoracle_ref 0)))) by reflexivity.
  refine (conj Hout _).
  exact (InitSettlement_success_wiring Script.show_address SettleScript.t
           SettleScript.serve (SettleScript.start SettleScript.healthy)
           (ctx_ref 0) (store_ref 0) SettleScript.chaininfo "1000" 7 _ Hout).
Defined.

Lemma settle_asked_lifted (tr : list Exchange) :
  settle_asked (map lift_exchange tr) = map Q_chain (asked tr).
Proof.
  unfold settle_asked, asked. rewrite !map_map. reflexivity.
Qed.

Lemma initVaultFactory_custom_run {S : Type} (h : handler S) (w : World S)
    backend chainID transactionService factoryAddress cfg found :
  fst (h (Q_config_GetChainConfig chainID) (env w)) = (Some cfg, found) ->
  factoryAddress <> EmptyString ->
  common.IsHexAddress factoryAddress = true ->
  exists f : Factory,
    out (run h (initVaultFactory backend chainID transactionService
                  factoryAddress) w) = Returned (Ok f)
    /\ asked (trace (run h (initVaultFactory backend chainID
                              transactionService factoryAddress) w))
       = [ Q_config_GetChainConfig chainID;
           Q_log_Infof "using custom factory address: %x"
             [ABytes (common.HexToAddress factoryAddress)];
           Q_vault_NewFactory backend transactionService
             (common.HexToAddress factoryAddress) ].
Proof.
  intros Hcfg Hne Hhex.
  unfold initVaultFactory. run_steps.
  rewrite Hcfg. cbn [fst snd]. run_steps.
  rewrite (is_empty_false _ Hne), Hhex. cbn [negb]. run_steps.
  eexists. split; reflexivity.
Qed.

(** X27.  When [Address.String] renders the two contract addresses of
    [chaininfo] as texts that read back as the same addresses,
    [InitSettlement] takes both from [chaininfo]: the vault factory is
    built on the factory address of [chaininfo] and the price oracle on
    its price-oracle address.  The configuration lookup is made once and
    neither its addresses nor its [found] flag are used; the run does not
    panic and fails neither with the factory error nor with the swap
    error.  On success the calls of the run are exactly the fourteen
    listed. *)
Theorem InitSettlement_addresses_from_chaininfo :
  forall (Address_String : common.Address -> string) (S : Type)
         (h : settle_handler S) (w : SettleWorld S) (ctx : Context)
         (stateStore : StateStorer) (ci : ChainInfo.t)
         (deployGasPrice : string) (chainID : Z) (cfg : ChainConfig.t)
         (found : bool),
    fst (h (Q_chain (Q_config_GetChainConfig (ChainInfo.ChainID ci)))
           (settle_env w)) = (Some cfg, found) ->
    Address_String (ChainConfig.CurrentFactory (ChainInfo.Chainconfig ci))
    <> EmptyString ->
    common.IsHexAddress
      (Address_String (ChainConfig.CurrentFactory (ChainInfo.Chainconfig ci)))
    = true ->
    common.HexToAddress
      (Address_String (ChainConfig.CurrentFactory (ChainInfo.Chainconfig ci)))
    = ChainConfig.CurrentFactory (ChainInfo.Chainconfig ci) ->
    Address_String (ChainConfig.PriceOracleAddress (ChainInfo.Chainconfig ci))
    <> EmptyString ->
    common.HexToAddress
      (Address_String
         (ChainConfig.PriceOracleAddress (ChainInfo.Chainconfig ci)))
    = ChainConfig.PriceOracleAddress (ChainInfo.Chainconfig ci) ->
    (forall msg,
        settle_out (settle_run h
          (InitSettlement Address_String ctx stateStore (Some ci)
             deployGasPrice chainID) w) <> Panicked msg)
    /\ settle_out (settle_run h
         (InitSettlement Address_String ctx stateStore (Some ci)
            deployGasPrice chainID) w)
       <> Returned (Failure (Plain (errors_New "init vault factory error")))
    /\ settle_out (settle_run h
         (InitSettlement Address_String ctx stateStore (Some ci)
            deployGasPrice chainID) w)
       <> Returned (Failure (Plain (errors_New "init swap service error")))
    /\ (forall obj,
           settle_out (settle_run h
             (InitSettlement Address_String ctx stateStore (Some ci)
                deployGasPrice chainID) w) = Returned (Success obj) ->
           exists ctx' chequeSigner swapProtocol addressbook accounting,
             settle_asked (settle_trace (settle_run h
               (InitSettlement Address_String ctx stateStore (Some ci)
                  deployGasPrice chainID) w))
             = [ Q_chain (Q_config_GetChainConfig (ChainInfo.ChainID ci));
                 Q_chain (Q_log_Infof "using custom factory address: %x"
                            [ABytes (ChainConfig.CurrentFactory
                                       (ChainInfo.Chainconfig ci))]);
                 Q_chain (Q_vault_NewFactory (ChainInfo.Backend_ ci)
                            (ChainInfo.TransactionService ci)
                            (ChainConfig.CurrentFactory
                               (ChainInfo.Chainconfig ci)));
                 Q_vault_NewChequeStore stateStore (SettleInfo.Factory_ obj)
                   chainID (ChainInfo.OverlayAddress ci)
                   (ChainInfo.TransactionService ci);
                 Q_vault_NewCashoutService stateStore (ChainInfo.Backend_ ci)
                   (ChainInfo.TransactionService ci)
                   (SettleInfo.ChequeStore_ obj);
                 Q_accounting_NewAccounting stateStore;
                 Q_vault_NewChequeSigner (ChainInfo.Signer_ ci)
                   (ChainInfo.ChainID ci);
                 Q_vault_Init ctx' (SettleInfo.Factory_ obj) stateStore
                   (ChainInfo.TransactionService ci) (ChainInfo.Backend_ ci)
                   (ChainInfo.ChainID ci) (ChainInfo.PeerID ci)
                   (ChainInfo.OverlayAddress ci) chequeSigner
                   (SettleInfo.ChequeStore_ obj);
                 Q_priceoracle_New
                   (ChainConfig.PriceOracleAddress (ChainInfo.Chainconfig ci))
                   (ChainInfo.TransactionService ci);
                 Q_swapprotocol_New (ChainInfo.OverlayAddress ci)
                   (SettleInfo.OracleService obj);
                 Q_swap_NewAddressbook stateStore;
                 Q_swap_New swapProtocol stateStore
                   (SettleInfo.VaultService_ obj)
                   (SettleInfo.ChequeStore_ obj) addressbook
                   (ChainInfo.ChainID ci) (SettleInfo.CashoutService_ obj)
                   accounting;
                 Q_SwapProtocol_SetSwap swapProtocol
                   (SettleInfo.SwapService_ obj);
                 Q_Accounting_SetPayFunc accounting
                   (SettleInfo.SwapService_ obj) ]).
Proof.
  intros Address_String S h w ctx stateStore ci deployGasPrice chainID cfg
    found Hcfg Hf1 Hf2 Hf3 Ho1 Ho2.
  destruct (initVaultFactory_custom_run (chain_handler h) (chain_world w)
              (ChainInfo.Backend_ ci) (ChainInfo.ChainID ci)
              (ChainInfo.TransactionService ci)
              (Address_String (ChainConfig.CurrentFactory
                                 (ChainInfo.Chainconfig ci)))
              cfg found Hcfg Hf1 Hf2) as (f & Hf & Hasked).
  rewrite Hf3 in Hasked.
  destruct (InitSettlement_stages Address_String h w ctx stateStore ci
              deployGasPrice chainID)
    as (rest & Htrace & Hcases).
  rewrite settle_run_lift in Htrace, Hcases.
  cbn [settle_out settle_trace] in Htrace, Hcases.
  rewrite Hf in Hcases.
  destruct Hcases
    as [[_ Hcase]
       | (obj' & ctx' & oracleAddress & chequeSigner & swapProtocol
          & addressbook & accounting & _ & Hok & Hcalls & _ & _ & Horacle)].
  - destruct Hcase
      as [(msg & H & [Hp | Hp])
         | [(H & err & He) | [H | [H | [(c & H) | (H & Hp)]]]]];
      try discriminate Hp; try discriminate He; try contradiction;
      rewrite H; repeat split; try discriminate; intros ? Hx;
      discriminate Hx.
  - rewrite Hok. repeat split; try discriminate.
    intros obj Hobj. injection Hobj as <-.
    destruct (Horacle Ho1) as [-> Hrest]. rewrite Ho2 in Hcalls.
    exists ctx', chequeSigner, swapProtocol, addressbook, accounting.
    rewrite Htrace, settle_asked_app, settle_asked_lifted, Hasked, Hrest,
      Hcalls.
    reflexivity.
Qed.

Lemma InitSettlement_addresses_from_chaininfo_witness :
  fst (SettleScript.serve
         (Q_chain (Q_config_GetChainConfig
                     (ChainInfo.ChainID SettleScript.chaininfo)))
         (settle_env (SettleScript.start SettleScript.healthy)))
  = (Some Script.config199, true)
  /\ Script.show_address
       (ChainConfig.CurrentFactory
          (ChainInfo.Chainconfig SettleScript.chaininfo)) <> EmptyString
  /\ common.IsHexAddress
       (Script.show_address
          (ChainConfig.CurrentFactory
             (ChainInfo.Chainconfig SettleScript.chaininfo))) = true
  /\ common.HexToAddress
       (Script.show_address
          (ChainConfig.CurrentFactory
             (ChainInfo.Chainconfig SettleScript.chaininfo)))
     = ChainConfig.CurrentFactory
         (ChainInfo.Chainconfig SettleScript.chaininfo)
  /\ Script.show_address
       (ChainConfig.PriceOracleAddress
          (ChainInfo.Chainconfig SettleScript.chaininfo)) <> EmptyString
  /\ common.HexToAddress
       (Script.show_address
          (ChainConfig.PriceOracleAddress
             (ChainInfo.Chainconfig SettleScript.chaininfo)))
     = ChainConfig.PriceOracleAddress
         (ChainInfo.Chainconfig SettleScript.chaininfo)
  /\ settle_out (settle_run SettleScript.serve
       (InitSettlement Script.show_address (ctx_ref 0) (store_ref 0)
          (Some SettleScript.chaininfo) "" 7)
       (SettleScript.start SettleScript.healthy))
     <> Returned (Failure (Plain (errors_New "init vault factory error"))).
Proof.
  assert (Hcfg : fst (SettleScript.serve
                        (Q_chain (Q_config_GetChainConfig
                                    (ChainInfo.ChainID SettleScript.chaininfo)))
                        (settle_env (SettleScript.start SettleScript.healthy)))
                 = (Some Script.config199, true)) by reflexivity.
  assert (Hf1 : Script.show_address
                  (ChainConfig.CurrentFactory
                     (ChainInfo.Chainconfig SettleScript.chaininfo))
                <> EmptyString) by discriminate.
  assert (Hf2 : common.IsHexAddress
                  (Script.show_address
                     (ChainConfig.CurrentFactory
                        (ChainInfo.Chainconfig SettleScript.chaininfo)))
                = true) by reflexivity.
  assert (Hf3 : common.HexToAddress
                  (Script.show_address
                     (ChainConfig.CurrentFactory
                        (ChainInfo.Chainconfig SettleScript.chaininfo)))
                = ChainConfig.CurrentFactory
                    (ChainInfo.Chainconfig SettleScript.chaininfo))
    by reflexivity.
  assert (Ho1 : Script.show_address
                  (ChainConfig.PriceOracleAddress
                     (ChainInfo.Chainconfig SettleScript.chaininfo))
                <> EmptyString) by discriminate.
  assert (Ho2 : common.HexToAddress
                  (Script.show_address
                     (ChainConfig.PriceOracleAddress
                        (ChainInfo.Chainconfig SettleScript.chaininfo)))
                = ChainConfig.PriceOracleAddress
                    (ChainInfo.Chainconfig SettleScript.chaininfo))
    by reflexivity.
  refine (conj Hcfg (conj Hf1 (conj Hf2 (conj Hf3 (conj Ho1 (conj Ho2 _)))))).
  exact (proj1 (proj2
           (InitSettlement_addresses_from_chaininfo Script.show_address
              SettleScript.t SettleScript.serve
              (SettleScript.start SettleScript.healthy) (ctx_ref 0)
              (store_ref 0) SettleScript.chaininfo "" 7 Script.config199
              true Hcfg Hf1 Hf2 Hf3 Ho1 Ho2))).
Defined.
